(** * Restocking recommendations and supply-chain analytics

    A shallow embedding of the decision logic of
    [Task_2--3/restocking_system.py] (class [RestockingSystem]) and of
    [Task_2--3/business_insights_decision_making_task3.py] (class
    [SupplyChainAnalytics]), followed by the properties of that logic.

    Modelling conventions.
    - The SQLite tables are lists of records; a query is the list
      function its SELECT denotes (join = nested iteration, WHERE =
      filter, GROUP BY = one row per distinct key, ORDER BY = stable
      sort, LIMIT = [take]).
    - Python [int] and SQLite INTEGER are [Z].  Python [float] and
      SQLite REAL are read twice.  In [RestockingSystem] and
      [SupplyChainAnalytics] they are exact rationals [Q]: every
      operation is the real-number operation the float one
      approximates, so no rounding error, infinity or NaN is modelled.
      In [RestockingSystem64] they are IEEE 754 doubles ([Float64]):
      every operation rounds as the code's does, and the properties
      that depend on a rounded digit, those of the recommended
      quantity, are stated there.
    - A DATE column is the day number of the date it holds;
      [julianday(a) - julianday(b)] is then a difference of day numbers
      and the comparison of ISO date texts is the comparison of day
      numbers.  A nullable column is an [option].
    - A Python exception is the [Raise] branch of [result]. *)

From Stdlib Require Import ZArith QArith Qround Lia DecimalString SpecFloat.
From stdpp Require Import gmap strings list.

Local Open Scope Z_scope.

(** Closed goals are settled by evaluating the embedding. *)
Ltac by_evaluation := vm_compute; reflexivity.
Ltac Qle_by_evaluation := apply Qle_bool_iff; by_evaluation.

(** ** Python numbers and exceptions *)

Module Py.

Inductive exn : Type := ZeroDivisionError.

Inductive result (A : Type) : Type :=
| Ok (a : A)
| Raise (e : exn).
Arguments Ok {A} a.
Arguments Raise {A} e.

Definition bind {A B} (m : result A) (k : A → result B) : result B :=
  match m with
  | Ok a => k a
  | Raise e => Raise e
  end.

(** [x / y] on floats: raises on a zero divisor. *)
Definition truediv (x y : Q) : result Q :=
  if Qeq_bool y 0 then Raise ZeroDivisionError else Ok (x / y)%Q.

(** [int(x)]: truncation toward zero. *)
Definition int (x : Q) : Z := Z.quot (Qnum x) (Zpos (Qden x)).

(** Rounding to the nearest integer, ties to the even one: Python's
    [round(x)] and numpy's [rint]. *)
Definition round_half_even (x : Q) : Z :=
  let f := Qfloor x in
  match Qcompare (x - inject_Z f) (1 # 2) with
  | Lt => f
  | Gt => f + 1
  | Eq => if Z.even f then f else f + 1
  end.

(** [round(x, ndigits)] on a float, and pandas' [Series.round(ndigits)]. *)
Definition round (x : Q) (ndigits : nat) : Q :=
  let scale := inject_Z (10 ^ Z.of_nat ndigits) in
  (inject_Z (round_half_even (x * scale)) / scale)%Q.

(** A [dict] whose iteration order is observed: keys in insertion
    order, an assignment to a present key keeps its position. *)
Fixpoint dict_set {K V} `{EqDecision K} (k : K) (v : V) (d : list (K * V))
  : list (K * V) :=
  match d with
  | [] => [(k, v)]
  | (k', v') :: d' =>
      if decide (k = k') then (k, v) :: d' else (k', v') :: dict_set k v d'
  end.

(** A stable sort for a total preorder [leb]; [list.sort] and ORDER BY
    are both stable merges, and a stable sort has one possible result. *)
Fixpoint insert_sorted {A} (leb : A → A → bool) (x : A) (l : list A) : list A :=
  match l with
  | [] => [x]
  | y :: l' => if leb x y then x :: y :: l' else y :: insert_sorted leb x l'
  end.

Definition stable_sort {A} (leb : A → A → bool) (l : list A) : list A :=
  foldr (insert_sorted leb) [] l.

(** Every two neighbours of [l] are related by [R]: [R l[i] l[i+1]]
    at every index. *)
Definition neighbours {A} (R : A → A → Prop) (l : list A) : Prop :=
  ∀ i x y, l !! i = Some x → l !! S i = Some y → R x y.

(** [l.sort(key=key, reverse=True)] with float keys. *)
Definition sort_reverse {A} (key : A → Q) (l : list A) : list A :=
  stable_sort (λ x y, Qle_bool (key y) (key x)) l.

End Py.

#[global] Instance result_ret : MRet Py.result := @Py.Ok.
#[global] Instance result_bind : MBind Py.result := λ A B k m, Py.bind m k.

(** ** Python floats in double precision *)

Module Float64.

(** A Python [float] and an SQLite REAL are IEEE 754 binary64 numbers:
    53 bits of mantissa, infinities at exponent 1024.  The arithmetic
    is that of the Standard Library's specification of IEEE 754
    ([SpecFloat]): every operation rounds its exact result to the
    nearest double, ties to the even mantissa. *)
Definition prec : Z := 53.
Definition emax : Z := 1024.
Definition float : Type := spec_float.

Inductive exn : Type := ZeroDivisionError | OverflowError | ValueError.

Inductive result (A : Type) : Type :=
| Ok (a : A)
| Raise (e : exn).
Arguments Ok {A} a.
Arguments Raise {A} e.

Definition bind {A B} (m : result A) (k : A → result B) : result B :=
  match m with
  | Ok a => k a
  | Raise e => Raise e
  end.

(** [x + y], [x - y] and [x * y] on two floats: no exception, an
    overflow is an infinity. *)
Definition add : float → float → float := SFadd prec emax.
Definition sub : float → float → float := SFsub prec emax.
Definition mul : float → float → float := SFmul prec emax.

Definition is_zero (x : float) : bool :=
  match x with
  | S754_zero _ => true
  | _ => false
  end.

(** [x / y] on two floats: raises on a divisor [0.0] or [-0.0]. *)
Definition truediv (x y : float) : result float :=
  if is_zero y then Raise ZeroDivisionError else Ok (SFdiv prec emax x y).

(** The integer [n] as mantissa of exponent 0, however many bits it
    has: an operand of the one division that rounds a quotient of
    integers. *)
Definition integer (n : Z) : float :=
  match n with
  | Z0 => S754_zero false
  | Zpos m => S754_finite false m 0
  | Zneg m => S754_finite true m 0
  end.

(** The double nearest to a rational number: the value of a float
    literal, and of a quotient whose operands are exact. *)
Definition of_Q (q : Q) : float :=
  SFdiv prec emax (integer (Qnum q)) (integer (Zpos (Qden q))).

(** [float(n)], the conversion of the [int] operand of a float
    operation: the nearest double, or OverflowError. *)
Definition of_int (n : Z) : result float :=
  match binary_normalize prec emax n 0 false with
  | S754_infinity _ => Raise OverflowError
  | x => Ok x
  end.

(** [a / b] on two [int]s: the quotient of the integers, rounded once. *)
Definition int_truediv (a b : Z) : result float :=
  if b =? 0 then Raise ZeroDivisionError
  else match SFdiv prec emax (integer a) (integer b) with
       | S754_infinity _ => Raise OverflowError
       | x => Ok x
       end.

(** [x * n], [x + n] and [x - n] for a float [x] and an [int] [n]:
    [n] is converted first. *)
Definition mul_int (x : float) (n : Z) : result float :=
  bind (of_int n) (λ n', Ok (mul x n')).
Definition add_int (x : float) (n : Z) : result float :=
  bind (of_int n) (λ n', Ok (add x n')).
Definition sub_int (x : float) (n : Z) : result float :=
  bind (of_int n) (λ n', Ok (sub x n')).

(** Neither an infinity nor a NaN. *)
Definition is_finite (x : float) : bool :=
  match x with
  | S754_zero _ | S754_finite _ _ _ => true
  | S754_infinity _ | S754_nan => false
  end.

(** The number a finite double denotes: its mantissa times a power of
    two. *)
Definition to_Q (x : float) : Q :=
  match x with
  | S754_finite s m e =>
      let magnitude :=
        if 0 <=? e then inject_Z (Zpos m * 2 ^ e)
        else Zpos m # Z.to_pos (2 ^ (- e)) in
      if s then (- magnitude)%Q else magnitude
  | _ => 0%Q
  end.

(** [int(x)]: the number [x] denotes, truncated toward zero. *)
Definition int (x : float) : result Z :=
  match x with
  | S754_nan => Raise ValueError
  | S754_infinity _ => Raise OverflowError
  | _ => Ok (Py.int (to_Q x))
  end.

(** [round(x)]: the integer nearest to the number [x] denotes, ties to
    the even one. *)
Definition round_int (x : float) : result Z :=
  match x with
  | S754_nan => Raise ValueError
  | S754_infinity _ => Raise OverflowError
  | _ => Ok (Py.round_half_even (to_Q x))
  end.

(** [round(x, ndigits)]: the number [x] denotes is rounded to
    [ndigits] decimals, ties to even, and the double nearest to that
    decimal is returned; a zero keeps the sign of [x]; an infinity or
    a NaN is returned as it is. *)
Definition round (x : float) (ndigits : nat) : float :=
  match x with
  | S754_finite s _ _ =>
      match of_Q (Py.round (to_Q x) ndigits) with
      | S754_zero _ => S754_zero s
      | y => y
      end
  | _ => x
  end.

(** [a <= x] for an [int] [a] and a float [x]: the two numbers are
    compared exactly, [a] is not converted. *)
Definition int_le (a : Z) (x : float) : bool :=
  match x with
  | S754_nan => false
  | S754_infinity s => negb s
  | _ => Qle_bool (inject_Z a) (to_Q x)
  end.

(** [x <= y] on two floats: false when either is a NaN. *)
Definition leb : float → float → bool := SFleb.

(** [l.sort(key=key, reverse=True)] with float keys that are numbers.
    A NaN key compares false with every key, and the order [list.sort]
    leaves then is that of its merge steps, which an insertion does
    not follow; the elements are the same. *)
Definition sort_reverse {A} (key : A → float) (l : list A) : list A :=
  Py.stable_sort (λ x y, leb (key y) (key x)) l.

End Float64.

#[global] Instance result64_ret : MRet Float64.result := @Float64.Ok.
#[global] Instance result64_bind : MBind Float64.result :=
  λ A B k m, Float64.bind m k.

(** ** SQL aggregates *)

Module Sql.

(** GROUP BY: one group per distinct key, holding the rows of that key. *)
Definition group_by {K A} `{EqDecision K} (key : A → K) (rows : list A)
  : list (K * list A) :=
  (λ k, (k, filter (λ r, key r = k) rows)) <$> remove_dups (key <$> rows).

Definition sum_Z (l : list Z) : Z := foldr Z.add 0 l.
Definition sum_Q (l : list Q) : Q := foldr Qplus 0%Q l.

(** AVG over the non-NULL values of a group: NULL on none. *)
Definition avg (l : list Q) : option Q :=
  match l with
  | [] => None
  | _ => Some (sum_Q l / inject_Z (Z.of_nat (length l)))%Q
  end.

(** [x / y] on REAL operands: NULL on a zero divisor. *)
Definition div (x y : Q) : option Q :=
  if Qeq_bool y 0 then None else Some (x / y)%Q.

Definition Qmin (x y : Q) : Q := if Qle_bool x y then x else y.
Definition Qmax (x y : Q) : Q := if Qle_bool x y then y else x.

(** MIN and MAX: NULL on an empty group. *)
Definition min (l : list Q) : option Q :=
  match l with
  | [] => None
  | x :: l' => Some (foldl Qmin x l')
  end.

Definition max (l : list Q) : option Q :=
  match l with
  | [] => None
  | x :: l' => Some (foldl Qmax x l')
  end.

(** COUNT(DISTINCT e) *)
Definition count_distinct {A} `{EqDecision A} (l : list A) : Z :=
  Z.of_nat (length (remove_dups l)).

(** [x < y] with a nullable left operand: NULL when [x] is. *)
Definition lt (x : option Q) (y : Q) : option bool :=
  (λ v, negb (Qle_bool y v)) <$> x.

(** A WHEN branch is taken when its condition is true, not when it is
    false or NULL. *)
Definition when (c : option bool) : bool := default false c.

(** LEFT JOIN: the matching rows, or one all-NULL row when none match. *)
Definition left_join {B} (matches : list B) : list (option B) :=
  match matches with
  | [] => [None]
  | _ => Some <$> matches
  end.

End Sql.

(** ** The tables *)

Inductive OrderStatus : Type := Pending | Shipped | Delivered | Canceled.
Inductive ServiceLevel : Type := Standard | Express | Overnight.
Inductive ShipmentStatus : Type := InTransit | ShipmentDelivered | Delayed.

#[global] Instance OrderStatus_eq_dec : EqDecision OrderStatus.
Proof. solve_decision. Defined.
#[global] Instance ServiceLevel_eq_dec : EqDecision ServiceLevel.
Proof. solve_decision. Defined.

Record Order : Type := {
  o_order_id : string;
  o_customer_id : string;
  o_product_id : string;
  o_order_date : Z;
  o_order_status : OrderStatus;
  o_quantity : Z
}.

Record Shipment : Type := {
  s_shipment_id : string;
  s_order_id : string;
  s_warehouse_id : string;
  s_carrier_id : string;
  s_service_level : ServiceLevel;
  s_shipment_status : ShipmentStatus;
  s_ship_date : Z;
  s_estimated_delivery : Z;
  s_actual_delivery : option Z;
  s_tracking_number : string
}.

Record Inventory : Type := {
  i_product_id : string;
  i_warehouse_id : string;
  i_stock_quantity : Z;
  i_reserved_quantity : Z
}.

#[global] Instance Q_eq_dec : EqDecision Q.
Proof. solve_decision. Defined.

Record Product : Type := {
  p_product_id : string;
  p_product_name : string;
  p_product_category : string;
  p_unit_price : Q
}.

Record Warehouse : Type := {
  w_warehouse_id : string;
  w_warehouse_name : string;
  w_location : string;
  w_capacity : Z
}.

(** What [self.conn] reads from.  The customer and carrier tables are
    read by no query below. *)
Record Database : Type := {
  orders : list Order;
  shipment : list Shipment;
  inventory : list Inventory;
  product : list Product;
  warehouse : list Warehouse
}.

(** [o.order_status IN ('Shipped', 'Delivered')] *)
Definition shipped_or_delivered (o : Order) : bool :=
  match o_order_status o with
  | Shipped | Delivered => true
  | Pending | Canceled => false
  end.

(** ** restocking_system.py *)

Module RestockingSystem.

(** The rows of [orders o JOIN shipment s ON o.order_id = s.order_id]
    that pass [o.order_date >= cutoff AND o.order_status IN (...)]. *)
Definition demand_rows (db : Database) (cutoff : Z) : list (Order * Shipment) :=
  o ← orders db;
  s ← shipment db;
  if bool_decide (o_order_id o = s_order_id s)
     && (cutoff <=? o_order_date o) && shipped_or_delivered o
  then [(o, s)] else [].

Definition demand_key (r : Order * Shipment) : string * string :=
  (o_product_id r.1, s_warehouse_id r.2).

(** The query of [calculate_sales_velocity]: product_id, warehouse_id,
    SUM(o.quantity). *)
Definition sales_velocity_query (db : Database) (cutoff : Z)
  : list (string * string * Z) :=
  (λ g, (g.1.1, g.1.2, Sql.sum_Z ((λ r, o_quantity r.1) <$> g.2)))
    <$> Sql.group_by demand_key (demand_rows db cutoff).

Fixpoint velocity_loop (days : Z) (results : list (string * string * Z))
    (velocity : gmap (string * string) Q) : Py.result (gmap (string * string) Q) :=
  match results with
  | [] => mret velocity
  | (product_id, warehouse_id, total_sold) :: results' =>
      v ← Py.truediv (inject_Z total_sold) (inject_Z days);
      velocity_loop days results' (<[(product_id, warehouse_id) := v]> velocity)
  end.

Definition calculate_sales_velocity (db : Database) (today : Z) (days : Z)
  : Py.result (gmap (string * string) Q) :=
  let cutoff_date := today - days in
  velocity_loop days (sales_velocity_query db cutoff_date) ∅.

(** The dictionary [sales_velocity] of
    [calculate_restock_recommendations]: the result of
    [calculate_sales_velocity()] with its default window of 30 days,
    a call that divides by 30 and so returns. *)
Definition default_sales_velocity (db : Database) (today : Z)
  : gmap (string * string) Q :=
  match calculate_sales_velocity db today 30 with
  | Py.Ok velocity => velocity
  | Py.Raise _ => ∅
  end.

(** The rows of [shipment WHERE actual_delivery IS NOT NULL], each with
    [julianday(actual_delivery) - julianday(ship_date)]. *)
Definition delivery_days (ss : list Shipment) : list Q :=
  s ← ss;
  match s_actual_delivery s with
  | Some a => [inject_Z (a - s_ship_date s)]
  | None => []
  end.

Definition delivered (s : Shipment) : Prop := is_Some (s_actual_delivery s).

#[global] Instance delivered_dec s : Decision (delivered s).
Proof. unfold delivered. apply _. Defined.

(** The delivered shipments of one warehouse: its GROUP BY group. *)
Definition delivered_from (db : Database) (w : string) : list Shipment :=
  filter (λ s, s_warehouse_id s = w) (filter delivered (shipment db)).

(** The query of [get_average_shipment_time]: warehouse_id, AVG(...). *)
Definition shipment_time_query (db : Database) : list (string * option Q) :=
  (λ g, (g.1, Sql.avg (delivery_days g.2)))
    <$> Sql.group_by s_warehouse_id (filter delivered (shipment db)).

(** [avg_days if avg_days else 5.0]: [None] and [0.0] are both falsy. *)
Definition avg_days_or_default (avg_days : option Q) : Q :=
  match avg_days with
  | Some d => if Qeq_bool d 0 then 5%Q else d
  | None => 5%Q
  end.

Definition get_average_shipment_time (db : Database) : gmap string Q :=
  foldl (λ shipment_times r, <[r.1 := avg_days_or_default r.2]> shipment_times)
        ∅ (shipment_time_query db).

Record inventory_data : Type := {
  stock_quantity : Z;
  reserved_quantity : Z;
  available_quantity : Z
}.

(** The value stored for an inventory row. *)
Definition inventory_entry (r : Inventory) : inventory_data :=
  let available_qty := i_stock_quantity r - i_reserved_quantity r in
  {| stock_quantity := i_stock_quantity r;
     reserved_quantity := i_reserved_quantity r;
     available_quantity := available_qty |}.

Definition get_current_inventory (db : Database)
  : list (string * string * inventory_data) :=
  foldl (λ inv r,
           Py.dict_set (i_product_id r, i_warehouse_id r)
                       (inventory_entry r) inv)
        [] (inventory db).

Record recommendation : Type := {
  product_id : string;
  warehouse_id : string;
  recommended_restock_quantity : Z;
  current_available_stock : Z;
  sales_velocity_per_day : Q;
  avg_shipment_time_days : Q;
  reorder_point : Q;
  safety_stock : Q;
  target_stock : Q;
  urgency_score : Q
}.

Section engine.
Variable sales_velocity : gmap (string * string) Q.
Variable shipment_times : gmap string Q.
Variables safety_stock_days restock_threshold_days : Z.

(** The local variables of the loop body, as functions of the pair. *)
Definition velocity_of (product_id warehouse_id : string) : Q :=
  default (1 # 10)%Q (sales_velocity !! (product_id, warehouse_id)).

Definition shipment_time_of (warehouse_id : string) : Q :=
  default 5%Q (shipment_times !! warehouse_id).

Definition safety_stock_of (p w : string) : Q :=
  (velocity_of p w * inject_Z safety_stock_days)%Q.

Definition reorder_point_of (p w : string) : Q :=
  (velocity_of p w * (shipment_time_of w + inject_Z restock_threshold_days))%Q.

Definition replenishment_period : Z := 30.

Definition target_stock_of (p w : string) : Q :=
  (safety_stock_of p w + velocity_of p w * inject_Z replenishment_period)%Q.

Definition restock_needed (p w : string) (available_qty : Z) : bool :=
  Qle_bool (inject_Z available_qty) (reorder_point_of p w).

(** One iteration: the record appended, if any. *)
Definition recommend (item : string * string * inventory_data)
  : Py.result (option recommendation) :=
  let '(p, w, inventory_data) := item in
  let available_qty := available_quantity inventory_data in
  let velocity := velocity_of p w in
  let avg_shipment_time := shipment_time_of w in
  let safety_stock := safety_stock_of p w in
  let reorder_point := reorder_point_of p w in
  if restock_needed p w available_qty then
    let target_stock := target_stock_of p w in
    let recommended_qty :=
      Z.max 1 (Py.int (target_stock - inject_Z available_qty)) in
    ratio ← Py.truediv (reorder_point - inject_Z available_qty) reorder_point;
    mret (Some {| product_id := p;
                  warehouse_id := w;
                  recommended_restock_quantity := recommended_qty;
                  current_available_stock := available_qty;
                  sales_velocity_per_day := Py.round velocity 2;
                  avg_shipment_time_days := Py.round avg_shipment_time 1;
                  reorder_point := Py.round reorder_point 1;
                  safety_stock := Py.round safety_stock 1;
                  target_stock := Py.round target_stock 1;
                  urgency_score := Py.round (ratio * 100) 1 |})
  else mret None.

(** The [for] loop, appending to [recommendations]. *)
Fixpoint restock_loop (items : list (string * string * inventory_data))
    (recommendations : list recommendation) : Py.result (list recommendation) :=
  match items with
  | [] => mret recommendations
  | item :: items' =>
      r ← recommend item;
      restock_loop items'
        (match r with
         | Some rec => recommendations ++ [rec]
         | None => recommendations
         end)
  end.
End engine.

Definition calculate_restock_recommendations (db : Database) (today : Z)
    (safety_stock_days restock_threshold_days : Z)
  : Py.result (list recommendation) :=
  sales_velocity ← calculate_sales_velocity db today 30;
  let shipment_times := get_average_shipment_time db in
  let current_inventory := get_current_inventory db in
  recommendations ←
    restock_loop sales_velocity shipment_times
      safety_stock_days restock_threshold_days current_inventory [];
  mret (Py.sort_reverse urgency_score recommendations).

End RestockingSystem.

(** ** restocking_system.py in double precision *)

(** The functions of [RestockingSystem] once more, with every float the
    double the code computes.  The queries return integers, which are
    exact, and an average, which SQLite computes as the sum of the
    values divided by their number: the day differences being whole
    numbers, the sum is exact (below 2^53) and the average is the
    double nearest to the exact one. *)
Module RestockingSystem64.

Import RestockingSystem.

Fixpoint velocity_loop (days : Z) (results : list (string * string * Z))
    (velocity : gmap (string * string) Float64.float)
  : Float64.result (gmap (string * string) Float64.float) :=
  match results with
  | [] => mret velocity
  | (product_id, warehouse_id, total_sold) :: results' =>
      v ← Float64.int_truediv total_sold days;
      velocity_loop days results' (<[(product_id, warehouse_id) := v]> velocity)
  end.

Definition calculate_sales_velocity (db : Database) (today : Z) (days : Z)
  : Float64.result (gmap (string * string) Float64.float) :=
  let cutoff_date := today - days in
  velocity_loop days (sales_velocity_query db cutoff_date) ∅.

(** The dictionary [sales_velocity] of
    [calculate_restock_recommendations], when the call that computes
    it returns. *)
Definition default_sales_velocity (db : Database) (today : Z)
  : gmap (string * string) Float64.float :=
  match calculate_sales_velocity db today 30 with
  | Float64.Ok velocity => velocity
  | Float64.Raise _ => ∅
  end.

(** The query of [get_average_shipment_time]: warehouse_id, AVG(...). *)
Definition shipment_time_query (db : Database)
  : list (string * option Float64.float) :=
  (λ r : string * option Q, (r.1, Float64.of_Q <$> r.2))
    <$> RestockingSystem.shipment_time_query db.

(** [avg_days if avg_days else 5.0]: [None], [0.0] and [-0.0] are falsy. *)
Definition avg_days_or_default (avg_days : option Float64.float)
  : Float64.float :=
  match avg_days with
  | Some d => if Float64.is_zero d then Float64.of_Q 5 else d
  | None => Float64.of_Q 5
  end.

Definition get_average_shipment_time (db : Database)
  : gmap string Float64.float :=
  foldl (λ shipment_times r, <[r.1 := avg_days_or_default r.2]> shipment_times)
        ∅ (shipment_time_query db).

Record recommendation : Type := {
  product_id : string;
  warehouse_id : string;
  recommended_restock_quantity : Z;
  current_available_stock : Z;
  sales_velocity_per_day : Float64.float;
  avg_shipment_time_days : Float64.float;
  reorder_point : Float64.float;
  safety_stock : Float64.float;
  target_stock : Float64.float;
  urgency_score : Float64.float
}.

Section engine.
Variable sales_velocity : gmap (string * string) Float64.float.
Variable shipment_times : gmap string Float64.float.
Variables safety_stock_days restock_threshold_days : Z.

(** The local variables of the loop body, as functions of the pair.
    An [int] operand is converted to a float before the operation. *)
Definition velocity_of (product_id warehouse_id : string) : Float64.float :=
  default (Float64.of_Q (1 # 10)) (sales_velocity !! (product_id, warehouse_id)).

Definition shipment_time_of (warehouse_id : string) : Float64.float :=
  default (Float64.of_Q 5) (shipment_times !! warehouse_id).

Definition safety_stock_of (p w : string) : Float64.result Float64.float :=
  Float64.mul_int (velocity_of p w) safety_stock_days.

Definition reorder_point_of (p w : string) : Float64.result Float64.float :=
  lead_time ← Float64.add_int (shipment_time_of w) restock_threshold_days;
  mret (Float64.mul (velocity_of p w) lead_time).

Definition replenishment_period : Z := 30.

Definition target_stock_of (p w : string) : Float64.result Float64.float :=
  safety_stock ← safety_stock_of p w;
  replenishment ← Float64.mul_int (velocity_of p w) replenishment_period;
  mret (Float64.add safety_stock replenishment).

(** One iteration: the record appended, if any. *)
Definition recommend (item : string * string * inventory_data)
  : Float64.result (option recommendation) :=
  let '(p, w, inventory_data) := item in
  let available_qty := available_quantity inventory_data in
  let velocity := velocity_of p w in
  let avg_shipment_time := shipment_time_of w in
  safety_stock ← safety_stock_of p w;
  reorder_point ← reorder_point_of p w;
  if Float64.int_le available_qty reorder_point then
    replenishment ← Float64.mul_int velocity replenishment_period;
    let target_stock := Float64.add safety_stock replenishment in
    difference ← Float64.sub_int target_stock available_qty;
    truncated ← Float64.int difference;
    let recommended_qty := Z.max 1 truncated in
    gap ← Float64.sub_int reorder_point available_qty;
    ratio ← Float64.truediv gap reorder_point;
    percentage ← Float64.mul_int ratio 100;
    mret (Some {| product_id := p;
                  warehouse_id := w;
                  recommended_restock_quantity := recommended_qty;
                  current_available_stock := available_qty;
                  sales_velocity_per_day := Float64.round velocity 2;
                  avg_shipment_time_days := Float64.round avg_shipment_time 1;
                  reorder_point := Float64.round reorder_point 1;
                  safety_stock := Float64.round safety_stock 1;
                  target_stock := Float64.round target_stock 1;
                  urgency_score := Float64.round percentage 1 |})
  else mret None.

(** The [for] loop, appending to [recommendations]. *)
Fixpoint restock_loop (items : list (string * string * inventory_data))
    (recommendations : list recommendation)
  : Float64.result (list recommendation) :=
  match items with
  | [] => mret recommendations
  | item :: items' =>
      r ← recommend item;
      restock_loop items'
        (match r with
         | Some rec => recommendations ++ [rec]
         | None => recommendations
         end)
  end.
End engine.

Definition calculate_restock_recommendations (db : Database) (today : Z)
    (safety_stock_days restock_threshold_days : Z)
  : Float64.result (list recommendation) :=
  sales_velocity ← calculate_sales_velocity db today 30;
  let shipment_times := get_average_shipment_time db in
  let current_inventory := get_current_inventory db in
  recommendations ←
    restock_loop sales_velocity shipment_times
      safety_stock_days restock_threshold_days current_inventory [];
  mret (Float64.sort_reverse urgency_score recommendations).

End RestockingSystem64.

(** ** business_insights_decision_making_task3.py *)

Module SupplyChainAnalytics.

Definition service_level_text (l : ServiceLevel) : string :=
  match l with
  | Standard => "Standard"
  | Express => "Express"
  | Overnight => "Overnight"
  end.

Record carrier_performance : Type := {
  carrier_id : string;
  service_level : ServiceLevel;
  total_shipments : Z;
  avg_delivery_days : option Q;
  min_delivery_days : option Q;
  max_delivery_days : option Q;
  avg_delay_days : option Q;
  on_time_percentage : option Q
}.

Definition delivered (s : Shipment) : Prop := is_Some (s_actual_delivery s).

#[global] Instance delivered_dec s : Decision (delivered s).
Proof. unfold delivered. apply _. Defined.

(** [s.actual_delivery <= s.estimated_delivery]; NULL, hence not
    counted, on a NULL actual delivery. *)
Definition on_time (s : Shipment) : bool :=
  match s_actual_delivery s with
  | Some a => a <=? s_estimated_delivery s
  | None => false
  end.

(** Delivered, and no later than estimated. *)
Definition delivered_by_estimate (s : Shipment) : Prop :=
  ∃ a, s_actual_delivery s = Some a ∧ a ≤ s_estimated_delivery s.

(** [julianday(s.actual_delivery) - julianday(d)] over the rows where
    it is not NULL. *)
Definition days_after (d : Shipment → Z) (group : list Shipment) : list Q :=
  s ← group;
  match s_actual_delivery s with
  | Some a => [inject_Z (a - d s)]
  | None => []
  end.

Definition count {A} (l : list A) : Z := Z.of_nat (length l).

(** [COUNT(CASE WHEN ... THEN 1 END) * 100.0 / COUNT( * )] *)
Definition on_time_ratio (group : list Shipment) : option Q :=
  Sql.div (inject_Z (count (filter (λ s, on_time s = true) group)) * 100)%Q
          (inject_Z (count group)).

(** The delivered shipments of one carrier and service level: its
    GROUP BY group. *)
Definition carrier_group (db : Database) (carrier : string) (level : ServiceLevel)
  : list Shipment :=
  filter (λ s, (s_carrier_id s, s_service_level s) = (carrier, level))
         (filter delivered (shipment db)).

Definition carrier_row (g : string * ServiceLevel * list Shipment)
  : carrier_performance :=
  {| carrier_id := g.1.1;
     service_level := g.1.2;
     total_shipments := count g.2;
     avg_delivery_days := Sql.avg (days_after s_ship_date g.2);
     min_delivery_days := Sql.min (days_after s_ship_date g.2);
     max_delivery_days := Sql.max (days_after s_ship_date g.2);
     avg_delay_days := Sql.avg (days_after s_estimated_delivery g.2);
     on_time_percentage := on_time_ratio g.2 |}.

(** ORDER BY s.carrier_id, s.service_level *)
Definition carrier_order (x y : carrier_performance) : bool :=
  match String.compare (carrier_id x) (carrier_id y) with
  | Lt => true
  | Gt => false
  | Eq => String.leb (service_level_text (service_level x))
                     (service_level_text (service_level y))
  end.

Definition carrier_query (db : Database) : list carrier_performance :=
  Py.stable_sort carrier_order
    (carrier_row <$>
       Sql.group_by (λ s, (s_carrier_id s, s_service_level s))
                    (filter delivered (shipment db))).

(** [df[col] = df[col].round(2)] for the five numerical columns. *)
Definition round_carrier_row (r : carrier_performance) : carrier_performance :=
  {| carrier_id := carrier_id r;
     service_level := service_level r;
     total_shipments := total_shipments r;
     avg_delivery_days := (λ x, Py.round x 2) <$> avg_delivery_days r;
     min_delivery_days := (λ x, Py.round x 2) <$> min_delivery_days r;
     max_delivery_days := (λ x, Py.round x 2) <$> max_delivery_days r;
     avg_delay_days := (λ x, Py.round x 2) <$> avg_delay_days r;
     on_time_percentage := (λ x, Py.round x 2) <$> on_time_percentage r |}.

Definition calculate_carrier_delivery_performance (db : Database)
  : list carrier_performance :=
  round_carrier_row <$> carrier_query db.

Record product_sales : Type := {
  ps_product_id : string;
  ps_product_name : string;
  ps_product_category : string;
  ps_unit_price : Q;
  total_units_sold : Z;
  total_orders : Z;
  total_revenue : Q;
  avg_order_quantity : option Q;
  unique_customers : Z
}.

(** [product p JOIN orders o ON p.product_id = o.product_id] with the
    WHERE clause applied. *)
Definition sales_rows (db : Database) (cutoff : Z) : list (Product * Order) :=
  p ← product db;
  o ← orders db;
  if bool_decide (p_product_id p = o_product_id o)
     && (cutoff <=? o_order_date o) && shipped_or_delivered o
  then [(p, o)] else [].

(** The GROUP BY columns; the price is compared as a number. *)
Definition product_key (r : Product * Order) : string * string * string * Q :=
  (p_product_id r.1, p_product_name r.1, p_product_category r.1,
   Qred (p_unit_price r.1)).

Definition product_row (g : string * string * string * Q * list (Product * Order))
  : product_sales :=
  {| ps_product_id := g.1.1.1.1;
     ps_product_name := g.1.1.1.2;
     ps_product_category := g.1.1.2;
     ps_unit_price := g.1.2;
     total_units_sold := Sql.sum_Z ((λ r, o_quantity r.2) <$> g.2);
     total_orders := Sql.count_distinct ((λ r, o_order_id r.2) <$> g.2);
     total_revenue :=
       Sql.sum_Q ((λ r, inject_Z (o_quantity r.2) * p_unit_price r.1)%Q <$> g.2);
     avg_order_quantity := Sql.avg ((λ r, inject_Z (o_quantity r.2)) <$> g.2);
     unique_customers := Sql.count_distinct ((λ r, o_customer_id r.2) <$> g.2) |}.

(** ORDER BY total_units_sold DESC LIMIT 5 *)
Definition top_selling_query (db : Database) (cutoff : Z) : list product_sales :=
  take 5
    (Py.stable_sort (λ x y, total_units_sold y <=? total_units_sold x)
       (product_row <$> Sql.group_by product_key (sales_rows db cutoff))).

Definition round_product_row (r : product_sales) : product_sales :=
  {| ps_product_id := ps_product_id r;
     ps_product_name := ps_product_name r;
     ps_product_category := ps_product_category r;
     ps_unit_price := Py.round (ps_unit_price r) 2;
     total_units_sold := total_units_sold r;
     total_orders := total_orders r;
     total_revenue := Py.round (total_revenue r) 2;
     avg_order_quantity := (λ x, Py.round x 2) <$> avg_order_quantity r;
     unique_customers := unique_customers r |}.

Definition identify_top_selling_products (db : Database) (today : Z) (days : Z)
  : list product_sales :=
  let cutoff_date := today - days in
  round_product_row <$> top_selling_query db cutoff_date.

(** The [demand_analysis] CTE, one row per (product, warehouse) with
    trailing demand. *)
Record demand : Type := {
  da_product_id : string;
  da_warehouse_id : string;
  order_frequency : Z;
  total_demand_30days : Z;
  avg_demand_per_order : option Q;
  da_daily_demand_rate : Q
}.

Definition demand_analysis (db : Database) (today : Z) : list demand :=
  (λ g : string * string * list (Order * Shipment),
     let quantities := (λ r, o_quantity r.1) <$> g.2 in
     {| da_product_id := g.1.1;
        da_warehouse_id := g.1.2;
        order_frequency := count g.2;
        total_demand_30days := Sql.sum_Z quantities;
        avg_demand_per_order := Sql.avg (inject_Z <$> quantities);
        da_daily_demand_rate := (inject_Z (Sql.sum_Z quantities) / 30)%Q |})
    <$> Sql.group_by RestockingSystem.demand_key
          (RestockingSystem.demand_rows db (today - 30)).

(** The [current_inventory] CTE. *)
Definition available_stock (i : Inventory) : Z :=
  i_stock_quantity i - i_reserved_quantity i.

(** COALESCE(da.daily_demand_rate, 0.1) *)
Definition demand_rate (da : option demand) : Q :=
  default (1 # 10)%Q (da_daily_demand_rate <$> da).

(** The first CASE of the SELECT list. *)
Definition days_of_stock_of (available : Z) (da : option demand) : Q :=
  if available =? 0 then 0%Q
  else if negb (Qle_bool (demand_rate da) 0)
       then (inject_Z available / demand_rate da)%Q
       else 999%Q.

Definition stock_statuses : list string :=
  ["OUT_OF_STOCK"; "CRITICAL"; "LOW"; "ADEQUATE"].

(** The second CASE of the SELECT list. *)
Definition stock_status_of (available : Z) (da : option demand) : string :=
  let days := Sql.div (inject_Z available) (demand_rate da) in
  if available =? 0 then "OUT_OF_STOCK"
  else if Sql.when (Sql.lt days 7) then "CRITICAL"
  else if Sql.when (Sql.lt days 14) then "LOW"
  else "ADEQUATE".

Record shortage : Type := {
  sh_warehouse_id : string;
  sh_warehouse_name : string;
  sh_location : string;
  sh_product_id : string;
  sh_product_name : option string;
  sh_product_category : option string;
  sh_available_stock : Z;
  daily_demand_rate : Q;
  demand_last_30days : Z;
  days_of_stock : Q;
  stock_status : string
}.

(** A row of the FROM clause: warehouse, inventory, and the two LEFT
    JOINed tables. *)
Definition joined : Type := Warehouse * Inventory * option demand * option Product.

Definition shortage_join (db : Database) (today : Z) : list joined :=
  w ← warehouse db;
  ci ← inventory db;
  da ← Sql.left_join
          (filter (λ da, i_product_id ci = da_product_id da
                         ∧ i_warehouse_id ci = da_warehouse_id da)
                  (demand_analysis db today));
  p ← Sql.left_join
         (filter (λ p, i_product_id ci = p_product_id p) (product db));
  if bool_decide (i_warehouse_id ci = w_warehouse_id w)
  then [(w, ci, da, p)] else [].

Definition shortage_row (j : joined) : shortage :=
  let '(w, ci, da, p) := j in
  {| sh_warehouse_id := w_warehouse_id w;
     sh_warehouse_name := w_warehouse_name w;
     sh_location := w_location w;
     sh_product_id := i_product_id ci;
     sh_product_name := p_product_name <$> p;
     sh_product_category := p_product_category <$> p;
     sh_available_stock := available_stock ci;
     daily_demand_rate := demand_rate da;
     demand_last_30days := default 0 (total_demand_30days <$> da);
     days_of_stock := days_of_stock_of (available_stock ci) da;
     stock_status := stock_status_of (available_stock ci) da |}.

Definition status_priority (stock_status : string) : Z :=
  if String.eqb stock_status "OUT_OF_STOCK" then 1
  else if String.eqb stock_status "CRITICAL" then 2
  else if String.eqb stock_status "LOW" then 3
  else 4.

(** [da.daily_demand_rate DESC]: NULL sorts below every number. *)
Definition rate_desc (x y : option demand) : bool :=
  match x, y with
  | _, None => true
  | None, Some _ => false
  | Some a, Some b => Qle_bool (da_daily_demand_rate b) (da_daily_demand_rate a)
  end.

(** ORDER BY w.warehouse_id, CASE stock_status ... END,
    da.daily_demand_rate DESC *)
Definition shortage_order (x y : joined) : bool :=
  match String.compare (sh_warehouse_id (shortage_row x))
                       (sh_warehouse_id (shortage_row y)) with
  | Lt => true
  | Gt => false
  | Eq =>
      let px := status_priority (stock_status (shortage_row x)) in
      let py := status_priority (stock_status (shortage_row y)) in
      if px <? py then true
      else if py <? px then false
      else rate_desc x.1.2 y.1.2
  end.

Definition shortage_query (db : Database) (today : Z) : list shortage :=
  shortage_row <$> Py.stable_sort shortage_order (shortage_join db today).

Definition round_shortage_row (r : shortage) : shortage :=
  {| sh_warehouse_id := sh_warehouse_id r;
     sh_warehouse_name := sh_warehouse_name r;
     sh_location := sh_location r;
     sh_product_id := sh_product_id r;
     sh_product_name := sh_product_name r;
     sh_product_category := sh_product_category r;
     sh_available_stock := sh_available_stock r;
     daily_demand_rate := Py.round (daily_demand_rate r) 3;
     demand_last_30days := demand_last_30days r;
     days_of_stock := Py.round (days_of_stock r) 1;
     stock_status := stock_status r |}.

Definition analyze_inventory_shortages (db : Database) (today : Z)
  : list shortage :=
  round_shortage_row <$> shortage_query db today.

End SupplyChainAnalytics.

(** ** The recommended quantity as the specification words it *)

Module Spec.

(** [max(1, round(target_stock - available_quantity))], rounding to the
    nearest integer. *)
Definition recommended_quantity (target_stock : Float64.float)
    (available_quantity : Z) : Float64.result Z :=
  difference ← Float64.sub_int target_stock available_quantity;
  rounded ← Float64.round_int difference;
  mret (Z.max 1 rounded).

End Spec.

(** ** Sample data *)

Module Examples.

Definition mk_order (id product : string) (date : Z) (status : OrderStatus)
    (quantity : Z) : Order :=
  {| o_order_id := id; o_customer_id := "C001"; o_product_id := product;
     o_order_date := date; o_order_status := status; o_quantity := quantity |}.

Definition mk_shipment (id order wh : string) (ship est : Z)
    (actual : option Z) : Shipment :=
  {| s_shipment_id := id; s_order_id := order; s_warehouse_id := wh;
     s_carrier_id := "CarrierA"; s_service_level := Standard;
     s_shipment_status :=
       match actual with Some _ => ShipmentDelivered | None => InTransit end;
     s_ship_date := ship; s_estimated_delivery := est;
     s_actual_delivery := actual; s_tracking_number := "TRK" +:+ id |}.

Definition mk_inventory (product wh : string) (stock reserved : Z) : Inventory :=
  {| i_product_id := product; i_warehouse_id := wh;
     i_stock_quantity := stock; i_reserved_quantity := reserved |}.

Definition products : list Product :=
  [ {| p_product_id := "P001"; p_product_name := "Product P001";
       p_product_category := "Books"; p_unit_price := 25 # 2 |};
    {| p_product_id := "P002"; p_product_name := "Product P002";
       p_product_category := "Toys"; p_unit_price := 40 |} ].

Definition warehouses : list Warehouse :=
  [ {| w_warehouse_id := "W01"; w_warehouse_name := "Warehouse W01";
       w_location := "New York"; w_capacity := 5000 |};
    {| w_warehouse_id := "W02"; w_warehouse_name := "Warehouse W02";
       w_location := "Chicago"; w_capacity := 3000 |} ].

Definition today : Z := 100.

(** 60 units of P001 sold from W01 in the window and delivered in 3
    days; 5 units of it left there, 200 units of P002 in W02. *)
Definition scenario_db : Database :=
  {| orders := [mk_order "O0001" "P001" 90 Delivered 60];
     shipment := [mk_shipment "S0001" "O0001" "W01" 91 95 (Some 94)];
     inventory := [mk_inventory "P001" "W01" 5 0; mk_inventory "P002" "W02" 230 30];
     product := products;
     warehouse := warehouses |}.

Definition scenario_recommendation : RestockingSystem.recommendation :=
  {| RestockingSystem.product_id := "P001";
     RestockingSystem.warehouse_id := "W01";
     RestockingSystem.recommended_restock_quantity := 83;
     RestockingSystem.current_available_stock := 5;
     RestockingSystem.sales_velocity_per_day := 200 # 100;
     RestockingSystem.avg_shipment_time_days := 30 # 10;
     RestockingSystem.reorder_point := 200 # 10;
     RestockingSystem.safety_stock := 280 # 10;
     RestockingSystem.target_stock := 880 # 10;
     RestockingSystem.urgency_score := 750 # 10 |}.

(** The same sales, with P002 out of stock in W01 as well. *)
Definition ranking_db : Database :=
  {| orders := [mk_order "O0001" "P001" 90 Delivered 60];
     shipment := [mk_shipment "S0001" "O0001" "W01" 91 95 (Some 94)];
     inventory := [mk_inventory "P001" "W01" 5 0; mk_inventory "P002" "W01" 0 0];
     product := products;
     warehouse := warehouses |}.

Definition ranking_recommendations : list RestockingSystem.recommendation :=
  [ {| RestockingSystem.product_id := "P002";
       RestockingSystem.warehouse_id := "W01";
       RestockingSystem.recommended_restock_quantity := 4;
       RestockingSystem.current_available_stock := 0;
       RestockingSystem.sales_velocity_per_day := 10 # 100;
       RestockingSystem.avg_shipment_time_days := 30 # 10;
       RestockingSystem.reorder_point := 10 # 10;
       RestockingSystem.safety_stock := 14 # 10;
       RestockingSystem.target_stock := 44 # 10;
       RestockingSystem.urgency_score := 1000 # 10 |};
    scenario_recommendation ].

(** The same sales, with 100 units of P001 left in W01. *)
Definition overstock_db : Database :=
  {| orders := [mk_order "O0001" "P001" 90 Delivered 60];
     shipment := [mk_shipment "S0001" "O0001" "W01" 91 95 (Some 94)];
     inventory := [mk_inventory "P001" "W01" 100 0];
     product := products;
     warehouse := warehouses |}.

Definition overstock_recommendations : list RestockingSystem.recommendation :=
  [ {| RestockingSystem.product_id := "P001";
       RestockingSystem.warehouse_id := "W01";
       RestockingSystem.recommended_restock_quantity := 1;
       RestockingSystem.current_available_stock := 100;
       RestockingSystem.sales_velocity_per_day := 200 # 100;
       RestockingSystem.avg_shipment_time_days := 30 # 10;
       RestockingSystem.reorder_point := 1260 # 10;
       RestockingSystem.safety_stock := 280 # 10;
       RestockingSystem.target_stock := 880 # 10;
       RestockingSystem.urgency_score := 206 # 10 |} ].

(** The same sales, with both products out of stock in W01. *)
Definition tie_db : Database :=
  {| orders := [mk_order "O0001" "P001" 90 Delivered 60];
     shipment := [mk_shipment "S0001" "O0001" "W01" 91 95 (Some 94)];
     inventory := [mk_inventory "P001" "W01" 0 0; mk_inventory "P002" "W01" 0 0];
     product := products;
     warehouse := warehouses |}.

(** No order and no shipment; one unit of P002 in W02. *)
Definition idle_db : Database :=
  {| orders := [];
     shipment := [];
     inventory := [mk_inventory "P002" "W02" 1 0];
     product := products;
     warehouse := warehouses |}.

(** 2 units of P001 sold from W01, still in transit; none left there. *)
Definition fraction_db : Database :=
  {| orders := [mk_order "O0001" "P001" 90 Shipped 2];
     shipment := [mk_shipment "S0001" "O0001" "W01" 91 96 None];
     inventory := [mk_inventory "P001" "W01" 0 0];
     product := products;
     warehouse := warehouses |}.

(** 123 units of P001 sold from W01, still in transit; none left there. *)
Definition month_db : Database :=
  {| orders := [mk_order "O0001" "P001" 90 Shipped 123];
     shipment := [mk_shipment "S0001" "O0001" "W01" 91 96 None];
     inventory := [mk_inventory "P001" "W01" 0 0];
     product := products;
     warehouse := warehouses |}.

(** The record of [month_db] with 30 days of safety stock: each float
    is the double nearest to the decimal written. *)
Definition month_recommendation : RestockingSystem64.recommendation :=
  {| RestockingSystem64.product_id := "P001";
     RestockingSystem64.warehouse_id := "W01";
     RestockingSystem64.recommended_restock_quantity := 245;
     RestockingSystem64.current_available_stock := 0;
     RestockingSystem64.sales_velocity_per_day := Float64.of_Q (41 # 10);
     RestockingSystem64.avg_shipment_time_days := Float64.of_Q 5;
     RestockingSystem64.reorder_point := Float64.of_Q (492 # 10);
     RestockingSystem64.safety_stock := Float64.of_Q 123;
     RestockingSystem64.target_stock := Float64.of_Q 246;
     RestockingSystem64.urgency_score := Float64.of_Q 100 |}.

(** 9 units of P001 sold from W01 in the window; three deliveries from
    W01, in 6, 6 and 7 days; 4 units of P001 left there. *)
Definition thirds_db : Database :=
  {| orders := [mk_order "O0001" "P001" 90 Delivered 9;
                mk_order "O0002" "P002" 10 Delivered 1;
                mk_order "O0003" "P002" 11 Delivered 1];
     shipment := [mk_shipment "S0001" "O0001" "W01" 91 99 (Some 97);
                  mk_shipment "S0002" "O0002" "W01" 11 16 (Some 17);
                  mk_shipment "S0003" "O0003" "W01" 12 17 (Some 19)];
     inventory := [mk_inventory "P001" "W01" 4 0];
     product := products;
     warehouse := warehouses |}.

(** An inventory row of a warehouse that the warehouse table lacks,
    beside one of a warehouse it has. *)
Definition orphan_db : Database :=
  {| orders := [];
     shipment := [];
     inventory := [mk_inventory "P001" "W99" 3 0; mk_inventory "P002" "W02" 1 0];
     product := products;
     warehouse := warehouses |}.

(** A shipped order of quantity 0 for a product that is out of stock. *)
Definition zero_quantity_db : Database :=
  {| orders := [mk_order "O0001" "P001" 90 Shipped 0];
     shipment := [mk_shipment "S0001" "O0001" "W01" 91 96 None];
     inventory := [mk_inventory "P001" "W01" 0 0];
     product := products;
     warehouse := warehouses |}.

(** One shipment from W01, delivered on the day it was shipped. *)
Definition same_day_db : Database :=
  {| orders := [mk_order "O0001" "P001" 90 Delivered 3];
     shipment := [mk_shipment "S0001" "O0001" "W01" 91 93 (Some 91)];
     inventory := [mk_inventory "P001" "W01" 40 0];
     product := products;
     warehouse := warehouses |}.

Definition mk_product (id : string) (price : Q) : Product :=
  {| p_product_id := id; p_product_name := "Product " +:+ id;
     p_product_category := "Books"; p_unit_price := price |}.

(** Six products sold in the last quarter, one of them in two orders,
    and a canceled order. *)
Definition sales_db : Database :=
  {| orders :=
       [ mk_order "O0001" "P001" 40 Delivered 3;
         mk_order "O0002" "P002" 50 Shipped 7;
         mk_order "O0003" "P003" 60 Delivered 4;
         mk_order "O0004" "P004" 70 Delivered 9;
         mk_order "O0005" "P005" 80 Shipped 1;
         mk_order "O0006" "P006" 90 Delivered 5;
         mk_order "O0007" "P001" 95 Delivered 3;
         mk_order "O0008" "P005" 96 Canceled 50 ];
     shipment := [];
     inventory := [];
     product :=
       [ mk_product "P001" 10; mk_product "P002" (5 # 2); mk_product "P003" 4;
         mk_product "P004" 1; mk_product "P005" 99; mk_product "P006" 20 ];
     warehouse := warehouses |}.

Definition scenario_carrier_performance
  : SupplyChainAnalytics.carrier_performance :=
  {| SupplyChainAnalytics.carrier_id := "CarrierA";
     SupplyChainAnalytics.service_level := Standard;
     SupplyChainAnalytics.total_shipments := 1;
     SupplyChainAnalytics.avg_delivery_days := Some (300 # 100)%Q;
     SupplyChainAnalytics.min_delivery_days := Some (300 # 100)%Q;
     SupplyChainAnalytics.max_delivery_days := Some (300 # 100)%Q;
     SupplyChainAnalytics.avg_delay_days := Some (-100 # 100)%Q;
     SupplyChainAnalytics.on_time_percentage := Some (10000 # 100)%Q |}.

(** Two delivered shipments of one carrier, Standard then Express. *)
Definition crowded_pair_db : Database :=
  {| orders := [mk_order "O0001" "P001" 90 Delivered 2;
                mk_order "O0002" "P001" 91 Delivered 1];
     shipment :=
       [ mk_shipment "S0001" "O0001" "W01" 91 95 (Some 94);
         {| s_shipment_id := "S0002"; s_order_id := "O0002";
            s_warehouse_id := "W01"; s_carrier_id := "CarrierA";
            s_service_level := Express;
            s_shipment_status := ShipmentDelivered;
            s_ship_date := 92; s_estimated_delivery := 94;
            s_actual_delivery := Some 95; s_tracking_number := "TRKS0002" |} ];
     inventory := [mk_inventory "P001" "W01" 40 0];
     product := products;
     warehouse := warehouses |}.

(** Rows numbered [first], [first + 1], ... *)
Fixpoint numbered {A} (row : N → A) (first : N) (rows : nat) : list A :=
  match rows with
  | O => []
  | S rows' => row first :: numbered row (N.succ first) rows'
  end.

Definition numeral (n : N) : string := NilEmpty.string_of_uint (N.to_uint n).

(** 25000 delivered shipments of one carrier and service level, the
    last of them a day late. *)
Definition late_shipment : Shipment :=
  mk_shipment "S25000" "O25000" "W01" 91 95 (Some 96).

Definition crowded_db : Database :=
  {| orders :=
       numbered (λ n, mk_order ("O" +:+ numeral n) "P001" 90 Delivered 1)
                1 (Z.to_nat 25000);
     shipment :=
       numbered (λ n, mk_shipment ("S" +:+ numeral n) ("O" +:+ numeral n) "W01"
                        91 95 (Some 94))
                1 (Z.to_nat 24999)
       ++ [late_shipment];
     inventory := [mk_inventory "P001" "W01" 500 0];
     product := products;
     warehouse := warehouses |}.

End Examples.

(** ** Groups and loops named for the further properties *)

Module Further.

(** The joined rows of one (product, warehouse) pair in the window:
    the GROUP BY group of the pair in [calculate_sales_velocity]. *)
Definition pair_demand (db : Database) (cutoff : Z) (p w : string)
  : list (Order * Shipment) :=
  filter (λ r, RestockingSystem.demand_key r = (p, w))
         (RestockingSystem.demand_rows db cutoff).

(** SUM(o.quantity) over that group. *)
Definition total_sold (db : Database) (cutoff : Z) (p w : string) : Z :=
  Sql.sum_Z ((λ r, o_quantity r.1) <$> pair_demand db cutoff p w).

(** The records of the inventory items that emit one, in the order of
    the items: [recommendations] before it is sorted. *)
Definition emitted (sales_velocity : gmap (string * string) Q)
    (shipment_times : gmap string Q) (safety_stock_days restock_threshold_days : Z)
    (items : list (string * string * RestockingSystem.inventory_data))
  : list RestockingSystem.recommendation :=
  omap (λ item,
          match RestockingSystem.recommend sales_velocity shipment_times
                  safety_stock_days restock_threshold_days item with
          | Py.Ok (Some rec) => Some rec
          | _ => None
          end) items.

#[global] Instance Qeq_decision (x y : Q) : Decision (x == y)%Q := Qeq_dec x y.

End Further.

(** ** business_insights_decision_making_task3.py: the ranking before LIMIT *)

Module Ranking.

(** Every product with a qualifying order, ORDER BY total_units_sold
    DESC: the rows of [identify_top_selling_products] before LIMIT 5. *)
Definition ranked_products (db : Database) (cutoff : Z)
  : list SupplyChainAnalytics.product_sales :=
  Py.stable_sort
    (λ x y, SupplyChainAnalytics.total_units_sold y
            <=? SupplyChainAnalytics.total_units_sold x)
    (SupplyChainAnalytics.product_row
       <$> Sql.group_by SupplyChainAnalytics.product_key
             (SupplyChainAnalytics.sales_rows db cutoff)).

(** The orders of one product that count as sales: Shipped or
    Delivered, dated in the window. *)
Definition qualifying_orders (db : Database) (cutoff : Z) (pid : string)
  : list Order :=
  filter (λ o, pid = o_product_id o ∧ cutoff ≤ o_order_date o
               ∧ shipped_or_delivered o = true)
         (orders db).

End Ranking.

(** ** restocking_system.py: the warehouse summary of the report *)

Module Report.

(** [d.get(k)] on an insertion-ordered dictionary. *)
Fixpoint dict_get {K V} `{EqDecision K} (k : K) (d : list (K * V)) : option V :=
  match d with
  | [] => None
  | (k', v) :: d' => if decide (k = k') then Some v else dict_get k d'
  end.

Record summary : Type := { count : Z; total_qty : Z }.

(** One iteration of the loop of [generate_restock_report] that fills
    [warehouse_summary]: create the entry of the warehouse when it is
    missing, then add 1 to its count and the recommended quantity to
    its total.  The entry read back is the one just ensured. *)
Definition summarize (warehouse_summary : list (string * summary))
    (rec : RestockingSystem.recommendation) : list (string * summary) :=
  let wid := RestockingSystem.warehouse_id rec in
  let warehouse_summary :=
    if bool_decide (wid ∈ warehouse_summary.*1) then warehouse_summary
    else Py.dict_set wid {| count := 0; total_qty := 0 |} warehouse_summary in
  match dict_get wid warehouse_summary with
  | Some s =>
      Py.dict_set wid
        {| count := count s + 1;
           total_qty :=
             total_qty s + RestockingSystem.recommended_restock_quantity rec |}
        warehouse_summary
  | None => warehouse_summary
  end.

Definition warehouse_summary (recommendations : list RestockingSystem.recommendation)
  : list (string * summary) :=
  foldl summarize [] recommendations.

(** The records of one warehouse. *)
Definition of_warehouse (w : string)
    (recommendations : list RestockingSystem.recommendation)
  : list RestockingSystem.recommendation :=
  filter (λ r, RestockingSystem.warehouse_id r = w) recommendations.

(** The entry a warehouse should have for its records [l]: none
    without a record, else their number and their total quantity. *)
Definition summary_of (l : list RestockingSystem.recommendation) : option summary :=
  match l with
  | [] => None
  | _ => Some {| count := Z.of_nat (length l);
                 total_qty :=
                   Sql.sum_Z (RestockingSystem.recommended_restock_quantity <$> l) |}
  end.

End Report.

(** * Properties *)

(** ** The result monad *)

Lemma bind_Ok {A B} (m : Py.result A) (k : A → Py.result B) (b : B) :
  m ≫= k = Py.Ok b ↔ ∃ a, m = Py.Ok a ∧ k a = Py.Ok b.
Proof.
  destruct m as [a|e]; simpl.
  - split; [eauto | intros (a' & [= <-] & ?); done].
  - split; [done | intros (? & [=] & _)].
Qed.

Lemma truediv_Ok (x y q : Q) :
  Py.truediv x y = Py.Ok q ↔ ¬ (y == 0)%Q ∧ q = (x / y)%Q.
Proof.
  unfold Py.truediv. destruct (Qeq_bool y 0) eqn:E.
  - apply Qeq_bool_iff in E. split; [done | tauto].
  - split.
    + intros [= <-]. split; [|done].
      intros H. apply Qeq_bool_iff in H. congruence.
    + intros [_ ->]. done.
Qed.

Lemma truediv_Raise (x y : Q) :
  (y == 0)%Q → Py.truediv x y = Py.Raise Py.ZeroDivisionError.
Proof.
  intros H. unfold Py.truediv. apply Qeq_bool_iff in H. by rewrite H.
Qed.

(** ** The stable sort *)

Section sorting.
Context {A : Type} (leb : A → A → bool).
Hypothesis leb_total : ∀ x y, leb x y = false → leb y x = true.

Lemma neighbours_cons (R : A → A → Prop) x y l :
  R x y → Py.neighbours R (y :: l) → Py.neighbours R (x :: y :: l).
Proof.
  intros Hxy Hl [|i] a b; simpl.
  - intros [= <-] [= <-]. done.
  - apply Hl.
Qed.

Lemma neighbours_tail (R : A → A → Prop) x l : Py.neighbours R (x :: l) → Py.neighbours R l.
Proof. intros H i a b. apply (H (S i)). Qed.

Lemma insert_sorted_perm x l : Py.insert_sorted leb x l ≡ₚ x :: l.
Proof.
  induction l as [|y l IH]; simpl; [done|].
  destruct (leb x y); [done|].
  rewrite IH. apply Permutation_swap.
Qed.

Lemma stable_sort_perm l : Py.stable_sort leb l ≡ₚ l.
Proof.
  induction l as [|x l IH]; simpl; [done|].
  rewrite insert_sorted_perm. by f_equiv.
Qed.

Lemma elem_of_stable_sort x l : x ∈ Py.stable_sort leb l ↔ x ∈ l.
Proof. by rewrite stable_sort_perm. Qed.

Lemma length_stable_sort l : length (Py.stable_sort leb l) = length l.
Proof. by rewrite stable_sort_perm. Qed.

Lemma insert_sorted_neighbours x l :
  Py.neighbours (λ a b, leb a b = true) l →
  Py.neighbours (λ a b, leb a b = true) (Py.insert_sorted leb x l).
Proof using leb_total.
  induction l as [|y l IH]; simpl; intros Hl.
  - intros [|i] a b; simpl; [done|]. by rewrite lookup_nil.
  - destruct (leb x y) eqn:E.
    + by apply neighbours_cons.
    + specialize (IH (neighbours_tail _ _ _ Hl)).
      destruct l as [|z l]; simpl in *.
      * apply neighbours_cons; [by apply leb_total | done].
      * destruct (leb x z) eqn:E'.
        -- apply neighbours_cons; [by apply leb_total | done].
        -- apply neighbours_cons; [|done].
           apply (Hl 0%nat); done.
Qed.

Lemma stable_sort_neighbours l :
  Py.neighbours (λ a b, leb a b = true) (Py.stable_sort leb l).
Proof using leb_total.
  induction l as [|x l IH]; simpl.
  - intros i a b. by rewrite lookup_nil.
  - by apply insert_sorted_neighbours.
Qed.

Lemma neighbours_take (R : A → A → Prop) n l : Py.neighbours R l → Py.neighbours R (take n l).
Proof.
  intros H i a b Ha Hb.
  apply lookup_take_Some in Ha as [Ha _], Hb as [Hb _]. eauto.
Qed.
End sorting.

Lemma neighbours_fmap {A B} (f : A → B) (R : B → B → Prop) (l : list A) :
  Py.neighbours (λ a b, R (f a) (f b)) l → Py.neighbours R (f <$> l).
Proof.
  intros H i x y. rewrite !list_lookup_fmap.
  destruct (l !! i) as [a|] eqn:Ea; [|done].
  destruct (l !! S i) as [b|] eqn:Eb; [|done].
  intros [= <-] [= <-]. eauto.
Qed.

Lemma sort_reverse_neighbours {A} (key : A → Q) (l : list A) :
  Py.neighbours (λ a b, (key b <= key a)%Q) (Py.sort_reverse key l).
Proof.
  intros i a b Ha Hb. apply Qle_bool_iff.
  revert i a b Ha Hb. apply stable_sort_neighbours.
  intros x y H.
  apply Qle_bool_iff. apply Qlt_le_weak. apply Qnot_le_lt.
  intros H'. apply Qle_bool_iff in H'. congruence.
Qed.

(** ** GROUP BY and the dictionaries built from its rows *)

Section group_by.
Context {K A : Type} `{EqDecision K} (key : A → K).

Lemma group_by_keys (rows : list A) :
  (Sql.group_by key rows).*1 = remove_dups (key <$> rows).
Proof.
  unfold Sql.group_by. rewrite <-list_fmap_compose.
  generalize (remove_dups (key <$> rows)).
  induction l as [|k ks IH]; [done|]. simpl. by f_equal.
Qed.

Lemma NoDup_group_by_keys (rows : list A) : NoDup (Sql.group_by key rows).*1.
Proof. rewrite group_by_keys. apply NoDup_remove_dups. Qed.

Lemma elem_of_group_by (rows : list A) (k : K) (g : list A) :
  (k, g) ∈ Sql.group_by key rows
  ↔ k ∈ key <$> rows ∧ g = filter (λ r, key r = k) rows.
Proof.
  unfold Sql.group_by. rewrite list_elem_of_fmap. split.
  - intros (k' & Heq & Hk). injection Heq as -> ->.
    rewrite elem_of_remove_dups in Hk. done.
  - intros [Hk ->]. exists k. by rewrite elem_of_remove_dups.
Qed.

(** A group holds at least one row, and only rows of its key. *)
Lemma group_by_inhabited (rows : list A) (k : K) (g : list A) :
  (k, g) ∈ Sql.group_by key rows → ∃ r, r ∈ g.
Proof.
  rewrite elem_of_group_by. intros [Hk ->].
  apply list_elem_of_fmap in Hk as (r & -> & Hr).
  exists r. by apply list_elem_of_filter.
Qed.

Lemma group_by_member (rows : list A) (k : K) (g : list A) (r : A) :
  (k, g) ∈ Sql.group_by key rows → r ∈ g → r ∈ rows ∧ key r = k.
Proof.
  rewrite elem_of_group_by. intros [_ ->].
  rewrite list_elem_of_filter. tauto.
Qed.
End group_by.

Section dict_of_rows.
Context {K B V : Type} `{Countable K} (f : B → V).

Let assign (d : gmap K V) (r : K * B) : gmap K V := <[r.1 := f r.2]> d.

Lemma foldl_assign_absent (rows : list (K * B)) (d : gmap K V) (k : K) :
  k ∉ rows.*1 → foldl assign d rows !! k = d !! k.
Proof.
  revert d. induction rows as [|[k' b] rows IH]; intros d Hk; [done|].
  simpl in *. apply not_elem_of_cons in Hk as [Hne Hk].
  rewrite IH by done. unfold assign; simpl. by rewrite lookup_insert_ne.
Qed.

Lemma foldl_assign_present (rows : list (K * B)) (d : gmap K V) (k : K) (b : B) :
  NoDup rows.*1 → (k, b) ∈ rows → foldl assign d rows !! k = Some (f b).
Proof.
  revert d. induction rows as [|[k' b'] rows IH]; intros d Hnd Hin.
  - by apply elem_of_nil in Hin.
  - simpl in *. apply NoDup_cons in Hnd as [Hk' Hnd].
    apply elem_of_cons in Hin as [[= -> ->]|Hin].
    + rewrite foldl_assign_absent by done.
      unfold assign; simpl. by rewrite lookup_insert_eq.
    + by apply IH.
Qed.
End dict_of_rows.

(** ** restocking_system.py: the metric extractors *)

Import RestockingSystem.

Lemma elem_of_demand_rows db cutoff o s :
  (o, s) ∈ demand_rows db cutoff
  ↔ o ∈ orders db ∧ s ∈ shipment db ∧ o_order_id o = s_order_id s
    ∧ cutoff ≤ o_order_date o ∧ shipped_or_delivered o = true.
Proof.
  unfold demand_rows. rewrite list_elem_of_bind. split.
  - intros (o' & Hin & Ho). apply list_elem_of_bind in Hin as (s' & Hin & Hs).
    destruct (bool_decide _) eqn:E1; simpl in Hin; [|by apply elem_of_nil in Hin].
    destruct (cutoff <=? _) eqn:E2; simpl in Hin; [|by apply elem_of_nil in Hin].
    destruct (shipped_or_delivered o') eqn:E3; [|by apply elem_of_nil in Hin].
    apply list_elem_of_singleton in Hin as [= -> ->].
    apply bool_decide_eq_true in E1. apply Z.leb_le in E2. done.
  - intros (Ho & Hs & E1 & E2 & E3). exists o. split; [|done].
    apply list_elem_of_bind. exists s. split; [|done].
    rewrite bool_decide_eq_true_2 by done.
    apply Z.leb_le in E2. rewrite E2, E3. simpl.
    by apply list_elem_of_singleton.
Qed.

Lemma sum_Z_pos (l : list Z) :
  (∀ x, x ∈ l → 0 < x) → (∃ x, x ∈ l) → 0 < Sql.sum_Z l.
Proof.
  induction l as [|y l IH]; intros Hpos [x Hx]; [by apply elem_of_nil in Hx|].
  assert (0 < y) by (apply Hpos; left).
  destruct l as [|z l]; [simpl; lia|].
  assert (0 < Sql.sum_Z (z :: l)); [|simpl in *; lia].
  apply IH; [|exists z; left]. intros; apply Hpos. by right.
Qed.

(** Each row of the velocity query is the total of a non-empty group
    of qualifying orders. *)
Lemma sales_velocity_query_pos db cutoff p w total :
  (∀ o, o ∈ orders db → 0 < o_quantity o) →
  (p, w, total) ∈ sales_velocity_query db cutoff → 0 < total.
Proof.
  intros Hq. unfold sales_velocity_query.
  rewrite list_elem_of_fmap. intros ([k g] & [= -> -> ->] & Hg). simpl.
  apply sum_Z_pos.
  - intros x. rewrite list_elem_of_fmap. intros ([o s] & -> & Hr). simpl.
    apply (group_by_member _ _ _ _ _ Hg) in Hr as [Hr _].
    apply elem_of_demand_rows in Hr. apply Hq. tauto.
  - destruct (group_by_inhabited _ _ _ _ Hg) as [r Hr].
    exists (o_quantity r.1). apply list_elem_of_fmap. eauto.
Qed.

(** With a non-zero window the loop completes, and every entry of the
    dictionary is an initial entry or a query total over the window. *)
Lemma velocity_loop_Ok days results d :
  days ≠ 0 →
  ∃ m, velocity_loop days results d = Py.Ok m
       ∧ ∀ k v, m !! k = Some v →
           d !! k = Some v
           ∨ ∃ total, (k.1, k.2, total) ∈ results
                      ∧ v = (inject_Z total / inject_Z days)%Q.
Proof.
  intros Hdays. revert d.
  induction results as [|[[p w] total] results IH]; intros d; simpl.
  - exists d. split; [done|]. auto.
  - unfold Py.truediv.
    destruct (Qeq_bool (inject_Z days) 0) eqn:E.
    { apply Qeq_bool_iff in E. unfold Qeq in E. simpl in E. lia. }
    simpl. destruct (IH (<[(p, w) := (inject_Z total / inject_Z days)%Q]> d))
      as (m & Hm & Hval).
    exists m. split; [done|]. intros k v Hk.
    destruct (Hval k v Hk) as [Hd|(t & Ht & ->)].
    + rewrite lookup_insert in Hd. case_decide as Hkey.
      * injection Hd as <-. subst k. right. exists total. split; [left|done].
      * by left.
    + right. exists t. split; [by right|done].
Qed.

Lemma inject_Z_div_pos (a b : Z) :
  0 < a → 0 < b → (0 < inject_Z a / inject_Z b)%Q.
Proof.
  intros Ha Hb. apply Qlt_shift_div_l.
  - unfold Qlt. simpl. lia.
  - rewrite Qmult_0_l. unfold Qlt. simpl. lia.
Qed.

(** [get_average_shipment_time] warehouse by warehouse. *)
Lemma get_average_shipment_time_lookup db w :
  get_average_shipment_time db !! w =
    match delivered_from db w with
    | [] => None
    | g => Some (avg_days_or_default (Sql.avg (delivery_days g)))
    end.
Proof.
  unfold get_average_shipment_time, shipment_time_query.
  set (groups := Sql.group_by s_warehouse_id (filter delivered (shipment db))).
  assert (Hkeys : ((λ g : string * list Shipment,
                      (g.1, Sql.avg (delivery_days g.2))) <$> groups).*1
                  = groups.*1).
  { rewrite <-list_fmap_compose. done. }
  destruct (decide (w ∈ s_warehouse_id <$> filter delivered (shipment db)))
    as [Hin|Hout].
  - assert (Hg : (w, delivered_from db w) ∈ groups)
      by (apply elem_of_group_by; done).
    rewrite (foldl_assign_present avg_days_or_default _ _ w
               (Sql.avg (delivery_days (delivered_from db w)))).
    + destruct (group_by_inhabited _ _ _ _ Hg) as [s Hs].
      destruct (delivered_from db w); [by apply elem_of_nil in Hs | done].
    + rewrite Hkeys. apply NoDup_group_by_keys.
    + apply list_elem_of_fmap. by exists (w, delivered_from db w).
  - rewrite (foldl_assign_absent avg_days_or_default).
    + rewrite lookup_empty.
      destruct (delivered_from db w) as [|s g] eqn:E; [done|].
      exfalso. apply Hout. apply list_elem_of_fmap. exists s.
      assert (Hs : s ∈ delivered_from db w) by (rewrite E; left).
      apply list_elem_of_filter in Hs as [-> Hs]. done.
    + rewrite Hkeys. unfold groups. rewrite group_by_keys.
      by rewrite elem_of_remove_dups.
Qed.

(** A warehouse with delivered shipments is mapped to their average
    unless that average is 0; a warehouse without is absent. *)
Lemma get_average_shipment_time_nonzero db w avg_days :
  Sql.avg (delivery_days (delivered_from db w)) = Some avg_days →
  ¬ (avg_days == 0)%Q →
  get_average_shipment_time db !! w = Some avg_days.
Proof.
  intros Havg Hne. rewrite get_average_shipment_time_lookup.
  destruct (delivered_from db w) as [|s g]; [done|].
  rewrite Havg. simpl.
  destruct (Qeq_bool avg_days 0) eqn:E; [|done].
  by apply Qeq_bool_iff in E.
Qed.

Lemma get_average_shipment_time_zero db w avg_days :
  Sql.avg (delivery_days (delivered_from db w)) = Some avg_days →
  (avg_days == 0)%Q →
  get_average_shipment_time db !! w = Some 5%Q.
Proof.
  intros Havg H0. rewrite get_average_shipment_time_lookup.
  destruct (delivered_from db w) as [|s g]; [done|].
  rewrite Havg. simpl. apply Qeq_bool_iff in H0. by rewrite H0.
Qed.

Lemma get_average_shipment_time_absent db w :
  delivered_from db w = [] ↔ get_average_shipment_time db !! w = None.
Proof.
  rewrite get_average_shipment_time_lookup.
  destruct (delivered_from db w); split; done.
Qed.

(** ** restocking_system.py: the inventory dictionary *)

Section dict_set.
Context {K V : Type} `{EqDecision K}.

Lemma dict_set_keys (k : K) (v : V) (d : list (K * V)) :
  ∀ k', k' ∈ (Py.dict_set k v d).*1 ↔ k' = k ∨ k' ∈ d.*1.
Proof.
  induction d as [|[k0 v0] d IH]; intros k'; simpl.
  - rewrite list_elem_of_singleton, elem_of_nil. tauto.
  - case_decide as Hk; simpl; rewrite !elem_of_cons.
    + subst k0. tauto.
    + rewrite IH. tauto.
Qed.

Lemma dict_set_NoDup (k : K) (v : V) (d : list (K * V)) :
  NoDup d.*1 → NoDup (Py.dict_set k v d).*1.
Proof.
  induction d as [|[k0 v0] d IH]; simpl; intros Hnd.
  - apply NoDup_singleton.
  - apply NoDup_cons in Hnd as [Hk0 Hnd].
    case_decide as Hk; simpl; apply NoDup_cons.
    + subst k0. done.
    + split; [|by apply IH]. rewrite dict_set_keys. intros [?|?]; done.
Qed.

Lemma elem_of_dict_set (k k' : K) (v v' : V) (d : list (K * V)) :
  (k', v') ∈ Py.dict_set k v d → (k' = k ∧ v' = v) ∨ (k', v') ∈ d.
Proof.
  induction d as [|[k0 v0] d IH]; simpl.
  - rewrite list_elem_of_singleton. intros [= -> ->]. by left.
  - case_decide as Hk; rewrite !elem_of_cons.
    + intros [[= -> ->]|Hin]; [by left | right; by right].
    + intros [Heq|Hin]; [right; by left|].
      destruct (IH Hin) as [?|?]; [by left | right; by right].
Qed.
Lemma elem_of_dict_set_same (k : K) (v : V) (d : list (K * V)) :
  (k, v) ∈ Py.dict_set k v d.
Proof.
  induction d as [|[k0 v0] d IH]; simpl; [left|].
  case_decide; [left | by right].
Qed.

Lemma elem_of_dict_set_other (k k' : K) (v v' : V) (d : list (K * V)) :
  k' ≠ k → (k', v') ∈ d → (k', v') ∈ Py.dict_set k v d.
Proof.
  intros Hne. induction d as [|[k0 v0] d IH]; simpl.
  - intros Hin. by apply elem_of_nil in Hin.
  - rewrite elem_of_cons. intros [[= <- <-]|Hin].
    + case_decide; [congruence | left].
    + case_decide; right; auto.
Qed.
End dict_set.

Lemma NoDup_fst_functional {K V} (d : list (K * V)) (k : K) (v1 v2 : V) :
  NoDup d.*1 → (k, v1) ∈ d → (k, v2) ∈ d → v1 = v2.
Proof.
  induction d as [|[k0 v0] d IH]; simpl; intros Hnd H1 H2.
  - by apply elem_of_nil in H1.
  - apply NoDup_cons in Hnd as [Hk0 Hnd].
    assert (Hfst : ∀ v, (k0, v) ∈ d → False).
    { intros v Hv. apply Hk0. apply list_elem_of_fmap. by exists (k0, v). }
    apply elem_of_cons in H1 as [E1|H1]; apply elem_of_cons in H2 as [E2|H2].
    + congruence.
    + injection E1 as -> ->. by apply Hfst in H2.
    + injection E2 as -> ->. by apply Hfst in H1.
    + by apply IH.
Qed.

(** The dictionary has one entry per key, each read off an inventory row. *)
Lemma get_current_inventory_NoDup db : NoDup (get_current_inventory db).*1.
Proof.
  unfold get_current_inventory.
  assert (H : ∀ rows d, NoDup d.*1 →
    NoDup (foldl (λ inv r,
             Py.dict_set (i_product_id r, i_warehouse_id r)
               (inventory_entry r) inv) d rows).*1).
  { induction rows as [|r rows IH]; intros d Hd; [done|].
    simpl. apply IH. by apply dict_set_NoDup. }
  apply (H (inventory db) []). apply NoDup_nil_2.
Qed.

Lemma elem_of_get_current_inventory db p w data :
  (p, w, data) ∈ get_current_inventory db →
  ∃ r, r ∈ inventory db ∧ i_product_id r = p ∧ i_warehouse_id r = w
       ∧ data = inventory_entry r.
Proof.
  unfold get_current_inventory.
  assert (H : ∀ rows d,
    (p, w, data) ∈ foldl (λ inv r,
             Py.dict_set (i_product_id r, i_warehouse_id r)
               (inventory_entry r) inv) d rows →
    (p, w, data) ∈ d
    ∨ ∃ r, r ∈ rows ∧ i_product_id r = p ∧ i_warehouse_id r = w
           ∧ data = inventory_entry r).
  { induction rows as [|r rows IH]; intros d; simpl; [by left|].
    intros Hin. destruct (IH _ Hin) as [Hd|(r' & Hr' & ?)].
    - apply elem_of_dict_set in Hd as [[[= -> ->] ->]|Hd]; [|by left].
      right. exists r. split; [left|done].
    - right. exists r'. split; [by right|done]. }
  intros Hin. destruct (H _ _ Hin) as [Hd|Hr]; [by apply elem_of_nil in Hd|done].
Qed.

(** Under the primary key of the inventory table every row has its
    entry. *)
Lemma get_current_inventory_row db r :
  NoDup ((λ r, (i_product_id r, i_warehouse_id r)) <$> inventory db) →
  r ∈ inventory db →
  (i_product_id r, i_warehouse_id r, inventory_entry r)
    ∈ get_current_inventory db.
Proof.
  unfold get_current_inventory. generalize (@nil (string * string * inventory_data)).
  induction (inventory db) as [|r0 rows IH]; intros d Hnd Hr.
  - by apply elem_of_nil in Hr.
  - simpl in *. apply NoDup_cons in Hnd as [Hr0 Hnd].
    apply elem_of_cons in Hr as [->|Hr]; [|by apply IH].
    clear IH Hnd.
    assert (Hin : (i_product_id r0, i_warehouse_id r0, inventory_entry r0)
                  ∈ Py.dict_set (i_product_id r0, i_warehouse_id r0)
                                (inventory_entry r0) d)
      by apply elem_of_dict_set_same.
    revert Hin. generalize (Py.dict_set (i_product_id r0, i_warehouse_id r0)
                                        (inventory_entry r0) d).
    induction rows as [|r1 rows IH]; intros d' Hin; [done|].
    simpl in *. apply not_elem_of_cons in Hr0 as [Hne Hr0].
    apply IH; [done|]. by apply elem_of_dict_set_other.
Qed.

(** ** restocking_system.py: the recommendation loop *)

Section engine_facts.
Variable sales_velocity : gmap (string * string) Q.
Variable shipment_times : gmap string Q.
Variables safety_stock_days restock_threshold_days : Z.

Abbreviation recommend :=
  (recommend sales_velocity shipment_times
     safety_stock_days restock_threshold_days).
Abbreviation restock_loop :=
  (restock_loop sales_velocity shipment_times
     safety_stock_days restock_threshold_days).
Abbreviation reorder_point_of :=
  (reorder_point_of sales_velocity shipment_times restock_threshold_days).
Abbreviation target_stock_of := (target_stock_of sales_velocity safety_stock_days).
Abbreviation restock_needed :=
  (restock_needed sales_velocity shipment_times restock_threshold_days).

Lemma restock_needed_iff p w available :
  restock_needed p w available = true
  ↔ (inject_Z available <= reorder_point_of p w)%Q.
Proof. apply Qle_bool_iff. Qed.

Lemma recommend_skip p w data :
  restock_needed p w (available_quantity data) = false →
  recommend (p, w, data) = Py.Ok None.
Proof. intros H. unfold RestockingSystem.recommend. by rewrite H. Qed.

Lemma recommend_raise p w data :
  restock_needed p w (available_quantity data) = true →
  (reorder_point_of p w == 0)%Q →
  recommend (p, w, data) = Py.Raise Py.ZeroDivisionError.
Proof.
  intros H H0. unfold RestockingSystem.recommend. rewrite H.
  by rewrite truediv_Raise.
Qed.

Lemma recommend_emit p w data :
  restock_needed p w (available_quantity data) = true →
  ¬ (reorder_point_of p w == 0)%Q →
  ∃ r, recommend (p, w, data) = Py.Ok (Some r).
Proof.
  intros H H0. unfold RestockingSystem.recommend. rewrite H.
  unfold Py.truediv. destruct (Qeq_bool _ 0) eqn:E.
  - by apply Qeq_bool_iff in E.
  - simpl. eauto.
Qed.

(** What an emitted record says about the pair it was computed from. *)
Lemma recommend_Some p w data r :
  recommend (p, w, data) = Py.Ok (Some r) →
  restock_needed p w (available_quantity data) = true
  ∧ ¬ (reorder_point_of p w == 0)%Q
  ∧ product_id r = p ∧ warehouse_id r = w
  ∧ current_available_stock r = available_quantity data
  ∧ recommended_restock_quantity r =
      Z.max 1 (Py.int (target_stock_of p w
                       - inject_Z (available_quantity data))).
Proof.
  unfold RestockingSystem.recommend.
  destruct (restock_needed p w _) eqn:E; [|done].
  unfold Py.truediv. destruct (Qeq_bool _ 0) eqn:E0; [done|].
  simpl. intros [= <-]. simpl.
  split; [done|]. split; [|done]. by apply Qeq_bool_neq.
Qed.

Lemma restock_loop_cons item items acc :
  restock_loop (item :: items) acc =
    recommend item ≫= λ r,
      restock_loop items
        (match r with Some rec => acc ++ [rec] | None => acc end).
Proof. reflexivity. Qed.

(** The loop appends, in order, the records of the items that emit
    one, and completes only if no item raises. *)
Lemma restock_loop_Ok items acc recs :
  restock_loop items acc = Py.Ok recs →
  (∀ r, r ∈ recs ↔
        r ∈ acc ∨ ∃ item, item ∈ items ∧ recommend item = Py.Ok (Some r))
  ∧ (∀ item, item ∈ items → ∃ o, recommend item = Py.Ok o).
Proof.
  revert acc. induction items as [|item items IH]; intros acc; simpl.
  - intros [= <-]. split.
    + intros r. split; [by left|]. intros [?|(? & H & _)]; [done|].
      by apply elem_of_nil in H.
    + intros ? H. by apply elem_of_nil in H.
  - destruct (recommend item) as [o|e] eqn:E; simpl; [|done].
    intros Hloop. destruct (IH _ Hloop) as [Hmem Hall]. split.
    + intros r. rewrite Hmem. split.
      * intros [Hacc|(it & Hit & Hr)].
        -- destruct o as [rec|]; [|by left].
           apply elem_of_app in Hacc as [?|Hrec]; [by left|].
           apply list_elem_of_singleton in Hrec as ->.
           right. exists item. split; [left|done].
        -- right. exists it. split; [by right|done].
      * intros [Hacc|(it & Hit & Hr)].
        -- left. destruct o; [apply elem_of_app|]; auto.
        -- apply elem_of_cons in Hit as [->|Hit].
           ++ left. rewrite E in Hr. injection Hr as ->.
              apply elem_of_app. right. by apply list_elem_of_singleton.
           ++ right. eauto.
    + intros it Hit. apply elem_of_cons in Hit as [->|Hit]; eauto.
Qed.

Lemma restock_loop_Raise items acc item :
  item ∈ items →
  recommend item = Py.Raise Py.ZeroDivisionError →
  restock_loop items acc = Py.Raise Py.ZeroDivisionError.
Proof.
  intros Hin Hraise.
  destruct (restock_loop items acc) as [recs|[]] eqn:E; [|done].
  apply restock_loop_Ok in E as [_ Hall].
  destruct (Hall _ Hin) as [o Ho]. congruence.
Qed.

(** The loop completes when no triggered pair has a zero reorder point. *)
Lemma restock_loop_total items acc :
  (∀ p w data, (p, w, data) ∈ items →
     restock_needed p w (available_quantity data) = true →
     ¬ (reorder_point_of p w == 0)%Q) →
  ∃ recs, restock_loop items acc = Py.Ok recs.
Proof.
  revert acc. induction items as [|[[p w] data] items IH]; intros acc Hsafe.
  - simpl. eauto.
  - rewrite restock_loop_cons.
    destruct (restock_needed p w (available_quantity data)) eqn:E.
    + destruct (recommend_emit p w data E) as [r Hr].
      { apply (Hsafe p w data); [left|done]. }
      rewrite Hr. apply IH. intros; eapply Hsafe; [by right|done].
    + rewrite recommend_skip by done.
      apply IH. intros; eapply Hsafe; [by right|done].
Qed.
End engine_facts.

(** ** restocking_system.py: [calculate_restock_recommendations] *)

Lemma calculate_sales_velocity_total db today days :
  days ≠ 0 → ∃ m, calculate_sales_velocity db today days = Py.Ok m.
Proof.
  intros Hdays. unfold calculate_sales_velocity.
  destruct (velocity_loop_Ok days (sales_velocity_query db (today - days)) ∅ Hdays)
    as (m & Hm & _). eauto.
Qed.

Lemma calculate_sales_velocity_default db today :
  calculate_sales_velocity db today 30
  = Py.Ok (default_sales_velocity db today).
Proof.
  unfold default_sales_velocity.
  destruct (calculate_sales_velocity_total db today 30) as [m ->]; done.
Qed.

Section recommendations.
Variables (db : Database) (today ssd rtd : Z).

Abbreviation velocities := (default_sales_velocity db today).
Abbreviation times := (get_average_shipment_time db).

Lemma calculate_restock_recommendations_Ok recs :
calculate_restock_recommendations db today ssd rtd = Py.Ok recs
↔ ∃ unsorted,
    restock_loop velocities times ssd rtd (get_current_inventory db) []
    = Py.Ok unsorted
    ∧ recs = Py.sort_reverse urgency_score unsorted.
Proof.
unfold calculate_restock_recommendations.
rewrite calculate_sales_velocity_default. simpl.
change (Py.bind ?m ?k) with (m ≫= k). rewrite bind_Ok. split.
- intros (unsorted & Hloop & [= <-]). eauto.
- intros (unsorted & Hloop & ->). eauto.
Qed.

(** The records returned are those of the pairs of the inventory
  dictionary that emit one. *)
Lemma elem_of_recommendations recs r :
calculate_restock_recommendations db today ssd rtd = Py.Ok recs →
r ∈ recs ↔
  ∃ item, item ∈ get_current_inventory db
          ∧ recommend velocities times ssd rtd item = Py.Ok (Some r).
Proof.
intros Hrecs.
apply calculate_restock_recommendations_Ok in Hrecs as (unsorted & Hloop & ->).
apply restock_loop_Ok in Hloop as [Hmem _].
unfold Py.sort_reverse. rewrite elem_of_stable_sort, Hmem.
split; [|by right]. intros [Hnil|?]; [|done]. by apply elem_of_nil in Hnil.
Qed.

(** A triggered pair with a zero reorder point aborts the computation
  with the exception of the urgency division. *)
Lemma zero_reorder_point_raises p w data :
(p, w, data) ∈ get_current_inventory db →
(inject_Z (available_quantity data)
 <= reorder_point_of velocities times rtd p w)%Q →
(reorder_point_of velocities times rtd p w == 0)%Q →
calculate_restock_recommendations db today ssd rtd
= Py.Raise Py.ZeroDivisionError.
Proof.
intros Hin Htrig Hzero. unfold calculate_restock_recommendations.
rewrite calculate_sales_velocity_default. simpl.
rewrite (restock_loop_Raise _ _ ssd _ _ _ (p, w, data)); [done|done|].
apply recommend_raise; [|done]. by apply restock_needed_iff.
Qed.

(** Conversely the computation returns a list when no triggered pair
  has a zero reorder point. *)
Lemma calculate_restock_recommendations_total :
(∀ p w data, (p, w, data) ∈ get_current_inventory db →
   (inject_Z (available_quantity data)
    <= reorder_point_of velocities times rtd p w)%Q →
   ¬ (reorder_point_of velocities times rtd p w == 0)%Q) →
∃ recs, calculate_restock_recommendations db today ssd rtd = Py.Ok recs.
Proof.
intros Hsafe.
destruct (restock_loop_total velocities times ssd rtd
            (get_current_inventory db) []) as [unsorted Hloop].
{ intros p w data Hin Htrig. apply (Hsafe p w data Hin).
  by apply restock_needed_iff. }
exists (Py.sort_reverse urgency_score unsorted).
apply calculate_restock_recommendations_Ok. eauto.
Qed.

(** C4. A pair of the inventory dictionary whose available quantity
  exceeds its reorder point, velocity * (avg_shipment_time +
  restock_threshold_days), has no record in the list returned. *)
Theorem C4_no_recommendation_above_reorder_point recs p w data :
calculate_restock_recommendations db today ssd rtd = Py.Ok recs →
(p, w, data) ∈ get_current_inventory db →
(reorder_point_of velocities times rtd p w
 < inject_Z (available_quantity data))%Q →
∀ r, r ∈ recs → ¬ (product_id r = p ∧ warehouse_id r = w).
Proof.
intros Hrecs Hin Habove r Hr [Hp Hw].
apply (elem_of_recommendations _ _ Hrecs) in Hr
  as ([[p' w'] data'] & Hin' & Hr).
apply recommend_Some in Hr as (Htrig & _ & Hp' & Hw' & _).
assert (p' = p) as -> by congruence.
assert (w' = w) as -> by congruence.
assert (data' = data) as ->
  by (eapply (NoDup_fst_functional _ (p, w));
      eauto using get_current_inventory_NoDup).
apply restock_needed_iff in Htrig.
by apply Qle_not_lt in Htrig.
Qed.

(** C5. The list returned is in non-increasing order of urgency score:
  urgency[i] >= urgency[i+1] at every index i. *)
Theorem C5_sorted_by_urgency_descending recs :
calculate_restock_recommendations db today ssd rtd = Py.Ok recs →
∀ i r1 r2, recs !! i = Some r1 → recs !! S i = Some r2 →
  (urgency_score r2 <= urgency_score r1)%Q.
Proof.
intros Hrecs.
apply calculate_restock_recommendations_Ok in Hrecs as (unsorted & _ & ->).
apply sort_reverse_neighbours.
Qed.

(** C6. Every record of the list returned recommends at least 1 unit,
  whatever target_stock - available_quantity is. *)
Theorem C6_recommended_quantity_at_least_one recs :
calculate_restock_recommendations db today ssd rtd = Py.Ok recs →
∀ r, r ∈ recs → 1 ≤ recommended_restock_quantity r.
Proof.
intros Hrecs r Hr.
apply (elem_of_recommendations _ _ Hrecs) in Hr as ([[p w] data] & _ & Hr).
apply recommend_Some in Hr as (_ & _ & _ & _ & _ & ->). lia.
Qed.

End recommendations.

Import Examples.

Lemma scenario_recommendations_eq :
  calculate_restock_recommendations scenario_db today 14 7
  = Py.Ok [scenario_recommendation].
Proof. by_evaluation. Defined.

(** C2. The urgency division is not guarded: on a database where a
    shipped order of quantity 0 gives an out-of-stock pair the velocity
    0, hence the reorder point 0, the computation does not return a
    list; it ends in the ZeroDivisionError of the urgency score. *)
Theorem C2_zero_reorder_point_not_guarded :
  ("P001", "W01", inventory_entry (mk_inventory "P001" "W01" 0 0))
    ∈ get_current_inventory zero_quantity_db
  ∧ (reorder_point_of (default_sales_velocity zero_quantity_db today)
       (get_average_shipment_time zero_quantity_db) 7 "P001" "W01" == 0)%Q
  ∧ (inject_Z 0
     <= reorder_point_of (default_sales_velocity zero_quantity_db today)
          (get_average_shipment_time zero_quantity_db) 7 "P001" "W01")%Q
  ∧ calculate_restock_recommendations zero_quantity_db today 14 7
    = Py.Raise Py.ZeroDivisionError.
Proof.
  split; [vm_compute; left|].
  split; [apply Qeq_bool_iff; by_evaluation|].
  split; [Qle_by_evaluation | by_evaluation].
Qed.

(** C3. A warehouse whose delivered shipments average exactly 0 days is
    not mapped to 0: the falsy average is replaced by the default, so
    the one same-day delivery from W01 yields 5.0 for W01. *)
Theorem C3_zero_average_replaced_by_default :
  Sql.avg (delivery_days (delivered_from same_day_db "W01")) = Some (0 / 1)%Q
  ∧ get_average_shipment_time same_day_db !! "W01" = Some 5%Q.
Proof. split; by_evaluation. Qed.

Lemma scenario_entry_stocked :
  ("P002", "W02", inventory_entry (mk_inventory "P002" "W02" 230 30))
    ∈ get_current_inventory scenario_db.
Proof. vm_compute. right. left. Defined.

Lemma scenario_not_triggered :
  (reorder_point_of (default_sales_velocity scenario_db today)
     (get_average_shipment_time scenario_db) 7 "P002" "W02"
   < inject_Z 200)%Q.
Proof. by_evaluation. Defined.

Lemma C4_no_recommendation_above_reorder_point_witness :
  calculate_restock_recommendations scenario_db today 14 7
  = Py.Ok [scenario_recommendation]
  ∧ ("P002", "W02", inventory_entry (mk_inventory "P002" "W02" 230 30))
      ∈ get_current_inventory scenario_db
  ∧ (reorder_point_of (default_sales_velocity scenario_db today)
       (get_average_shipment_time scenario_db) 7 "P002" "W02"
     < inject_Z 200)%Q
  ∧ ∀ r, r ∈ [scenario_recommendation] →
         ¬ (product_id r = "P002" ∧ warehouse_id r = "W02").
Proof.
  split; [exact scenario_recommendations_eq|].
  split; [exact scenario_entry_stocked|].
  split; [exact scenario_not_triggered|].
  exact (C4_no_recommendation_above_reorder_point scenario_db today 14 7
           [scenario_recommendation] "P002" "W02" _
           scenario_recommendations_eq
           scenario_entry_stocked scenario_not_triggered).
Defined.

Lemma ranking_recommendations_eq :
  calculate_restock_recommendations ranking_db today 14 7
  = Py.Ok ranking_recommendations.
Proof. by_evaluation. Defined.

Lemma C5_sorted_by_urgency_descending_witness :
  calculate_restock_recommendations ranking_db today 14 7
  = Py.Ok ranking_recommendations
  ∧ ∀ i r1 r2, ranking_recommendations !! i = Some r1 →
      ranking_recommendations !! S i = Some r2 →
      (urgency_score r2 <= urgency_score r1)%Q.
Proof.
  split; [exact ranking_recommendations_eq|].
  exact (C5_sorted_by_urgency_descending ranking_db today 14 7
           ranking_recommendations ranking_recommendations_eq).
Defined.

Lemma overstock_recommendations_eq :
  calculate_restock_recommendations overstock_db today 14 60
  = Py.Ok overstock_recommendations.
Proof. by_evaluation. Defined.

Lemma C6_recommended_quantity_at_least_one_witness :
  calculate_restock_recommendations overstock_db today 14 60
  = Py.Ok overstock_recommendations
  ∧ (target_stock_of (default_sales_velocity overstock_db today) 14 "P001" "W01"
     - inject_Z 100 < 0)%Q
  ∧ ∀ r, r ∈ overstock_recommendations → 1 ≤ recommended_restock_quantity r.
Proof.
  split; [exact overstock_recommendations_eq|].
  split; [by_evaluation|].
  exact (C6_recommended_quantity_at_least_one overstock_db today 14 60
           overstock_recommendations overstock_recommendations_eq).
Defined.

(** C10. When every order quantity is positive and the window length
    is positive, [calculate_sales_velocity] returns a mapping whose
    values are all strictly positive; the velocity the engine uses for
    a pair, a value of the mapping or the default 0.1, is then strictly
    positive, and so is the reorder point of every pair whose
    avg_shipment_time + restock_threshold_days is positive. *)
Theorem C10_velocity_and_reorder_point_positive db today days :
  0 < days →
  (∀ o, o ∈ orders db → 0 < o_quantity o) →
  ∃ sv, calculate_sales_velocity db today days = Py.Ok sv
    ∧ (∀ k v, sv !! k = Some v → (0 < v)%Q)
    ∧ (∀ p w, (0 < velocity_of sv p w)%Q)
    ∧ ∀ shipment_times rtd p w,
        (0 < shipment_time_of shipment_times w + inject_Z rtd)%Q →
        (0 < reorder_point_of sv shipment_times rtd p w)%Q.
Proof.
  intros Hdays Hq. unfold calculate_sales_velocity.
  destruct (velocity_loop_Ok days (sales_velocity_query db (today - days)) ∅)
    as (sv & Hsv & Hval); [lia|].
  assert (Hpos : ∀ k v, sv !! k = Some v → (0 < v)%Q).
  { intros k v Hk. destruct (Hval k v Hk) as [Hempty|(total & Hrow & ->)].
    - by rewrite lookup_empty in Hempty.
    - apply inject_Z_div_pos; [|done].
      by apply (sales_velocity_query_pos db (today - days) k.1 k.2). }
  assert (Hvel : ∀ p w, (0 < velocity_of sv p w)%Q).
  { intros p w. unfold velocity_of.
    destruct (sv !! (p, w)) as [v|] eqn:E; simpl; [by apply (Hpos (p, w))|].
    reflexivity. }
  exists sv. split; [done|]. split; [done|]. split; [done|].
  intros shipment_times rtd p w Htime. unfold reorder_point_of.
  by apply Qmult_lt_0_compat.
Qed.

Lemma scenario_quantities_positive :
  ∀ o, o ∈ orders scenario_db → 0 < o_quantity o.
Proof.
  intros o Ho. apply list_elem_of_singleton in Ho as ->. reflexivity.
Defined.

Lemma C10_velocity_and_reorder_point_positive_witness :
  0 < 30
  ∧ (∀ o, o ∈ orders scenario_db → 0 < o_quantity o)
  ∧ ∃ sv, calculate_sales_velocity scenario_db today 30 = Py.Ok sv
    ∧ (∀ k v, sv !! k = Some v → (0 < v)%Q)
    ∧ (∀ p w, (0 < velocity_of sv p w)%Q)
    ∧ ∀ shipment_times rtd p w,
        (0 < shipment_time_of shipment_times w + inject_Z rtd)%Q →
        (0 < reorder_point_of sv shipment_times rtd p w)%Q.
Proof.
  split; [reflexivity|]. split; [exact scenario_quantities_positive|].
  exact (C10_velocity_and_reorder_point_positive scenario_db today 30
           eq_refl scenario_quantities_positive).
Defined.

(** ** business_insights_decision_making_task3.py: top-selling products *)

Import SupplyChainAnalytics.

(** C9. The top-selling-products table has at most 5 rows, and its rows
    are in non-increasing order of total units sold. *)
Theorem C9_top_selling_at_most_five_sorted db today days :
  (length (identify_top_selling_products db today days) ≤ 5)%nat
  ∧ ∀ i x y,
      identify_top_selling_products db today days !! i = Some x →
      identify_top_selling_products db today days !! S i = Some y →
      total_units_sold y ≤ total_units_sold x.
Proof.
  unfold identify_top_selling_products, top_selling_query. split.
  - rewrite length_fmap, length_take. lia.
  - apply neighbours_fmap. apply neighbours_take.
    intros i x y Hx Hy. apply Z.leb_le. revert i x y Hx Hy.
    apply stable_sort_neighbours.
    intros x y H. apply Z.leb_le. apply Z.leb_gt in H. lia.
Qed.

Lemma sales_db_top_selling :
  (λ r, (ps_product_id r, total_units_sold r))
    <$> identify_top_selling_products sales_db today 90
  = [("P004", 9); ("P002", 7); ("P001", 6); ("P006", 5); ("P003", 4)].
Proof. by_evaluation. Qed.

Lemma C9_top_selling_at_most_five_sorted_witness :
  (length (identify_top_selling_products sales_db today 90) ≤ 5)%nat
  ∧ ∀ i x y,
      identify_top_selling_products sales_db today 90 !! i = Some x →
      identify_top_selling_products sales_db today 90 !! S i = Some y →
      total_units_sold y ≤ total_units_sold x.
Proof. exact (C9_top_selling_at_most_five_sorted sales_db today 90). Defined.

(** ** business_insights_decision_making_task3.py: inventory shortages *)

Lemma left_join_inhabited {B} (matches : list B) :
  ∃ x, x ∈ Sql.left_join matches.
Proof.
  destruct matches as [|b matches]; simpl.
  - exists None. left.
  - exists (Some b). left.
Qed.

(** The CASE has an ELSE branch: it yields one of the four texts. *)
Lemma stock_status_of_total available da :
  stock_status_of available da ∈ stock_statuses.
Proof.
  unfold stock_status_of, stock_statuses.
  destruct (available =? 0); [left|].
  destruct (Sql.when (Sql.lt _ 7)); [right; left|].
  destruct (Sql.when (Sql.lt _ 14)); [right; right; left|].
  right; right; right; left.
Qed.

Lemma stock_status_of_zero da : stock_status_of 0 da = "OUT_OF_STOCK".
Proof. reflexivity. Qed.

Lemma elem_of_shortage_join db today w ci da p :
  (w, ci, da, p) ∈ shortage_join db today
  ↔ w ∈ warehouse db ∧ ci ∈ inventory db
    ∧ da ∈ Sql.left_join
             (filter (λ da, i_product_id ci = da_product_id da
                            ∧ i_warehouse_id ci = da_warehouse_id da)
                     (demand_analysis db today))
    ∧ p ∈ Sql.left_join
            (filter (λ p, i_product_id ci = p_product_id p) (product db))
    ∧ i_warehouse_id ci = w_warehouse_id w.
Proof.
  unfold shortage_join. rewrite list_elem_of_bind. split.
  - intros (w' & Hin & Hw). apply list_elem_of_bind in Hin as (ci' & Hin & Hci).
    apply list_elem_of_bind in Hin as (da' & Hin & Hda).
    apply list_elem_of_bind in Hin as (p' & Hin & Hp).
    case_bool_decide as Hwh; [|by apply elem_of_nil in Hin].
    apply list_elem_of_singleton in Hin. injection Hin as -> -> -> ->. done.
  - intros (Hw & Hci & Hda & Hp & Hwh). exists w. split; [|done].
    apply list_elem_of_bind. exists ci. split; [|done].
    apply list_elem_of_bind. exists da. split; [|done].
    apply list_elem_of_bind. exists p. split; [|done].
    rewrite bool_decide_eq_true_2 by done. by apply list_elem_of_singleton.
Qed.

Lemma elem_of_analyze_inventory_shortages db today r :
  r ∈ analyze_inventory_shortages db today
  ↔ ∃ j, j ∈ shortage_join db today ∧ r = round_shortage_row (shortage_row j).
Proof.
  unfold analyze_inventory_shortages, shortage_query.
  rewrite list_elem_of_fmap. split.
  - intros (r' & -> & Hr'). apply list_elem_of_fmap in Hr' as (j & -> & Hj).
    apply elem_of_stable_sort in Hj. eauto.
  - intros (j & Hj & ->). exists (shortage_row j). split; [done|].
    apply list_elem_of_fmap. exists j. split; [done|].
    by apply elem_of_stable_sort.
Qed.

(** ** Rounding *)

Lemma round_half_even_comp (x y : Q) :
  (x == y)%Q → Py.round_half_even x = Py.round_half_even y.
Proof.
  intros H. unfold Py.round_half_even.
  rewrite (Qfloor_comp _ _ H).
  assert (Hc : ((x - inject_Z (Qfloor y)) ?= (1 # 2))%Q
             = ((y - inject_Z (Qfloor y)) ?= (1 # 2))%Q).
  { apply Qcompare_comp; [|reflexivity]. by rewrite H. }
  by rewrite Hc.
Qed.

Lemma round_half_even_floor (x : Q) :
  Py.round_half_even x = Qfloor x
  ∨ (Py.round_half_even x = Qfloor x + 1 ∧ (inject_Z (Qfloor x) < x)%Q).
Proof.
  unfold Py.round_half_even.
  assert (Hgt : ((1 # 2) <= x - inject_Z (Qfloor x))%Q →
                (inject_Z (Qfloor x) < x)%Q).
  { intros H. apply Qlt_minus_iff.
    apply Qlt_le_trans with (1 # 2)%Q; [reflexivity|done]. }
  destruct (Qcompare_spec (x - inject_Z (Qfloor x)) (1 # 2)) as [E|E|E].
  - destruct (Z.even (Qfloor x)); [by left|].
    right. split; [done|]. apply Hgt. rewrite E. apply Qle_refl.
  - by left.
  - right. split; [done|]. apply Hgt. by apply Qlt_le_weak.
Qed.

Lemma round_half_even_ge (a : Z) (x : Q) :
  (inject_Z a <= x)%Q → a ≤ Py.round_half_even x.
Proof.
  intros H. apply Qfloor_resp_le in H. rewrite Qfloor_Z in H.
  destruct (round_half_even_floor x) as [->|[-> _]]; lia.
Qed.

Lemma round_half_even_le (b : Z) (x : Q) :
  (x <= inject_Z b)%Q → Py.round_half_even x ≤ b.
Proof.
  intros H. pose proof (Qfloor_resp_le _ _ H) as Hf. rewrite Qfloor_Z in Hf.
  destruct (round_half_even_floor x) as [->|[-> Hlt]]; [done|].
  assert (Hlt' : (inject_Z (Qfloor x) < inject_Z b)%Q)
    by (by eapply Qlt_le_trans).
  rewrite <-Zlt_Qlt in Hlt'. lia.
Qed.

(** Rounding a percentage to 2 decimals keeps it a percentage. *)
Lemma round_percentage (x : Q) :
  (0 <= x <= 100)%Q → (0 <= Py.round x 2 <= 100)%Q.
Proof.
  intros [H0 H100]. unfold Py.round.
  change (inject_Z (10 ^ Z.of_nat 2)) with 100%Q.
  assert (Hlo : 0 ≤ Py.round_half_even (x * 100)).
  { apply round_half_even_ge. change (inject_Z 0) with (0 * 100)%Q.
    by apply Qmult_le_compat_r. }
  assert (Hhi : Py.round_half_even (x * 100) ≤ 10000).
  { apply round_half_even_le. change (inject_Z 10000) with (100 * 100)%Q.
    by apply Qmult_le_compat_r. }
  split.
  - apply Qle_shift_div_l; [reflexivity|].
    rewrite Qmult_0_l. change 0%Q with (inject_Z 0). by rewrite <-Zle_Qle.
  - apply Qle_shift_div_r; [reflexivity|].
    change (100 * 100)%Q with (inject_Z 10000). by rewrite <-Zle_Qle.
Qed.

Lemma round_percentage_full (x : Q) : (x == 100)%Q → (Py.round x 2 == 100)%Q.
Proof.
  intros H. unfold Py.round.
  rewrite (round_half_even_comp (x * _) (100 * inject_Z (10 ^ Z.of_nat 2))%Q)
    by (by rewrite H).
  reflexivity.
Qed.

(** [k * 100.0 / n] for [k] of [n] rows. *)
Lemma percentage_of_count (k n : Z) :
  0 ≤ k ≤ n → 0 < n →
  (0 <= inject_Z k * 100 / inject_Z n <= 100)%Q
  ∧ ((inject_Z k * 100 / inject_Z n == 100)%Q ↔ k = n).
Proof.
  intros Hk Hn.
  assert (Hn' : (0 < inject_Z n)%Q) by (unfold Qlt; simpl; lia).
  split; [split|].
  - apply Qle_shift_div_l; [done|]. rewrite Qmult_0_l.
    unfold Qle; simpl. lia.
  - apply Qle_shift_div_r; [done|]. unfold Qle; simpl. lia.
  - destruct n as [|n|n]; [lia| |lia].
    unfold Qeq, Qdiv, Qmult, Qinv. simpl. lia.
Qed.

(** ** business_insights_decision_making_task3.py: carrier performance *)

Lemma on_time_spec (s : Shipment) : on_time s = true ↔ delivered_by_estimate s.
Proof.
  unfold on_time, delivered_by_estimate.
  destruct (s_actual_delivery s) as [a|].
  - rewrite Z.leb_le. split; [eauto|]. by intros (a' & [= <-] & ?).
  - split; [done|]. by intros (? & [=] & _).
Qed.

Lemma count_filter_all {A} (P : A → Prop) `{∀ x, Decision (P x)} (l : list A) :
  count (filter P l) = count l ↔ ∀ x, x ∈ l → P x.
Proof.
  unfold count. split.
  - intros Hlen x Hx. destruct (decide (P x)) as [|Hn]; [done|].
    pose proof (length_filter_lt P l x Hx Hn). lia.
  - intros Hall. f_equal. f_equal.
    induction l as [|x l IH]; [done|].
    rewrite filter_cons_True by (apply Hall; left).
    f_equal. apply IH. intros; apply Hall. by right.
Qed.

(** The rows returned: one per (carrier, service level) with a
    delivered shipment, aggregating the carrier's group. *)
Lemma elem_of_carrier_delivery_performance db r :
  r ∈ calculate_carrier_delivery_performance db
  ↔ ∃ s, s ∈ filter delivered (shipment db)
         ∧ r = round_carrier_row
                 (carrier_row (s_carrier_id s, s_service_level s,
                               carrier_group db (s_carrier_id s)
                                                (s_service_level s))).
Proof.
  unfold calculate_carrier_delivery_performance, carrier_query.
  rewrite list_elem_of_fmap. split.
  - intros (q & -> & Hq). apply elem_of_stable_sort in Hq.
    apply list_elem_of_fmap in Hq as ([[c l] g] & -> & Hg).
    apply elem_of_group_by in Hg as [Hk ->].
    apply list_elem_of_fmap in Hk as (s & [= -> ->] & Hs). eauto.
  - intros (s & Hs & ->). eexists. split; [done|].
    apply elem_of_stable_sort. apply list_elem_of_fmap. eexists. split; [done|].
    apply elem_of_group_by. split; [|done].
    apply list_elem_of_fmap. eauto.
Qed.

(** C8 (as amended). For every row returned, the group of the row is
    not empty; the percentage the query computes for it lies in
    [0, 100] and is 100 iff every shipment of the group was delivered
    by its estimate; the percentage of the row is that value rounded
    to 2 decimals, lies in [0, 100], and is 100 if every shipment of
    the group was delivered by its estimate. *)
Theorem C8_on_time_percentage db r :
  r ∈ calculate_carrier_delivery_performance db →
  let group := carrier_group db (carrier_id r) (service_level r) in
  (∃ s, s ∈ group)
  ∧ ∃ q, on_time_ratio group = Some q
      ∧ (0 <= q <= 100)%Q
      ∧ ((q == 100)%Q ↔ ∀ s, s ∈ group → delivered_by_estimate s)
      ∧ on_time_percentage r = Some (Py.round q 2)
      ∧ (0 <= Py.round q 2 <= 100)%Q
      ∧ ((∀ s, s ∈ group → delivered_by_estimate s) →
         (Py.round q 2 == 100)%Q).
Proof.
  intros Hr. apply elem_of_carrier_delivery_performance in Hr as (s & Hs & ->).
  simpl. set (group := carrier_group db _ _).
  assert (Hs' : s ∈ group) by (by apply list_elem_of_filter).
  split; [eauto|].
  set (k := count (filter (λ s, on_time s = true) group)).
  assert (Hn : 0 < count group).
  { unfold count. destruct group; [by apply elem_of_nil in Hs'|simpl; lia]. }
  assert (Hk : 0 ≤ k ≤ count group).
  { unfold k, count. pose proof (length_filter (λ s, on_time s = true) group). lia. }
  destruct (percentage_of_count k (count group) Hk Hn) as [Hrange Hfull].
  assert (Hall : (inject_Z k * 100 / inject_Z (count group) == 100)%Q
                 ↔ ∀ s, s ∈ group → delivered_by_estimate s).
  { rewrite Hfull. unfold k. rewrite count_filter_all.
    split; intros H x Hx; apply on_time_spec; auto. }
  exists (inject_Z k * 100 / inject_Z (count group))%Q.
  assert (Hratio : on_time_ratio group
                   = Some (inject_Z k * 100 / inject_Z (count group))%Q).
  { unfold on_time_ratio, Sql.div. fold k.
    destruct (Qeq_bool (inject_Z (count group)) 0) eqn:E; [|done].
    apply Qeq_bool_iff in E. unfold Qeq in E. simpl in E. lia. }
  split; [done|]. split; [done|]. split; [done|].
  split; [by rewrite Hratio|].
  split; [by apply round_percentage|].
  intros H. apply round_percentage_full. by apply Hall.
Qed.

Lemma scenario_carrier_row :
  calculate_carrier_delivery_performance scenario_db
  = [scenario_carrier_performance].
Proof. by_evaluation. Defined.

Lemma scenario_carrier_row_returned :
  scenario_carrier_performance
    ∈ calculate_carrier_delivery_performance scenario_db.
Proof. rewrite scenario_carrier_row. left. Defined.

Lemma C8_on_time_percentage_witness :
  let group := carrier_group scenario_db "CarrierA" Standard in
  scenario_carrier_performance
    ∈ calculate_carrier_delivery_performance scenario_db
  ∧ (∃ s, s ∈ group)
  ∧ ∃ q, on_time_ratio group = Some q
      ∧ (0 <= q <= 100)%Q
      ∧ ((q == 100)%Q ↔ ∀ s, s ∈ group → delivered_by_estimate s)
      ∧ on_time_percentage scenario_carrier_performance = Some (Py.round q 2)
      ∧ (0 <= Py.round q 2 <= 100)%Q
      ∧ ((∀ s, s ∈ group → delivered_by_estimate s) →
         (Py.round q 2 == 100)%Q).
Proof.
  split; [exact scenario_carrier_row_returned|].
  exact (C8_on_time_percentage scenario_db scenario_carrier_performance
           scenario_carrier_row_returned).
Defined.

(** C8 (as stated) fails for the percentage of the row: with 24999
    shipments on time and one a day late the query computes 99.996,
    and the row carries 100.00. *)
Lemma C8_rounded_percentage_counterexample :
  ∃ r q, r ∈ calculate_carrier_delivery_performance crowded_db
    ∧ on_time_percentage r = Some q ∧ (q == 100)%Q
    ∧ late_shipment ∈ carrier_group crowded_db (carrier_id r) (service_level r)
    ∧ ¬ delivered_by_estimate late_shipment.
Proof.
  assert (Hlate : late_shipment ∈ filter delivered (shipment crowded_db)).
  { apply list_elem_of_filter. split; [by eexists|].
    apply elem_of_app. right. left. }
  eexists _, (10000 # 100)%Q. split.
  { apply elem_of_carrier_delivery_performance. exists late_shipment. done. }
  split; [by_evaluation|]. split; [reflexivity|]. split.
  - by apply list_elem_of_filter.
  - intros (a & [= <-] & Hle). vm_compute in Hle. done.
Qed.

(** * Further properties *)

Import Further.

(** ** [calculate_sales_velocity] *)

Lemma elem_of_sales_velocity_query db cutoff p w total :
  (p, w, total) ∈ sales_velocity_query db cutoff
  ↔ pair_demand db cutoff p w ≠ [] ∧ total = total_sold db cutoff p w.
Proof.
  unfold sales_velocity_query, total_sold, pair_demand.
  rewrite list_elem_of_fmap. split.
  - intros ([[p' w'] g] & [= -> -> ->] & Hg). simpl.
    pose proof (group_by_inhabited _ _ _ _ Hg) as [r Hr].
    apply elem_of_group_by in Hg as [_ ->]. split; [|done].
    intros E. rewrite E in Hr. by apply elem_of_nil in Hr.
  - intros [Hne ->].
    exists (p, w, filter (λ r, demand_key r = (p, w)) (demand_rows db cutoff)).
    split; [done|]. apply elem_of_group_by. split; [|done].
    destruct (filter _ _) as [|r g] eqn:E; [done|].
    assert (Hr : r ∈ filter (λ r, demand_key r = (p, w)) (demand_rows db cutoff))
      by (rewrite E; left).
    apply list_elem_of_filter in Hr as [<- Hr].
    apply list_elem_of_fmap. eauto.
Qed.

Lemma sales_velocity_query_keys db cutoff :
  (λ row : string * string * Z, (row.1.1, row.1.2))
    <$> sales_velocity_query db cutoff
  = (Sql.group_by demand_key (demand_rows db cutoff)).*1.
Proof.
  unfold sales_velocity_query. rewrite <-list_fmap_compose.
  apply list_fmap_ext. intros i [[p w] g] _. done.
Qed.

(** The loop stores one quotient per row; with distinct keys no row is
    overwritten. *)
Lemma velocity_loop_lookup days results d m :
  velocity_loop days results d = Py.Ok m →
  NoDup ((λ row : string * string * Z, (row.1.1, row.1.2)) <$> results) →
  (∀ p w total, (p, w, total) ∈ results →
     m !! (p, w) = Some (inject_Z total / inject_Z days)%Q)
  ∧ (∀ k, k ∉ (λ row : string * string * Z, (row.1.1, row.1.2)) <$> results →
       m !! k = d !! k).
Proof.
  revert d. induction results as [|[[p0 w0] t0] results IH]; intros d; simpl.
  - intros [= <-] _. split; [|done]. intros ??? H. by apply elem_of_nil in H.
  - unfold Py.truediv. destruct (Qeq_bool (inject_Z days) 0); [done|]. simpl.
    intros Hloop Hnd. apply NoDup_cons in Hnd as [Hfresh Hnd].
    destruct (IH _ Hloop Hnd) as [Hin Hout]. split.
    + intros p w total Hrow. apply elem_of_cons in Hrow as [[= -> -> ->]|Hrow].
      * rewrite Hout by done. by rewrite lookup_insert_eq.
      * by apply Hin.
    + intros k Hk. apply not_elem_of_cons in Hk as [Hne Hk].
      rewrite Hout by done. by rewrite lookup_insert_ne.
Qed.

Lemma calculate_sales_velocity_lookup db today days sv p w :
  days ≠ 0 →
  calculate_sales_velocity db today days = Py.Ok sv →
  sv !! (p, w) =
    if decide (pair_demand db (today - days) p w = [])
    then None
    else Some (inject_Z (total_sold db (today - days) p w) / inject_Z days)%Q.
Proof.
  intros Hdays Hsv. unfold calculate_sales_velocity in Hsv.
  apply velocity_loop_lookup in Hsv as [Hin Hout].
  2:{ rewrite sales_velocity_query_keys. apply NoDup_group_by_keys. }
  case_decide as Hg.
  - rewrite Hout, lookup_empty; [done|].
    rewrite sales_velocity_query_keys, group_by_keys, elem_of_remove_dups.
    intros Hk. apply list_elem_of_fmap in Hk as (r & Hkey & Hr).
    assert (Hr' : r ∈ pair_demand db (today - days) p w)
      by (by apply list_elem_of_filter).
    rewrite Hg in Hr'. by apply elem_of_nil in Hr'.
  - apply Hin. by apply elem_of_sales_velocity_query.
Qed.

(** X1. With a non-zero window, [calculate_sales_velocity] maps a
    (product, warehouse) pair to the total quantity of its qualifying
    joined rows divided by the window length, and a pair without a
    qualifying row is absent from the mapping. *)
Theorem sales_velocity_of_pair db today days sv p w :
  days ≠ 0 →
  calculate_sales_velocity db today days = Py.Ok sv →
  sv !! (p, w) =
    if decide (pair_demand db (today - days) p w = [])
    then None
    else Some (inject_Z (total_sold db (today - days) p w) / inject_Z days)%Q.
Proof. apply calculate_sales_velocity_lookup. Qed.

Lemma scenario_sales_velocity :
  calculate_sales_velocity scenario_db today 30
  = Py.Ok (default_sales_velocity scenario_db today).
Proof. apply calculate_sales_velocity_default. Defined.

Lemma sales_velocity_of_pair_witness :
  30 ≠ 0
  ∧ default_sales_velocity scenario_db today !! ("P001", "W01")
    = (if decide (pair_demand scenario_db (today - 30) "P001" "W01" = [])
       then None
       else Some (inject_Z (total_sold scenario_db (today - 30) "P001" "W01")
                  / inject_Z 30)%Q)
  ∧ total_sold scenario_db (today - 30) "P001" "W01" = 60.
Proof.
  split; [done|]. split; [|by_evaluation].
  exact (sales_velocity_of_pair scenario_db today 30 _ "P001" "W01"
           ltac:(done) scenario_sales_velocity).
Defined.

(** X2. With a window of 0 days [calculate_sales_velocity] returns the
    empty mapping when no joined row qualifies and raises
    ZeroDivisionError as soon as one does. *)
Theorem sales_velocity_zero_window db today :
  calculate_sales_velocity db today 0 =
    if decide (demand_rows db today = [])
    then Py.Ok ∅
    else Py.Raise Py.ZeroDivisionError.
Proof.
  unfold calculate_sales_velocity, sales_velocity_query, Sql.group_by.
  replace (today - 0) with today by lia.
  case_decide as Hrows.
  - rewrite Hrows. done.
  - destruct (demand_rows db today) as [|r rows] eqn:E; [done|].
    destruct (remove_dups (demand_key <$> r :: rows)) as [|k ks] eqn:Ek.
    + assert (Hk : demand_key r ∈ remove_dups (demand_key <$> r :: rows)).
      { apply elem_of_remove_dups. left. }
      rewrite Ek in Hk. by apply elem_of_nil in Hk.
    + done.
Qed.

(** ** [get_average_shipment_time] and [get_current_inventory] *)

(** X3. The keys of the shipment-time mapping are exactly the
    warehouses with a delivered shipment, and no value of the mapping
    is 0: a zero average is stored as 5.0. *)
Theorem shipment_time_keys_and_values db w :
  (is_Some (get_average_shipment_time db !! w)
   ↔ ∃ s, s ∈ shipment db ∧ s_warehouse_id s = w
          ∧ is_Some (s_actual_delivery s))
  ∧ ∀ t, get_average_shipment_time db !! w = Some t → ¬ (t == 0)%Q.
Proof.
  rewrite get_average_shipment_time_lookup. split.
  - split.
    + destruct (delivered_from db w) as [|s g] eqn:E; [by intros [? [=]]|].
      intros _. exists s.
      assert (Hs : s ∈ delivered_from db w) by (rewrite E; left).
      apply list_elem_of_filter in Hs as [Hw Hs].
      apply list_elem_of_filter in Hs as [Hd Hs]. done.
    + intros (s & Hs & Hw & Hd).
      assert (Hin : s ∈ delivered_from db w).
      { apply list_elem_of_filter. split; [done|].
        by apply list_elem_of_filter. }
      destruct (delivered_from db w); [by apply elem_of_nil in Hin | by eexists].
  - intros t. destruct (delivered_from db w) as [|s g]; [done|].
    intros [= <-]. unfold avg_days_or_default.
    destruct (Sql.avg _) as [d|]; [|done].
    destruct (Qeq_bool d 0) eqn:E; [done|]. by apply Qeq_bool_neq.
Qed.

Lemma dict_set_fresh {K V} `{EqDecision K} (k : K) (v : V) (d : list (K * V)) :
  k ∉ d.*1 → Py.dict_set k v d = d ++ [(k, v)].
Proof.
  induction d as [|[k0 v0] d IH]; simpl; [done|].
  intros Hk. apply not_elem_of_cons in Hk as [Hne Hk].
  case_decide; [done|]. by rewrite IH.
Qed.

(** X4. Under the primary key of the inventory table the inventory
    dictionary has one entry per row, in table order, with
    available = stock - reserved; no row is filtered out, whatever its
    available quantity. *)
Theorem current_inventory_of_table db :
  NoDup ((λ r, (i_product_id r, i_warehouse_id r)) <$> inventory db) →
  get_current_inventory db
  = (λ r, (i_product_id r, i_warehouse_id r,
           {| stock_quantity := i_stock_quantity r;
              reserved_quantity := i_reserved_quantity r;
              available_quantity :=
                i_stock_quantity r - i_reserved_quantity r |}))
      <$> inventory db.
Proof.
  unfold get_current_inventory.
  change (λ r, (i_product_id r, i_warehouse_id r, _))
    with (λ r, (i_product_id r, i_warehouse_id r, inventory_entry r)).
  set (key := λ r, (i_product_id r, i_warehouse_id r)).
  set (row := λ r, (i_product_id r, i_warehouse_id r, inventory_entry r)).
  assert (H : ∀ rows d,
    NoDup (d.*1 ++ (key <$> rows)) →
    foldl (λ inv r, Py.dict_set (i_product_id r, i_warehouse_id r)
                                (inventory_entry r) inv) d rows
    = d ++ (row <$> rows)).
  { induction rows as [|r rows IH]; intros d Hnd; simpl.
    - by rewrite app_nil_r.
    - apply NoDup_app in Hnd as (Hd & Hdisj & Hrows).
      apply NoDup_cons in Hrows as [Hr Hrows].
      rewrite dict_set_fresh.
      2:{ intros Hin. apply (Hdisj _ Hin). left. }
      rewrite IH.
      + by rewrite <-app_assoc.
      + rewrite fmap_app. simpl. rewrite <-app_assoc. simpl.
        apply NoDup_app. split; [done|]. split; [|by apply NoDup_cons].
        intros k Hk. apply Hdisj in Hk. done. }
  intros Hnd. apply (H (inventory db) []). done.
Qed.

Lemma scenario_inventory_key :
  NoDup ((λ r, (i_product_id r, i_warehouse_id r)) <$> inventory scenario_db).
Proof. apply (bool_decide_unpack _). by_evaluation. Defined.

Lemma current_inventory_of_table_witness :
  NoDup ((λ r, (i_product_id r, i_warehouse_id r)) <$> inventory scenario_db)
  ∧ get_current_inventory scenario_db
    = (λ r, (i_product_id r, i_warehouse_id r,
             {| stock_quantity := i_stock_quantity r;
                reserved_quantity := i_reserved_quantity r;
                available_quantity :=
                  i_stock_quantity r - i_reserved_quantity r |}))
        <$> inventory scenario_db.
Proof.
  split; [exact scenario_inventory_key|].
  exact (current_inventory_of_table scenario_db scenario_inventory_key).
Defined.

(** ** [calculate_restock_recommendations]: what is returned, and when *)

Section loop_shape.
Variable sales_velocity : gmap (string * string) Q.
Variable shipment_times : gmap string Q.
Variables safety_stock_days restock_threshold_days : Z.

Abbreviation recommend' :=
  (recommend sales_velocity shipment_times
     safety_stock_days restock_threshold_days).
Abbreviation restock_loop' :=
  (restock_loop sales_velocity shipment_times
     safety_stock_days restock_threshold_days).
Abbreviation emitted' :=
  (emitted sales_velocity shipment_times
     safety_stock_days restock_threshold_days).

Lemma restock_loop_emitted items acc recs :
  restock_loop' items acc = Py.Ok recs → recs = acc ++ emitted' items.
Proof.
  revert acc. induction items as [|item items IH]; intros acc.
  - simpl. intros [= <-]. by rewrite app_nil_r.
  - rewrite restock_loop_cons. unfold emitted. simpl.
    destruct (recommend' item) as [[rec|]|e]; simpl; [| |done].
    + intros H. apply IH in H as ->. by rewrite <-app_assoc.
    + apply IH.
Qed.

Lemma restock_loop_Raise_inv items acc e :
  restock_loop' items acc = Py.Raise e →
  ∃ item, item ∈ items ∧ recommend' item = Py.Raise e.
Proof.
  revert acc. induction items as [|item items IH]; intros acc; [done|].
  rewrite restock_loop_cons.
  destruct (recommend' item) as [o|e'] eqn:E; simpl.
  - intros H. apply IH in H as (it & Hit & Hr). exists it. split; [by right|done].
  - intros [= ->]. exists item. split; [left|done].
Qed.

Lemma recommend_Raise_inv p w data e :
  recommend' (p, w, data) = Py.Raise e →
  restock_needed sales_velocity shipment_times restock_threshold_days
    p w (available_quantity data) = true
  ∧ (reorder_point_of sales_velocity shipment_times restock_threshold_days p w
     == 0)%Q.
Proof.
  unfold recommend.
  destruct (restock_needed _ _ _ p w _); [|done].
  unfold Py.truediv. destruct (Qeq_bool _ 0) eqn:E; [|done].
  intros _. split; [done|]. by apply Qeq_bool_iff.
Qed.

(** An emitted record carries the key of its item. *)
Lemma emitted_keys items :
  (λ r, (product_id r, warehouse_id r)) <$> emitted' items `sublist_of` items.*1.
Proof.
  induction items as [|[[p w] data] items IH]; [done|].
  unfold emitted in *. rewrite fmap_cons. cbn [omap list_omap].
  destruct (recommend' (p, w, data)) as [[rec|]|e] eqn:E.
  - apply recommend_Some in E as (_ & _ & Hp & Hw & _).
    rewrite fmap_cons, Hp, Hw. by apply sublist_skip.
  - by apply sublist_cons.
  - by apply sublist_cons.
Qed.
End loop_shape.

Lemma recommendations_sorted_emitted db today ssd rtd recs :
  calculate_restock_recommendations db today ssd rtd = Py.Ok recs →
  recs = Py.sort_reverse urgency_score
           (emitted (default_sales_velocity db today)
                    (get_average_shipment_time db) ssd rtd
                    (get_current_inventory db)).
Proof.
  intros H. apply calculate_restock_recommendations_Ok in H as (u & Hloop & ->).
  apply restock_loop_emitted in Hloop as ->. done.
Qed.

(** X5. [calculate_restock_recommendations] raises ZeroDivisionError
    exactly when some pair of the inventory dictionary has
    available_quantity <= reorder_point and reorder_point = 0; on every
    other input it returns a list. *)
Theorem restock_raises_iff_zero_reorder_point db today ssd rtd :
  (calculate_restock_recommendations db today ssd rtd
   = Py.Raise Py.ZeroDivisionError
   ↔ ∃ p w data,
       (p, w, data) ∈ get_current_inventory db
       ∧ (inject_Z (available_quantity data)
          <= reorder_point_of (default_sales_velocity db today)
               (get_average_shipment_time db) rtd p w)%Q
       ∧ (reorder_point_of (default_sales_velocity db today)
            (get_average_shipment_time db) rtd p w == 0)%Q)
  ∧ ((∃ recs, calculate_restock_recommendations db today ssd rtd = Py.Ok recs)
     ∨ calculate_restock_recommendations db today ssd rtd
       = Py.Raise Py.ZeroDivisionError).
Proof.
  split.
  - split.
    + unfold calculate_restock_recommendations.
      rewrite calculate_sales_velocity_default. simpl.
      destruct (restock_loop _ _ _ _ _ _) as [u|e] eqn:E; [done|].
      intros _. apply restock_loop_Raise_inv in E as ([[p w] data] & Hin & Hr).
      apply recommend_Raise_inv in Hr as [Htrig H0].
      exists p, w, data. split; [done|]. split; [|done].
      by apply restock_needed_iff.
    + intros (p & w & data & Hin & Htrig & H0).
      by apply (zero_reorder_point_raises db today ssd rtd p w data).
  - destruct (calculate_restock_recommendations db today ssd rtd) as [recs|[]];
      [left; eauto | by right].
Qed.

(** X6. The list returned holds at most one record per (product id,
    warehouse id), and no more records than the inventory dictionary
    has entries. *)
Theorem one_recommendation_per_pair db today ssd rtd recs :
  calculate_restock_recommendations db today ssd rtd = Py.Ok recs →
  NoDup ((λ r, (product_id r, warehouse_id r)) <$> recs)
  ∧ (length recs ≤ length (get_current_inventory db))%nat.
Proof.
  intros H. apply recommendations_sorted_emitted in H as ->.
  unfold Py.sort_reverse.
  pose proof (emitted_keys (default_sales_velocity db today)
                (get_average_shipment_time db) ssd rtd
                (get_current_inventory db)) as Hsub.
  split.
  - rewrite stable_sort_perm.
    apply (sublist_NoDup _ _ (get_current_inventory_NoDup db) Hsub).
  - rewrite length_stable_sort.
    apply sublist_length in Hsub. by rewrite !length_fmap in Hsub.
Qed.

Lemma one_recommendation_per_pair_witness :
  calculate_restock_recommendations ranking_db today 14 7
  = Py.Ok ranking_recommendations
  ∧ NoDup ((λ r, (product_id r, warehouse_id r)) <$> ranking_recommendations)
  ∧ (length ranking_recommendations
     ≤ length (get_current_inventory ranking_db))%nat.
Proof.
  split; [exact ranking_recommendations_eq|].
  exact (one_recommendation_per_pair ranking_db today 14 7
           ranking_recommendations ranking_recommendations_eq).
Defined.

(** ** The order of the records, and their urgency scores *)

Section stability.
Context {A : Type} (leb : A → A → bool).
Context (P : A → Prop) `{∀ x, Decision (P x)}.
Hypothesis same_class : ∀ x y, P x → P y → leb x y = true.

Lemma insert_sorted_filter x l :
  filter P (Py.insert_sorted leb x l) = filter P (x :: l).
Proof using same_class.
  induction l as [|y l IH]; [done|]. simpl.
  destruct (leb x y) eqn:E; [done|].
  rewrite filter_cons, IH, !filter_cons.
  destruct (decide (P y)) as [Hy|Hy], (decide (P x)) as [Hx|Hx]; try done.
  rewrite same_class in E; done.
Qed.

(** The sort keeps the relative order of the elements of one class. *)
Lemma stable_sort_filter l : filter P (Py.stable_sort leb l) = filter P l.
Proof using same_class.
  induction l as [|x l IH]; [done|]. simpl.
  by rewrite insert_sorted_filter, !filter_cons, IH.
Qed.
End stability.

(** X7. The sort is stable: the records of the list returned that
    share an urgency score are in the order in which the loop emitted
    them, the iteration order of the inventory dictionary. *)
Theorem equal_urgency_keeps_inventory_order db today ssd rtd recs :
  calculate_restock_recommendations db today ssd rtd = Py.Ok recs →
  ∀ q, filter (λ r, urgency_score r == q)%Q recs
       = filter (λ r, urgency_score r == q)%Q
           (emitted (default_sales_velocity db today)
                    (get_average_shipment_time db) ssd rtd
                    (get_current_inventory db)).
Proof.
  intros H q. apply recommendations_sorted_emitted in H as ->.
  apply stable_sort_filter. intros x y Hx Hy.
  apply Qle_bool_iff. rewrite Hx, Hy. apply Qle_refl.
Qed.

Lemma equal_urgency_keeps_inventory_order_witness :
  ∃ recs,
    calculate_restock_recommendations tie_db today 14 7 = Py.Ok recs
    ∧ (λ r, (product_id r, urgency_score r)) <$> recs
      = [("P001", (1000 # 10)%Q); ("P002", (1000 # 10)%Q)]
    ∧ ∀ q, filter (λ r, urgency_score r == q)%Q recs
           = filter (λ r, urgency_score r == q)%Q
               (emitted (default_sales_velocity tie_db today)
                        (get_average_shipment_time tie_db) 14 7
                        (get_current_inventory tie_db)).
Proof.
  eexists. split; [by_evaluation|]. split; [by_evaluation|].
  apply (equal_urgency_keeps_inventory_order tie_db today 14 7).
  by_evaluation.
Defined.

Lemma round_scale_pos (ndigits : nat) :
  (0 < inject_Z (10 ^ Z.of_nat ndigits))%Q.
Proof.
  assert (0 < 10 ^ Z.of_nat ndigits) by (apply Z.pow_pos_nonneg; lia).
  unfold Qlt. simpl. lia.
Qed.

(** Rounding to any number of decimals does not cross an integer. *)
Lemma round_ge_Z (a : Z) (x : Q) (ndigits : nat) :
  (inject_Z a <= x)%Q → (inject_Z a <= Py.round x ndigits)%Q.
Proof.
  intros H. unfold Py.round.
  pose proof (round_scale_pos ndigits) as Hs.
  apply Qle_shift_div_l; [done|].
  rewrite <-inject_Z_mult, <-Zle_Qle.
  apply round_half_even_ge. rewrite inject_Z_mult.
  apply Qmult_le_compat_r; [done|]. by apply Qlt_le_weak.
Qed.

Lemma round_le_Z (b : Z) (x : Q) (ndigits : nat) :
  (x <= inject_Z b)%Q → (Py.round x ndigits <= inject_Z b)%Q.
Proof.
  intros H. unfold Py.round.
  pose proof (round_scale_pos ndigits) as Hs.
  apply Qle_shift_div_r; [done|].
  rewrite <-inject_Z_mult, <-Zle_Qle.
  apply round_half_even_le. rewrite inject_Z_mult.
  apply Qmult_le_compat_r; [done|]. by apply Qlt_le_weak.
Qed.

Lemma recommend_Some_urgency sv st ssd rtd p w data r :
  recommend sv st ssd rtd (p, w, data) = Py.Ok (Some r) →
  urgency_score r
  = Py.round ((reorder_point_of sv st rtd p w
               - inject_Z (available_quantity data))
              / reorder_point_of sv st rtd p w * 100) 1.
Proof.
  unfold recommend.
  destruct (restock_needed _ _ _ p w _); [|done].
  unfold Py.truediv. destruct (Qeq_bool _ 0); [done|].
  simpl. by intros [= <-].
Qed.

Lemma urgency_score_bounds db today ssd rtd recs r :
  calculate_restock_recommendations db today ssd rtd = Py.Ok recs →
  r ∈ recs →
  (0 < reorder_point_of (default_sales_velocity db today)
         (get_average_shipment_time db) rtd (product_id r) (warehouse_id r))%Q →
  (0 <= urgency_score r)%Q
  ∧ (0 ≤ current_available_stock r → (urgency_score r <= 100)%Q)
  ∧ (current_available_stock r = 0 → (urgency_score r == 100)%Q).
Proof.
  intros Hrecs Hr Hpos.
  apply (elem_of_recommendations _ _ _ _ _ _ Hrecs) in Hr
    as ([[p w] data] & _ & Hr).
  pose proof (recommend_Some_urgency _ _ _ _ _ _ _ _ Hr) as ->.
  apply recommend_Some in Hr as (Htrig & _ & Hp & Hw & Ha & _).
  rewrite Hp, Hw in Hpos. rewrite Ha. clear Hp Hw Ha.
  apply restock_needed_iff in Htrig.
  set (rp := reorder_point_of _ _ rtd p w) in *.
  set (a := inject_Z (available_quantity data)) in *.
  assert (Hlo : (0 <= (rp - a) / rp * 100)%Q).
  { apply Qmult_le_0_compat; [|done].
    apply Qle_shift_div_l; [done|]. rewrite Qmult_0_l.
    by apply (proj1 (Qle_minus_iff a rp)). }
  assert (Hhi : (0 <= a → (rp - a) / rp * 100 <= 100)%Q).
  { intros Ha. apply Qle_trans with (1 * 100)%Q; [|done].
    apply Qmult_le_compat_r; [|done].
    apply Qle_shift_div_r; [done|]. rewrite Qmult_1_l.
    apply Qle_minus_iff.
    assert (E : (rp + - (rp - a) == a)%Q) by ring. by rewrite E. }
  split; [by apply (round_ge_Z 0)|]. split.
  - intros Ha. apply (round_le_Z 100). apply Hhi.
    unfold a. by rewrite <-(Zle_Qle 0).
  - intros Ha. apply Qle_antisym.
    + apply (round_le_Z 100). apply Hhi. unfold a. rewrite Ha. apply Qle_refl.
    + apply (round_ge_Z 100). unfold a. rewrite Ha.
      apply Qle_trans with (1 * 100)%Q; [done|].
      apply Qmult_le_compat_r; [|done].
      apply Qle_shift_div_l; [done|]. rewrite Qmult_1_l.
      assert (E : (rp - inject_Z 0 == rp)%Q) by ring. rewrite E. apply Qle_refl.
Qed.

(** X8. A record whose pair has a positive reorder point has an
    urgency score of at least 0; the score is at most 100 when the
    available stock of the record is not negative, and is 100 when it
    is 0. *)
Theorem urgency_score_range db today ssd rtd recs r :
  calculate_restock_recommendations db today ssd rtd = Py.Ok recs →
  r ∈ recs →
  (0 < reorder_point_of (default_sales_velocity db today)
         (get_average_shipment_time db) rtd (product_id r) (warehouse_id r))%Q →
  (0 <= urgency_score r)%Q
  ∧ (0 ≤ current_available_stock r → (urgency_score r <= 100)%Q)
  ∧ (current_available_stock r = 0 → (urgency_score r == 100)%Q).
Proof. apply urgency_score_bounds. Qed.

Lemma scenario_reorder_point_positive :
  (0 < reorder_point_of (default_sales_velocity scenario_db today)
         (get_average_shipment_time scenario_db) 7
         (product_id scenario_recommendation)
         (warehouse_id scenario_recommendation))%Q.
Proof. by_evaluation. Defined.

Lemma urgency_score_range_witness :
  calculate_restock_recommendations scenario_db today 14 7
  = Py.Ok [scenario_recommendation]
  ∧ (0 <= urgency_score scenario_recommendation)%Q
  ∧ (0 ≤ current_available_stock scenario_recommendation →
     (urgency_score scenario_recommendation <= 100)%Q)
  ∧ (current_available_stock scenario_recommendation = 0 →
     (urgency_score scenario_recommendation == 100)%Q).
Proof.
  split; [exact scenario_recommendations_eq|].
  refine (urgency_score_range scenario_db today 14 7
            [scenario_recommendation] scenario_recommendation
            scenario_recommendations_eq _ scenario_reorder_point_positive).
  left.
Defined.

(** ** The recommended quantity *)

Lemma int_bounds (x : Q) :
  (x - 1 < inject_Z (Py.int x))%Q
  ∧ ((0 <= x)%Q → (inject_Z (Py.int x) <= x)%Q)
  ∧ ((x <= 1)%Q → Py.int x ≤ 1).
Proof.
  destruct x as [n p]. unfold Py.int, Qlt, Qle, Qminus, Qplus, Qopp, inject_Z.
  cbn [Qnum Qden]. Z.quot_rem_to_equations. nia.
Qed.

Lemma default_sales_velocity_absent db today p w :
  pair_demand db (today - 30) p w = [] →
  default_sales_velocity db today !! (p, w) = None.
Proof.
  intros H.
  rewrite (calculate_sales_velocity_lookup db today 30 _ p w ltac:(done)
             (calculate_sales_velocity_default db today)).
  by rewrite decide_True.
Qed.

(** X10. With the default parameters (14, 7), a pair without a
    qualifying sale in the last 30 days, in a warehouse without a
    delivered shipment, is recommended for restocking exactly when its
    available quantity is at most 1, and then for 4 - available units. *)
Theorem pair_without_history db today recs p w data :
  calculate_restock_recommendations db today 14 7 = Py.Ok recs →
  (p, w, data) ∈ get_current_inventory db →
  pair_demand db (today - 30) p w = [] →
  delivered_from db w = [] →
  (available_quantity data ≤ 1 →
   ∃ r, r ∈ recs ∧ product_id r = p ∧ warehouse_id r = w
        ∧ recommended_restock_quantity r = 4 - available_quantity data)
  ∧ (2 ≤ available_quantity data →
     ∀ r, r ∈ recs → ¬ (product_id r = p ∧ warehouse_id r = w)).
Proof.
  intros Hrecs Hin Hsales Hship.
  apply default_sales_velocity_absent in Hsales.
  apply get_average_shipment_time_absent in Hship.
  set (sv := default_sales_velocity db today) in *.
  set (st := get_average_shipment_time db) in *.
  assert (Hneeded : restock_needed sv st 7 p w (available_quantity data) = true
                    ↔ available_quantity data ≤ 1).
  { rewrite restock_needed_iff.
    unfold reorder_point_of, velocity_of, shipment_time_of.
    rewrite Hsales, Hship. simpl. unfold Qle. simpl. lia. }
  assert (Hrp : ¬ (reorder_point_of sv st 7 p w == 0)%Q).
  { unfold reorder_point_of, velocity_of, shipment_time_of.
    rewrite Hsales, Hship. done. }
  split.
  - intros Ha.
    destruct (recommend_emit sv st 14 7 p w data) as [r Hr]; [by apply Hneeded|done|].
    exists r. split.
    { apply (elem_of_recommendations _ _ _ _ _ _ Hrecs). eauto. }
    apply recommend_Some in Hr as (_ & _ & Hp & Hw & _ & ->).
    split; [done|]. split; [done|].
    unfold target_stock_of, safety_stock_of, velocity_of, replenishment_period.
    fold sv. rewrite Hsales.
    unfold Py.int, Qminus, Qplus, Qmult, Qopp, inject_Z. cbn [default Qnum Qden].
    Z.quot_rem_to_equations. lia.
  - intros Ha r Hr [Hp Hw].
    apply (elem_of_recommendations _ _ _ _ _ _ Hrecs) in Hr
      as ([[p' w'] data'] & Hin' & Hr).
    apply recommend_Some in Hr as (Htrig & _ & Hp' & Hw' & _).
    assert (p' = p) as -> by congruence.
    assert (w' = w) as -> by congruence.
    assert (data' = data) as ->
      by (eapply (NoDup_fst_functional _ (p, w));
          eauto using get_current_inventory_NoDup).
    apply Hneeded in Htrig. lia.
Qed.

Lemma pair_without_history_witness :
  ∃ recs,
    calculate_restock_recommendations idle_db today 14 7 = Py.Ok recs
    ∧ ("P002", "W02", inventory_entry (mk_inventory "P002" "W02" 1 0))
        ∈ get_current_inventory idle_db
    ∧ pair_demand idle_db (today - 30) "P002" "W02" = []
    ∧ delivered_from idle_db "W02" = []
    ∧ (1 ≤ 1 →
       ∃ r, r ∈ recs ∧ product_id r = "P002" ∧ warehouse_id r = "W02"
            ∧ recommended_restock_quantity r = 4 - 1)
    ∧ (2 ≤ 1 →
       ∀ r, r ∈ recs → ¬ (product_id r = "P002" ∧ warehouse_id r = "W02")).
Proof.
  eexists. split; [by_evaluation|]. split; [vm_compute; left|].
  split; [by_evaluation|]. split; [by_evaluation|].
  apply (pair_without_history idle_db today _ "P002" "W02"
           (inventory_entry (mk_inventory "P002" "W02" 1 0)));
    [by_evaluation | vm_compute; left | by_evaluation | by_evaluation].
Defined.

(** ** [generate_restock_report]: the summary by warehouse *)

Import Report.

Section dict_get.
Context {K V : Type} `{EqDecision K}.

Lemma dict_get_set_eq (k : K) (v : V) (d : list (K * V)) :
  dict_get k (Py.dict_set k v d) = Some v.
Proof.
  induction d as [|[k0 v0] d IH]; simpl.
  - by rewrite decide_True.
  - case_decide as E; simpl.
    + by rewrite decide_True.
    + by rewrite decide_False.
Qed.

Lemma dict_get_set_ne (k k' : K) (v : V) (d : list (K * V)) :
  k' ≠ k → dict_get k' (Py.dict_set k v d) = dict_get k' d.
Proof.
  intros Hne. induction d as [|[k0 v0] d IH]; simpl.
  - by rewrite decide_False.
  - case_decide as E; simpl.
    + subst k0. by rewrite !decide_False.
    + case_decide; [done|]. apply IH.
Qed.

Lemma dict_get_None (k : K) (d : list (K * V)) :
  dict_get k d = None ↔ k ∉ d.*1.
Proof.
  induction d as [|[k0 v0] d IH]; simpl.
  - split; [intros _; apply not_elem_of_nil | done].
  - rewrite not_elem_of_cons. case_decide as E; simpl.
    + split; [done | tauto].
    + rewrite IH. tauto.
Qed.
End dict_get.

Lemma sum_Z_app (l1 l2 : list Z) :
  Sql.sum_Z (l1 ++ l2) = Sql.sum_Z l1 + Sql.sum_Z l2.
Proof. induction l1 as [|x l1 IH]; simpl; lia. Qed.

Lemma summary_of_snoc (g : list recommendation) (rec : recommendation) :
  summary_of (g ++ [rec])
  = Some {| count := default 0 (count <$> summary_of g) + 1;
            total_qty := default 0 (total_qty <$> summary_of g)
                         + recommended_restock_quantity rec |}.
Proof.
  unfold summary_of.
  destruct (g ++ [rec]) as [|x l] eqn:E; [by destruct g|]. rewrite <-E.
  rewrite length_app, fmap_app, sum_Z_app. simpl.
  destruct g; simpl; f_equal; f_equal; lia.
Qed.

(** The loop invariant: after the records [l] the dictionary holds,
    for every warehouse, the summary of its records in [l]. *)
Lemma summarize_invariant (l : list recommendation)
    (ws : list (string * summary)) (rec : recommendation) :
  (∀ w, dict_get w ws = summary_of (of_warehouse w l)) →
  ∀ w, dict_get w (summarize ws rec) = summary_of (of_warehouse w (l ++ [rec])).
Proof.
  intros Hinv w. unfold summarize, of_warehouse.
  rewrite filter_app, filter_cons, filter_nil.
  set (wid := warehouse_id rec).
  set (ws1 := if bool_decide (wid ∈ ws.*1) then ws
              else Py.dict_set wid {| count := 0; total_qty := 0 |} ws).
  assert (Hget : dict_get wid ws1
                 = Some {| count := default 0 (count <$> dict_get wid ws);
                           total_qty := default 0 (total_qty <$> dict_get wid ws) |}).
  { unfold ws1. case_bool_decide as Hin.
    - destruct (dict_get wid ws) as [[c t]|] eqn:E; [done|].
      by apply dict_get_None in E.
    - rewrite dict_get_set_eq.
      apply dict_get_None in Hin. by rewrite Hin. }
  assert (Hother : ∀ w', w' ≠ wid → dict_get w' ws1 = dict_get w' ws).
  { intros w' Hne. unfold ws1. case_bool_decide; [done|].
    by apply dict_get_set_ne. }
  rewrite Hget. simpl.
  destruct (decide (wid = w)) as [Hw|Hw].
  - subst w. rewrite dict_get_set_eq, summary_of_snoc.
    by rewrite Hinv.
  - rewrite app_nil_r, dict_get_set_ne by done.
    rewrite Hother by done. apply Hinv.
Qed.

(** X11. In the summary by warehouse of the report, a warehouse has an
    entry exactly when some recommendation is for it, and the entry
    holds the number of its recommendations and the total of their
    recommended quantities. *)
Theorem warehouse_summary_totals (recommendations : list recommendation)
    (w : string) :
  dict_get w (warehouse_summary recommendations)
  = match of_warehouse w recommendations with
    | [] => None
    | g => Some {| count := Z.of_nat (length g);
                   total_qty := Sql.sum_Z (recommended_restock_quantity <$> g) |}
    end.
Proof.
  unfold warehouse_summary.
  transitivity (summary_of (of_warehouse w ([] ++ recommendations)));
    [|simpl; unfold summary_of; by destruct (of_warehouse w recommendations)].
  assert (Hinit : ∀ w, dict_get w (@nil (string * summary))
                       = summary_of (of_warehouse w [])) by done.
  revert w. generalize dependent (@nil recommendation).
  generalize (@nil (string * summary)).
  induction recommendations as [|rec recs IH]; intros ws l Hinv w.
  - rewrite app_nil_r. apply Hinv.
  - simpl. rewrite (cons_middle rec l recs), app_assoc.
    apply IH. by apply summarize_invariant.
Qed.

(** ** [calculate_carrier_delivery_performance]: the other columns *)

Lemma sum_Z_perm (l l' : list Z) : l ≡ₚ l' → Sql.sum_Z l = Sql.sum_Z l'.
Proof. unfold Sql.sum_Z. induction 1; simpl; lia. Qed.

Lemma sum_Z_fmap_plus {A} (f g : A → Z) (l : list A) :
  Sql.sum_Z ((λ x, f x + g x) <$> l)
  = Sql.sum_Z (f <$> l) + Sql.sum_Z (g <$> l).
Proof.
  unfold Sql.sum_Z. induction l as [|x l IH]; [done|].
  rewrite !fmap_cons. simpl. lia.
Qed.

Lemma sum_Z_cons (x : Z) (l : list Z) : Sql.sum_Z (x :: l) = x + Sql.sum_Z l.
Proof. reflexivity. Qed.

Lemma sum_Z_indicator {K} `{EqDecision K} (x : K) (ks : list K) :
  NoDup ks →
  Sql.sum_Z ((λ k, if decide (x = k) then 1 else 0) <$> ks)
  = if decide (x ∈ ks) then 1 else 0.
Proof.
  induction 1 as [|k ks Hk Hnd IH]; [done|].
  rewrite fmap_cons, sum_Z_cons, IH. destruct (decide (x = k)) as [->|Hne].
  - rewrite decide_False by done. rewrite decide_True by left. done.
  - destruct (decide (x ∈ ks)) as [Hin|Hout].
    + rewrite decide_True by (by right). done.
    + rewrite decide_False; [done|]. by apply not_elem_of_cons.
Qed.

(** The groups of a GROUP BY partition the rows. *)
Lemma group_by_sizes {K A} `{EqDecision K} (key : A → K) (rows : list A) :
  Sql.sum_Z ((λ g, Z.of_nat (length g.2)) <$> Sql.group_by key rows)
  = Z.of_nat (length rows).
Proof.
  unfold Sql.group_by. rewrite <-list_fmap_compose.
  assert (H : ∀ ks l, NoDup ks → (∀ r, r ∈ l → key r ∈ ks) →
    Sql.sum_Z ((λ k, Z.of_nat (length (filter (λ r, key r = k) l))) <$> ks)
    = Z.of_nat (length l)).
  { intros ks l Hnd. induction l as [|r l IH]; intros Hcover.
    - clear Hnd Hcover. induction ks as [|k ks IHks]; [done|].
      rewrite fmap_cons, sum_Z_cons, IHks. done.
    - transitivity
        (Sql.sum_Z ((λ k, (if decide (key r = k) then 1 else 0)
                          + Z.of_nat (length (filter (λ r, key r = k) l)))
                    <$> ks)).
      { f_equal. apply list_fmap_ext. intros _ k _.
        rewrite filter_cons. destruct (decide (key r = k)); simpl; lia. }
      rewrite sum_Z_fmap_plus, sum_Z_indicator by done.
      rewrite decide_True by (apply Hcover; left).
      rewrite IH by (intros; apply Hcover; by right).
      simpl length. lia. }
  apply H; [apply NoDup_remove_dups|].
  intros r Hr. apply elem_of_remove_dups. apply list_elem_of_fmap. eauto.
Qed.

Lemma carrier_rows_perm db :
  calculate_carrier_delivery_performance db
  ≡ₚ (λ g, round_carrier_row (carrier_row g))
       <$> Sql.group_by (λ s, (s_carrier_id s, s_service_level s))
                        (filter delivered (shipment db)).
Proof.
  unfold calculate_carrier_delivery_performance, carrier_query.
  rewrite stable_sort_perm, <-list_fmap_compose. done.
Qed.

(** X12. The carrier table has one row per (carrier, service level);
    each row counts the delivered shipments of its carrier and level,
    at least one; and the counts add up to the number of delivered
    shipments: every delivered shipment is counted in exactly one row. *)
Theorem carrier_rows_partition_deliveries db :
  NoDup ((λ r, (carrier_id r, service_level r))
           <$> calculate_carrier_delivery_performance db)
  ∧ Sql.sum_Z (total_shipments <$> calculate_carrier_delivery_performance db)
    = SupplyChainAnalytics.count (filter delivered (shipment db))
  ∧ ∀ r, r ∈ calculate_carrier_delivery_performance db →
      1 ≤ total_shipments r
      ∧ total_shipments r
        = SupplyChainAnalytics.count
            (carrier_group db (carrier_id r) (service_level r)).
Proof.
  split; [|split].
  - rewrite carrier_rows_perm, <-list_fmap_compose.
    erewrite list_fmap_ext; [apply NoDup_group_by_keys|].
    by intros i [[c l] g] _.
  - rewrite (sum_Z_perm _ _ (fmap_Permutation _ _ _ (carrier_rows_perm db))).
    rewrite <-list_fmap_compose. apply group_by_sizes.
  - intros r Hr.
    apply elem_of_carrier_delivery_performance in Hr as (s & Hs & ->). simpl.
    split; [|done].
    assert (Hin : s ∈ carrier_group db (s_carrier_id s) (s_service_level s))
      by (by apply list_elem_of_filter).
    unfold SupplyChainAnalytics.count. destruct (carrier_group db _ _); [by apply elem_of_nil in Hin|].
    simpl. lia.
Qed.

Lemma Qmin_le (x y : Q) : (Sql.Qmin x y <= x)%Q ∧ (Sql.Qmin x y <= y)%Q.
Proof.
  unfold Sql.Qmin. destruct (Qle_bool x y) eqn:E.
  - apply Qle_bool_iff in E. split; [apply Qle_refl | done].
  - split; [|apply Qle_refl]. apply Qlt_le_weak, Qnot_le_lt.
    intros H. apply Qle_bool_iff in H. congruence.
Qed.

Lemma Qmax_ge (x y : Q) : (x <= Sql.Qmax x y)%Q ∧ (y <= Sql.Qmax x y)%Q.
Proof.
  unfold Sql.Qmax. destruct (Qle_bool x y) eqn:E.
  - apply Qle_bool_iff in E. split; [done | apply Qle_refl].
  - split; [apply Qle_refl|]. apply Qlt_le_weak, Qnot_le_lt.
    intros H. apply Qle_bool_iff in H. congruence.
Qed.

Lemma foldl_Qmin_le (x : Q) (l : list Q) :
  (foldl Sql.Qmin x l <= x)%Q ∧ ∀ y, y ∈ l → (foldl Sql.Qmin x l <= y)%Q.
Proof.
  revert x. induction l as [|z l IH]; intros x; simpl.
  - split; [apply Qle_refl|]. intros y Hy. by apply elem_of_nil in Hy.
  - destruct (IH (Sql.Qmin x z)) as [H0 Hl], (Qmin_le x z) as [Hx Hz]. split.
    + by apply Qle_trans with (Sql.Qmin x z).
    + intros y Hy. apply elem_of_cons in Hy as [->|Hy]; [|by apply Hl].
      by apply Qle_trans with (Sql.Qmin x z).
Qed.

Lemma foldl_Qmax_ge (x : Q) (l : list Q) :
  (x <= foldl Sql.Qmax x l)%Q ∧ ∀ y, y ∈ l → (y <= foldl Sql.Qmax x l)%Q.
Proof.
  revert x. induction l as [|z l IH]; intros x; simpl.
  - split; [apply Qle_refl|]. intros y Hy. by apply elem_of_nil in Hy.
  - destruct (IH (Sql.Qmax x z)) as [H0 Hl], (Qmax_ge x z) as [Hx Hz]. split.
    + by apply Qle_trans with (Sql.Qmax x z).
    + intros y Hy. apply elem_of_cons in Hy as [->|Hy]; [|by apply Hl].
      by apply Qle_trans with (Sql.Qmax x z).
Qed.

Lemma sql_min_le (l : list Q) (m x : Q) :
  Sql.min l = Some m → x ∈ l → (m <= x)%Q.
Proof.
  destruct l as [|y l]; [done|]. simpl. intros [= <-] Hx.
  destruct (foldl_Qmin_le y l) as [Hy Hl].
  apply elem_of_cons in Hx as [->|Hx]; auto.
Qed.

Lemma sql_max_ge (l : list Q) (m x : Q) :
  Sql.max l = Some m → x ∈ l → (x <= m)%Q.
Proof.
  destruct l as [|y l]; [done|]. simpl. intros [= <-] Hx.
  destruct (foldl_Qmax_ge y l) as [Hy Hl].
  apply elem_of_cons in Hx as [->|Hx]; auto.
Qed.

Lemma inject_Z_length_cons {A} (x : A) (l : list A) :
  (inject_Z (Z.of_nat (length (x :: l)))
   == inject_Z (Z.of_nat (length l)) + 1)%Q.
Proof.
  simpl length. rewrite Nat2Z.inj_succ, <-Z.add_1_r, inject_Z_plus. reflexivity.
Qed.

Lemma sum_Q_ge (m : Q) (l : list Q) :
  (∀ x, x ∈ l → (m <= x)%Q) →
  (m * inject_Z (Z.of_nat (length l)) <= Sql.sum_Q l)%Q.
Proof.
  induction l as [|y l IH]; intros H.
  - simpl. rewrite Qmult_0_r. apply Qle_refl.
  - rewrite inject_Z_length_cons. unfold Sql.sum_Q. simpl foldr.
    fold (Sql.sum_Q l).
    rewrite Qmult_plus_distr_r, Qmult_1_r, Qplus_comm.
    apply Qplus_le_compat; [apply H; left|].
    apply IH. intros; apply H. by right.
Qed.

Lemma sum_Q_le (m : Q) (l : list Q) :
  (∀ x, x ∈ l → (x <= m)%Q) →
  (Sql.sum_Q l <= m * inject_Z (Z.of_nat (length l)))%Q.
Proof.
  induction l as [|y l IH]; intros H.
  - simpl. rewrite Qmult_0_r. apply Qle_refl.
  - rewrite inject_Z_length_cons. unfold Sql.sum_Q. simpl foldr.
    fold (Sql.sum_Q l).
    rewrite Qmult_plus_distr_r, Qmult_1_r, (Qplus_comm (m * _)).
    apply Qplus_le_compat; [apply H; left|].
    apply IH. intros; apply H. by right.
Qed.

Lemma length_pos_Q {A} (x : A) (l : list A) :
  (0 < inject_Z (Z.of_nat (length (x :: l))))%Q.
Proof. unfold Qlt. simpl. lia. Qed.

(** An average lies between any two bounds of the values. *)
Lemma sql_avg_ge (l : list Q) (m a : Q) :
  Sql.avg l = Some a → (∀ x, x ∈ l → (m <= x)%Q) → (m <= a)%Q.
Proof.
  destruct l as [|y l]; [done|]. intros [= <-] H.
  apply Qle_shift_div_l; [apply (length_pos_Q y l)|].
  exact (sum_Q_ge m (y :: l) H).
Qed.

Lemma sql_avg_le (l : list Q) (m a : Q) :
  Sql.avg l = Some a → (∀ x, x ∈ l → (x <= m)%Q) → (a <= m)%Q.
Proof.
  destruct l as [|y l]; [done|]. intros [= <-] H.
  apply Qle_shift_div_r; [apply (length_pos_Q y l)|].
  exact (sum_Q_le m (y :: l) H).
Qed.

(** Rounding is monotone. *)
Lemma round_half_even_mono (x y : Q) :
  (x <= y)%Q → Py.round_half_even x ≤ Py.round_half_even y.
Proof.
  intros Hxy. pose proof (Qfloor_resp_le _ _ Hxy) as Hf.
  destruct (Z.eq_dec (Qfloor x) (Qfloor y)) as [E|NE].
  - unfold Py.round_half_even. rewrite <-E.
    assert (Hfrac : (x - inject_Z (Qfloor x) <= y - inject_Z (Qfloor x))%Q)
      by (by apply (proj2 (Qplus_le_l x y (- inject_Z (Qfloor x))%Q))).
    destruct (Qcompare_spec (x - inject_Z (Qfloor x)) (1 # 2)) as [Ex|Ex|Ex],
             (Qcompare_spec (y - inject_Z (Qfloor x)) (1 # 2)) as [Ey|Ey|Ey];
      try (destruct (Z.even (Qfloor x)); lia); try lia.
    + exfalso. rewrite Ex in Hfrac.
      by apply (Qlt_irrefl (1 # 2)), (Qle_lt_trans _ _ _ Hfrac).
    + exfalso. rewrite Ey in Hfrac.
      by apply (Qlt_irrefl (1 # 2)), (Qlt_le_trans _ _ _ Ex).
    + exfalso. apply (Qlt_irrefl (1 # 2)).
      apply Qlt_trans with (x - inject_Z (Qfloor x))%Q; [done|].
      by apply Qle_lt_trans with (y - inject_Z (Qfloor x))%Q.
  - destruct (round_half_even_floor x) as [->|[-> _]],
             (round_half_even_floor y) as [->|[-> _]]; lia.
Qed.

Lemma round_mono (x y : Q) (ndigits : nat) :
  (x <= y)%Q → (Py.round x ndigits <= Py.round y ndigits)%Q.
Proof.
  intros H. unfold Py.round. pose proof (round_scale_pos ndigits) as Hs.
  apply Qmult_le_compat_r; [|by apply Qlt_le_weak, Qinv_lt_0_compat].
  rewrite <-Zle_Qle. apply round_half_even_mono.
  apply Qmult_le_compat_r; [done | by apply Qlt_le_weak].
Qed.

Lemma elem_of_days_after (d : Shipment → Z) (group : list Shipment) (x : Q) :
  x ∈ days_after d group
  ↔ ∃ s a, s ∈ group ∧ s_actual_delivery s = Some a ∧ x = inject_Z (a - d s).
Proof.
  unfold days_after. rewrite list_elem_of_bind. split.
  - intros (s & Hx & Hs). destruct (s_actual_delivery s) as [a|] eqn:E.
    + apply list_elem_of_singleton in Hx. eauto.
    + by apply elem_of_nil in Hx.
  - intros (s & a & Hs & E & ->). exists s. rewrite E.
    split; [by apply list_elem_of_singleton | done].
Qed.

Lemma carrier_group_delivered db c l s :
  s ∈ carrier_group db c l → ∃ a, s_actual_delivery s = Some a.
Proof.
  intros Hs. apply list_elem_of_filter in Hs as [_ Hs].
  apply list_elem_of_filter in Hs as [[a Ha] _]. eauto.
Qed.

Lemma sql_aggregates_Some (l : list Q) (x : Q) :
  x ∈ l → ∃ mn a mx, Sql.min l = Some mn ∧ Sql.avg l = Some a
                     ∧ Sql.max l = Some mx.
Proof.
  destruct l as [|y l]; [by intros H; apply elem_of_nil in H|].
  intros _. simpl. eauto 10.
Qed.

(** X13. In every row of the carrier table the three delivery-time
    figures are present and ordered:
    min_delivery_days <= avg_delivery_days <= max_delivery_days. *)
Theorem carrier_delivery_days_ordered db r :
  r ∈ calculate_carrier_delivery_performance db →
  ∃ mn a mx,
    min_delivery_days r = Some mn ∧ avg_delivery_days r = Some a
    ∧ max_delivery_days r = Some mx ∧ (mn <= a)%Q ∧ (a <= mx)%Q.
Proof.
  intros Hr. apply elem_of_carrier_delivery_performance in Hr as (s & Hs & ->).
  simpl. set (group := carrier_group db _ _).
  assert (Hin : s ∈ group) by (by apply list_elem_of_filter).
  destruct (carrier_group_delivered _ _ _ _ Hin) as [a0 Ha0].
  assert (Hx : inject_Z (a0 - s_ship_date s) ∈ days_after s_ship_date group).
  { apply elem_of_days_after. eauto. }
  destruct (sql_aggregates_Some _ _ Hx) as (mn & a & mx & Hmn & Ha & Hmx).
  rewrite Hmn, Ha, Hmx. simpl.
  exists (Py.round mn 2), (Py.round a 2), (Py.round mx 2).
  split; [done|]. split; [done|]. split; [done|].
  split; apply round_mono.
  - apply (sql_avg_ge _ _ _ Ha). intros x Hx'. by apply (sql_min_le _ _ _ Hmn).
  - apply (sql_avg_le _ _ _ Ha). intros x Hx'. by apply (sql_max_ge _ _ _ Hmx).
Qed.

Lemma carrier_delivery_days_ordered_witness :
  scenario_carrier_performance
    ∈ calculate_carrier_delivery_performance scenario_db
  ∧ ∃ mn a mx,
      min_delivery_days scenario_carrier_performance = Some mn
      ∧ avg_delivery_days scenario_carrier_performance = Some a
      ∧ max_delivery_days scenario_carrier_performance = Some mx
      ∧ (mn <= a)%Q ∧ (a <= mx)%Q.
Proof.
  split; [exact scenario_carrier_row_returned|].
  exact (carrier_delivery_days_ordered scenario_db scenario_carrier_performance
           scenario_carrier_row_returned).
Defined.

(** X14. A row whose shipments were all delivered by their estimate
    has an average delay of at most 0; a row whose shipments were all
    delivered after their estimate has an average delay of at least 1
    day. *)
Theorem carrier_average_delay_sign db r :
  r ∈ calculate_carrier_delivery_performance db →
  let group := carrier_group db (carrier_id r) (service_level r) in
  ∃ d, avg_delay_days r = Some d
    ∧ ((∀ s, s ∈ group → delivered_by_estimate s) → (d <= 0)%Q)
    ∧ ((∀ s, s ∈ group → ¬ delivered_by_estimate s) → (1 <= d)%Q).
Proof.
  intros Hr. apply elem_of_carrier_delivery_performance in Hr as (s & Hs & ->).
  simpl. set (group := carrier_group db _ _).
  assert (Hin : s ∈ group) by (by apply list_elem_of_filter).
  destruct (carrier_group_delivered _ _ _ _ Hin) as [a0 Ha0].
  assert (Hx : inject_Z (a0 - s_estimated_delivery s)
               ∈ days_after s_estimated_delivery group).
  { apply elem_of_days_after. eauto. }
  destruct (sql_aggregates_Some _ _ Hx) as (_ & a & _ & _ & Ha & _).
  rewrite Ha. simpl. exists (Py.round a 2). split; [done|]. split.
  - intros Hall. apply (round_le_Z 0). apply (sql_avg_le _ _ _ Ha).
    intros x Hx'. apply elem_of_days_after in Hx' as (s' & a' & Hs' & Ea & ->).
    destruct (Hall _ Hs') as (a'' & Ea' & Hle).
    assert (a'' = a') as -> by congruence.
    rewrite <-Zle_Qle. lia.
  - intros Hnone. apply (round_ge_Z 1). apply (sql_avg_ge _ _ _ Ha).
    intros x Hx'. apply elem_of_days_after in Hx' as (s' & a' & Hs' & Ea & ->).
    rewrite <-Zle_Qle.
    destruct (Z_le_gt_dec a' (s_estimated_delivery s')) as [Hle|Hgt]; [|lia].
    exfalso. apply (Hnone _ Hs'). by exists a'.
Qed.

Lemma carrier_average_delay_sign_witness :
  scenario_carrier_performance
    ∈ calculate_carrier_delivery_performance scenario_db
  ∧ let group := carrier_group scenario_db "CarrierA" Standard in
    ∃ d, avg_delay_days scenario_carrier_performance = Some d
      ∧ ((∀ s, s ∈ group → delivered_by_estimate s) → (d <= 0)%Q)
      ∧ ((∀ s, s ∈ group → ¬ delivered_by_estimate s) → (1 <= d)%Q).
Proof.
  split; [exact scenario_carrier_row_returned|].
  exact (carrier_average_delay_sign scenario_db scenario_carrier_performance
           scenario_carrier_row_returned).
Defined.

(** ** The ORDER BY clauses *)

Lemma string_compare_refl (s : string) : String.compare s s = Eq.
Proof.
  pose proof (String.compare_antisym s s) as H.
  destruct (String.compare s s); done.
Qed.

Lemma string_compare_Gt (s1 s2 : string) :
  String.compare s1 s2 = Gt → String.compare s2 s1 = Lt.
Proof. intros H. rewrite String.compare_antisym, H. done. Qed.

Lemma string_compare_Eq (s1 s2 : string) :
  String.compare s1 s2 = Eq → String.compare s2 s1 = Eq.
Proof. intros H. rewrite String.compare_antisym, H. done. Qed.

Lemma string_leb_false (s1 s2 : string) :
  String.leb s1 s2 = false → String.leb s2 s1 = true.
Proof. intros H. destruct (String.leb_total s1 s2); congruence. Qed.

Lemma carrier_order_total x y :
  carrier_order x y = false → carrier_order y x = true.
Proof.
  unfold carrier_order.
  destruct (String.compare (carrier_id x) (carrier_id y)) eqn:E; [|done|].
  - rewrite (string_compare_Eq _ _ E). apply string_leb_false.
  - by rewrite (string_compare_Gt _ _ E).
Qed.

(** X15. The rows of the carrier table are in ascending order of
    carrier id (byte order), and rows of one carrier in ascending order
    of the service level text. *)
Theorem carrier_rows_ordered db i x y :
  calculate_carrier_delivery_performance db !! i = Some x →
  calculate_carrier_delivery_performance db !! S i = Some y →
  String.leb (carrier_id x) (carrier_id y) = true
  ∧ (carrier_id x = carrier_id y →
     String.leb (service_level_text (service_level x))
                (service_level_text (service_level y)) = true).
Proof.
  revert i x y. unfold calculate_carrier_delivery_performance, carrier_query.
  apply neighbours_fmap.
  intros i x y Hx Hy.
  pose proof (stable_sort_neighbours _ carrier_order_total _ i x y Hx Hy) as H.
  simpl. unfold carrier_order in H. unfold String.leb at 1.
  destruct (String.compare (carrier_id x) (carrier_id y)) eqn:E; [| |done].
  - done.
  - split; [done|]. intros Heq. rewrite Heq, string_compare_refl in E. done.
Qed.

Lemma carrier_rows_ordered_witness :
  ∃ x y,
    calculate_carrier_delivery_performance crowded_pair_db !! 0%nat = Some x
    ∧ calculate_carrier_delivery_performance crowded_pair_db !! 1%nat = Some y
    ∧ (carrier_id x, service_level x) = ("CarrierA", Express)
    ∧ (carrier_id y, service_level y) = ("CarrierA", Standard)
    ∧ String.leb (carrier_id x) (carrier_id y) = true
    ∧ (carrier_id x = carrier_id y →
       String.leb (service_level_text (service_level x))
                  (service_level_text (service_level y)) = true).
Proof.
  eexists _, _. split; [by_evaluation|]. split; [by_evaluation|].
  split; [by_evaluation|]. split; [by_evaluation|].
  apply (carrier_rows_ordered crowded_pair_db 0); by_evaluation.
Defined.

Lemma rate_desc_total x y : rate_desc x y = false → rate_desc y x = true.
Proof.
  unfold rate_desc. destruct x as [a|], y as [b|]; try done.
  intros H. apply Qle_bool_iff. apply Qlt_le_weak, Qnot_le_lt.
  intros H'. apply Qle_bool_iff in H'. congruence.
Qed.

Lemma shortage_order_total x y :
  shortage_order x y = false → shortage_order y x = true.
Proof.
  unfold shortage_order.
  destruct (String.compare _ _) eqn:E; [|done|].
  - rewrite (string_compare_Eq _ _ E).
    destruct (_ <? _) eqn:E1; [done|].
    destruct (status_priority (stock_status (shortage_row y))
              <? status_priority (stock_status (shortage_row x))) eqn:E2;
      [done|].
    apply rate_desc_total.
  - by rewrite (string_compare_Gt _ _ E).
Qed.

(** X16. The rows of the shortage table are in ascending order of
    warehouse id (byte order), and rows of one warehouse in the order
    OUT_OF_STOCK, CRITICAL, LOW, ADEQUATE. *)
Theorem shortage_rows_ordered db today i x y :
  analyze_inventory_shortages db today !! i = Some x →
  analyze_inventory_shortages db today !! S i = Some y →
  String.leb (sh_warehouse_id x) (sh_warehouse_id y) = true
  ∧ (sh_warehouse_id x = sh_warehouse_id y →
     status_priority (stock_status x) ≤ status_priority (stock_status y)).
Proof.
  revert i x y. unfold analyze_inventory_shortages, shortage_query.
  apply neighbours_fmap. apply neighbours_fmap.
  intros i x y Hx Hy.
  pose proof (stable_sort_neighbours _ shortage_order_total _ i x y Hx Hy) as H.
  unfold shortage_order in H.
  change (sh_warehouse_id (round_shortage_row (shortage_row ?j)))
    with (sh_warehouse_id (shortage_row j)).
  change (stock_status (round_shortage_row (shortage_row ?j)))
    with (stock_status (shortage_row j)).
  unfold String.leb.
  destruct (String.compare _ _) eqn:E; [| |done].
  - split; [done|]. intros _.
    destruct (_ <? _) eqn:E1; [apply Z.ltb_lt in E1; lia|].
    destruct (status_priority (stock_status (shortage_row y))
              <? status_priority (stock_status (shortage_row x))) eqn:E2;
      [done|].
    apply Z.ltb_ge in E2. done.
  - split; [done|]. intros Heq. rewrite Heq, string_compare_refl in E. done.
Qed.

Lemma shortage_rows_ordered_witness :
  ∃ x y,
    analyze_inventory_shortages ranking_db today !! 0%nat = Some x
    ∧ analyze_inventory_shortages ranking_db today !! 1%nat = Some y
    ∧ (sh_product_id x, stock_status x) = ("P002", "OUT_OF_STOCK")
    ∧ (sh_product_id y, stock_status y) = ("P001", "CRITICAL")
    ∧ String.leb (sh_warehouse_id x) (sh_warehouse_id y) = true
    ∧ (sh_warehouse_id x = sh_warehouse_id y →
       status_priority (stock_status x) ≤ status_priority (stock_status y)).
Proof.
  eexists _, _. split; [by_evaluation|]. split; [by_evaluation|].
  split; [by_evaluation|]. split; [by_evaluation|].
  apply (shortage_rows_ordered ranking_db today 0); by_evaluation.
Defined.

(** ** [identify_top_selling_products]: the five that are kept *)

Import Ranking.

Lemma neighbours_pairwise {A} (R : A → A → Prop) (l : list A) :
  (∀ x y z, R x y → R y z → R x z) →
  Py.neighbours R l →
  ∀ i j x y, (i < j)%nat → l !! i = Some x → l !! j = Some y → R x y.
Proof.
  intros Htrans Hl i j x y Hij Hx Hy.
  revert y Hy. induction Hij as [|j Hij IH]; intros y Hy.
  - by apply (Hl i).
  - destruct (l !! j) as [z|] eqn:Hz.
    + apply Htrans with z; [by apply IH | by apply (Hl j)].
    + apply lookup_ge_None in Hz. apply lookup_lt_Some in Hy. lia.
Qed.

Lemma ranked_products_neighbours db cutoff :
  Py.neighbours (λ x y, total_units_sold y ≤ total_units_sold x)
                (ranked_products db cutoff).
Proof.
  intros i x y Hx Hy. apply Z.leb_le. revert i x y Hx Hy.
  apply stable_sort_neighbours.
  intros x y H. apply Z.leb_le. apply Z.leb_gt in H. lia.
Qed.

(** X17. The table holds as many rows as there are products with a
    qualifying order, up to 5, and these are the best sellers: no
    product left out sold more units than a product of the table. *)
Theorem top_selling_are_the_best db today days :
  length (identify_top_selling_products db today days)
  = (5 `min` length (remove_dups (product_key <$> sales_rows db (today - days))))%nat
  ∧ ∀ x q,
      x ∈ identify_top_selling_products db today days →
      q ∈ drop 5 (ranked_products db (today - days)) →
      total_units_sold q ≤ total_units_sold x.
Proof.
  unfold identify_top_selling_products, top_selling_query.
  fold (ranked_products db (today - days)). split.
  - rewrite length_fmap, length_take. unfold ranked_products.
    rewrite length_stable_sort, length_fmap.
    unfold Sql.group_by. by rewrite length_fmap.
  - intros x q Hx Hq.
    apply list_elem_of_fmap in Hx as (x' & -> & Hx').
    apply list_elem_of_lookup in Hx' as [i Hi], Hq as [j Hj].
    apply lookup_take_Some in Hi as [Hi Hi5]. rewrite lookup_drop in Hj.
    change (total_units_sold (round_product_row x')) with (total_units_sold x').
    apply (neighbours_pairwise
             (λ x y, total_units_sold y ≤ total_units_sold x)
             (ranked_products db (today - days))
             ltac:(simpl; intros; lia) (ranked_products_neighbours _ _)
             i (5 + j)%nat); [lia|done|done].
Qed.

Lemma top_selling_are_the_best_witness :
  length (identify_top_selling_products sales_db today 90) = 5%nat
  ∧ (λ r, (ps_product_id r, total_units_sold r))
      <$> drop 5 (ranked_products sales_db (today - 90))
    = [("P005", 1)]
  ∧ ∀ x q,
      x ∈ identify_top_selling_products sales_db today 90 →
      q ∈ drop 5 (ranked_products sales_db (today - 90)) →
      total_units_sold q ≤ total_units_sold x.
Proof.
  split; [by_evaluation|]. split; [by_evaluation|].
  exact (proj2 (top_selling_are_the_best sales_db today 90)).
Defined.

(** ** [analyze_inventory_shortages]: demand rate, days of stock, status *)

(** The [demand_analysis] row LEFT JOINed to an inventory row is the
    one of its pair, and is missing exactly when the pair has no
    qualifying sale. *)
Lemma joined_demand db today w ci da p :
  (w, ci, da, p) ∈ shortage_join db today →
  match da with
  | None => pair_demand db (today - 30) (i_product_id ci) (i_warehouse_id ci) = []
  | Some d =>
      pair_demand db (today - 30) (i_product_id ci) (i_warehouse_id ci) ≠ []
      ∧ total_demand_30days d
        = total_sold db (today - 30) (i_product_id ci) (i_warehouse_id ci)
      ∧ da_daily_demand_rate d
        = (inject_Z (total_sold db (today - 30)
                       (i_product_id ci) (i_warehouse_id ci)) / 30)%Q
  end.
Proof.
  intros Hj. apply elem_of_shortage_join in Hj as (_ & _ & Hda & _ & _).
  set (matches := filter _ (demand_analysis db today)) in Hda.
  assert (Hrow : ∀ d, d ∈ matches →
    pair_demand db (today - 30) (i_product_id ci) (i_warehouse_id ci) ≠ []
    ∧ total_demand_30days d
      = total_sold db (today - 30) (i_product_id ci) (i_warehouse_id ci)
    ∧ da_daily_demand_rate d
      = (inject_Z (total_sold db (today - 30)
                     (i_product_id ci) (i_warehouse_id ci)) / 30)%Q).
  { intros d Hd. apply list_elem_of_filter in Hd as [[Hp Hw] Hd].
    unfold demand_analysis in Hd.
    apply list_elem_of_fmap in Hd as ([[p' w'] g] & -> & Hg).
    simpl in Hp, Hw. subst p' w'. simpl.
    pose proof (group_by_inhabited _ _ _ _ Hg) as [r Hr].
    apply elem_of_group_by in Hg as [_ ->].
    fold (pair_demand db (today - 30) (i_product_id ci) (i_warehouse_id ci)) in *.
    split; [|done]. intros E. rewrite E in Hr. by apply elem_of_nil in Hr. }
  destruct matches as [|d ds] eqn:E; unfold Sql.left_join in Hda.
  - apply list_elem_of_singleton in Hda as ->.
    destruct (pair_demand db (today - 30) (i_product_id ci) (i_warehouse_id ci))
      as [|r g] eqn:Eg; [done|]. exfalso.
    assert (Hr : r ∈ pair_demand db (today - 30)
                       (i_product_id ci) (i_warehouse_id ci))
      by (rewrite Eg; left).
    assert (Hin : {| da_product_id := i_product_id ci;
                     da_warehouse_id := i_warehouse_id ci;
                     order_frequency :=
                       SupplyChainAnalytics.count (r :: g);
                     total_demand_30days :=
                       Sql.sum_Z ((λ r, o_quantity r.1) <$> r :: g);
                     avg_demand_per_order :=
                       Sql.avg (inject_Z <$> ((λ r, o_quantity r.1) <$> r :: g));
                     da_daily_demand_rate :=
                       (inject_Z (Sql.sum_Z ((λ r, o_quantity r.1) <$> r :: g))
                        / 30)%Q |} ∈ matches).
    { unfold matches. apply list_elem_of_filter. split; [done|].
      unfold demand_analysis. apply list_elem_of_fmap.
      exists (i_product_id ci, i_warehouse_id ci, r :: g). split; [done|].
      apply elem_of_group_by. split.
      - apply list_elem_of_filter in Hr as [Hkey Hr].
        apply list_elem_of_fmap. eauto.
      - by rewrite <-Eg. }
    rewrite E in Hin. by apply elem_of_nil in Hin.
  - apply list_elem_of_fmap in Hda as (d' & -> & Hd'). by apply Hrow.
Qed.

Lemma shortage_query_row db today r :
  r ∈ shortage_query db today
  ↔ ∃ j, j ∈ shortage_join db today ∧ r = shortage_row j.
Proof.
  unfold shortage_query. rewrite list_elem_of_fmap.
  split; intros (j & H1 & H2).
  - apply elem_of_stable_sort in H2. eauto.
  - exists j. split; [done|]. by apply elem_of_stable_sort.
Qed.

(** On one and the same day the shortage query and the restocking
    engine see the same sales. *)
Lemma shortage_rate_same_day db today r :
  r ∈ shortage_query db today →
  daily_demand_rate r
  = velocity_of (default_sales_velocity db today)
                (sh_product_id r) (sh_warehouse_id r).
Proof.
  intros Hr. apply shortage_query_row in Hr as ([[[w ci] da] p] & Hj & ->).
  pose proof (joined_demand _ _ _ _ _ _ Hj) as Hda.
  apply elem_of_shortage_join in Hj as (_ & _ & _ & _ & Hw).
  simpl. rewrite <-Hw. unfold velocity_of.
  rewrite (calculate_sales_velocity_lookup db today 30 _
             (i_product_id ci) (i_warehouse_id ci) ltac:(done)
             (calculate_sales_velocity_default db today)).
  unfold demand_rate. destruct da as [d|]; simpl.
  - destruct Hda as (Hne & _ & Hrate). by rewrite decide_False, Hrate.
  - by rewrite decide_True.
Qed.

(** The joined rows of a window depend on its cutoff through the
    orders dated on or after it. *)
Lemma demand_rows_cutoff db cutoff1 cutoff2 :
  (∀ o, o ∈ orders db →
     cutoff1 ≤ o_order_date o ↔ cutoff2 ≤ o_order_date o) →
  demand_rows db cutoff1 = demand_rows db cutoff2.
Proof.
  unfold demand_rows. induction (orders db) as [|o os IH]; intros H; [done|].
  rewrite !bind_cons. f_equal.
  - assert (E : (cutoff1 <=? o_order_date o) = (cutoff2 <=? o_order_date o)).
    { specialize (H o ltac:(left)).
      destruct (Z.leb_spec cutoff1 (o_order_date o)),
               (Z.leb_spec cutoff2 (o_order_date o)); try done; lia. }
    by rewrite E.
  - apply IH. intros o' Ho'. apply H. by right.
Qed.

Lemma default_sales_velocity_cutoff db today1 today2 :
  (∀ o, o ∈ orders db →
     today1 - 30 ≤ o_order_date o ↔ today2 - 30 ≤ o_order_date o) →
  default_sales_velocity db today1 = default_sales_velocity db today2.
Proof.
  intros H. unfold default_sales_velocity, calculate_sales_velocity,
    sales_velocity_query.
  by rewrite (demand_rows_cutoff db _ _ H).
Qed.

(** X19. The shortage query dates its window from date('now'), the UTC
    date; the restocking engine from datetime.now(), the local date.
    When no order is dated between the two cutoffs, as when the two
    dates are the same day, the daily demand rate of a row of the
    shortage query is the sales velocity the restocking engine uses
    for the same pair: the 30-day total over 30, or 0.1 without a
    qualifying sale. *)
Theorem shortage_rate_is_restock_velocity db utc_today local_today r :
  (∀ o, o ∈ orders db →
     utc_today - 30 ≤ o_order_date o ↔ local_today - 30 ≤ o_order_date o) →
  r ∈ shortage_query db utc_today →
  daily_demand_rate r
  = velocity_of (default_sales_velocity db local_today)
                (sh_product_id r) (sh_warehouse_id r).
Proof.
  intros Hdates Hr.
  rewrite <-(default_sales_velocity_cutoff db utc_today local_today Hdates).
  by apply shortage_rate_same_day.
Qed.

Lemma ranking_db_no_order_between :
  ∀ o, o ∈ orders ranking_db →
    today - 30 ≤ o_order_date o ↔ (today - 1) - 30 ≤ o_order_date o.
Proof.
  intros o Ho. apply list_elem_of_singleton in Ho as ->. simpl.
  unfold today. lia.
Defined.

Lemma shortage_rate_is_restock_velocity_witness :
  ∃ r, shortage_query ranking_db today !! 1%nat = Some r
    ∧ (sh_product_id r, sh_warehouse_id r) = ("P001", "W01")
    ∧ (daily_demand_rate r == 2)%Q
    ∧ (∀ o, o ∈ orders ranking_db →
         today - 30 ≤ o_order_date o ↔ (today - 1) - 30 ≤ o_order_date o)
    ∧ daily_demand_rate r
      = velocity_of (default_sales_velocity ranking_db (today - 1))
                    (sh_product_id r) (sh_warehouse_id r).
Proof.
  eexists. split; [by_evaluation|]. split; [by_evaluation|].
  split; [by_evaluation|]. split; [exact ranking_db_no_order_between|].
  apply (shortage_rate_is_restock_velocity ranking_db today (today - 1) _
           ranking_db_no_order_between).
  apply (list_elem_of_lookup_2 _ 1%nat). by_evaluation.
Defined.

Lemma Qle_bool_false (x y : Q) : Qle_bool x y = false ↔ (y < x)%Q.
Proof.
  split.
  - intros H. apply Qnot_le_lt. intros H'. apply Qle_bool_iff in H'. congruence.
  - intros H. destruct (Qle_bool x y) eqn:E; [|done].
    apply Qle_bool_iff in E. by apply Qlt_not_le in H.
Qed.

(** The two CASE expressions agree on a positive rate. *)
Lemma status_by_days available da :
  (0 < demand_rate da)%Q → available ≠ 0 →
  let days := days_of_stock_of available da in
  days = (inject_Z available / demand_rate da)%Q
  ∧ (stock_status_of available da = "CRITICAL" ↔ (days < 7)%Q)
  ∧ (stock_status_of available da = "LOW" ↔ (7 <= days)%Q ∧ (days < 14)%Q)
  ∧ (stock_status_of available da = "ADEQUATE" ↔ (14 <= days)%Q).
Proof.
  intros Hrate Ha. unfold days_of_stock_of, stock_status_of, Sql.div.
  apply Z.eqb_neq in Ha. rewrite Ha.
  assert (E0 : Qle_bool (demand_rate da) 0 = false) by (by apply Qle_bool_false).
  rewrite E0. simpl negb. cbv zeta.
  assert (E1 : Qeq_bool (demand_rate da) 0 = false).
  { destruct (Qeq_bool _ 0) eqn:E; [|done]. apply Qeq_bool_iff in E.
    rewrite E in Hrate. by apply Qlt_irrefl in Hrate. }
  rewrite E1. simpl Sql.lt. unfold Sql.when. simpl default.
  set (days := (inject_Z available / demand_rate da)%Q).
  split; [done|].
  destruct (Qle_bool 7 days) eqn:E7; simpl negb.
  - apply Qle_bool_iff in E7.
    destruct (Qle_bool 14 days) eqn:E14; simpl negb.
    + apply Qle_bool_iff in E14.
      split; [|split]; (split; [done|]).
      * intros H. by apply Qle_not_lt in E7.
      * intros [_ H]. by apply Qle_not_lt in E14.
      * done.
    + apply Qle_bool_false in E14.
      split; [|split]; (split; [done|]).
      * intros H. by apply Qle_not_lt in E7.
      * done.
      * intros H. by apply Qle_not_lt in H.
  - apply Qle_bool_false in E7.
    split; [|split]; (split; [done|]).
    + done.
    + intros [H _]. by apply Qle_not_lt in H.
    + intros H. exfalso. apply (Qle_not_lt _ _ H).
      apply Qlt_trans with 7%Q; done.
Qed.

(** X20. In a row of the shortage query with a positive demand rate
    and a non-zero available stock, days_of_stock is the available
    stock divided by the rate, and the status follows it: CRITICAL
    below 7 days (so for every negative stock), LOW from 7 to below 14,
    ADEQUATE from 14 on. *)
Theorem shortage_status_follows_days db today r :
  r ∈ shortage_query db today →
  (0 < daily_demand_rate r)%Q → sh_available_stock r ≠ 0 →
  (days_of_stock r == inject_Z (sh_available_stock r) / daily_demand_rate r)%Q
  ∧ (stock_status r = "CRITICAL" ↔ (days_of_stock r < 7)%Q)
  ∧ (stock_status r = "LOW"
     ↔ (7 <= days_of_stock r)%Q ∧ (days_of_stock r < 14)%Q)
  ∧ (stock_status r = "ADEQUATE" ↔ (14 <= days_of_stock r)%Q)
  ∧ (sh_available_stock r < 0 → stock_status r = "CRITICAL").
Proof.
  intros Hr. apply shortage_query_row in Hr as ([[[w ci] da] p] & _ & ->).
  simpl. intros Hrate Ha.
  destruct (status_by_days (available_stock ci) da Hrate Ha)
    as (Hdays & Hc & Hl & Had).
  split; [by rewrite Hdays|]. split; [done|]. split; [done|]. split; [done|].
  intros Hneg. apply Hc. rewrite Hdays.
  apply Qlt_trans with 0%Q; [|done].
  apply Qlt_shift_div_r; [done|]. rewrite Qmult_0_l.
  unfold Qlt. simpl. lia.
Qed.

Lemma shortage_status_follows_days_witness :
  ∃ r, shortage_query ranking_db today !! 1%nat = Some r
    ∧ (sh_available_stock r, stock_status r) = (5, "CRITICAL")
    ∧ (0 < daily_demand_rate r)%Q ∧ sh_available_stock r ≠ 0
    ∧ (days_of_stock r == inject_Z (sh_available_stock r) / daily_demand_rate r)%Q
    ∧ (stock_status r = "CRITICAL" ↔ (days_of_stock r < 7)%Q)
    ∧ (stock_status r = "LOW"
       ↔ (7 <= days_of_stock r)%Q ∧ (days_of_stock r < 14)%Q)
    ∧ (stock_status r = "ADEQUATE" ↔ (14 <= days_of_stock r)%Q)
    ∧ (sh_available_stock r < 0 → stock_status r = "CRITICAL").
Proof.
  eexists. split; [by_evaluation|]. split; [by_evaluation|].
  split; [by_evaluation|]. split; [by vm_compute|].
  apply (shortage_status_follows_days ranking_db today).
  - apply (list_elem_of_lookup_2 _ 1%nat). by_evaluation.
  - by_evaluation.
  - by vm_compute.
Defined.

(** X21. A row of the shortage table is OUT_OF_STOCK exactly when its
    available stock is 0.  For a pair without a qualifying sale in the
    last 30 days the rate is the default 0.1, so a negative stock is
    CRITICAL, one unit is LOW, two units or more are ADEQUATE, and the
    demand of the last 30 days is reported as 0. *)
Theorem shortage_without_demand db today r :
  r ∈ analyze_inventory_shortages db today →
  (stock_status r = "OUT_OF_STOCK" ↔ sh_available_stock r = 0)
  ∧ (pair_demand db (today - 30) (sh_product_id r) (sh_warehouse_id r) = [] →
     demand_last_30days r = 0
     ∧ (sh_available_stock r < 0 → stock_status r = "CRITICAL")
     ∧ (sh_available_stock r = 1 → stock_status r = "LOW")
     ∧ (2 ≤ sh_available_stock r → stock_status r = "ADEQUATE")).
Proof.
  intros Hr.
  apply elem_of_analyze_inventory_shortages in Hr as ([[[w ci] da] p] & Hj & ->).
  pose proof (joined_demand _ _ _ _ _ _ Hj) as Hda.
  apply elem_of_shortage_join in Hj as (_ & _ & _ & _ & Hw).
  simpl. rewrite <-Hw. split.
  - unfold stock_status_of. destruct (available_stock ci =? 0) eqn:E.
    + apply Z.eqb_eq in E. done.
    + apply Z.eqb_neq in E. split; [|done].
      destruct (Sql.when _); [done|]. destruct (Sql.when _); done.
  - intros Hnone. destruct da as [d|]; [by destruct Hda|].
    split; [done|].
    assert (Hrate : (0 < demand_rate None)%Q) by done.
    split; [|split].
    + intros Hneg.
      destruct (status_by_days (available_stock ci) None Hrate ltac:(lia))
        as (Hdays & Hc & _). apply Hc. rewrite Hdays.
      unfold demand_rate, Qlt, Qdiv, Qmult, Qinv, inject_Z. simpl. lia.
    + intros ->. by_evaluation.
    + intros Hge.
      destruct (status_by_days (available_stock ci) None Hrate ltac:(lia))
        as (Hdays & _ & _ & Had). apply Had. rewrite Hdays.
      unfold demand_rate, Qle, Qdiv, Qmult, Qinv, inject_Z. simpl. lia.
Qed.

Lemma shortage_without_demand_witness :
  ∃ r, analyze_inventory_shortages idle_db today !! 0%nat = Some r
    ∧ (sh_product_id r, sh_warehouse_id r, sh_available_stock r)
      = ("P002", "W02", 1)
    ∧ pair_demand idle_db (today - 30) "P002" "W02" = []
    ∧ (stock_status r = "OUT_OF_STOCK" ↔ sh_available_stock r = 0)
    ∧ (pair_demand idle_db (today - 30) (sh_product_id r) (sh_warehouse_id r)
       = [] →
       demand_last_30days r = 0
       ∧ (sh_available_stock r < 0 → stock_status r = "CRITICAL")
       ∧ (sh_available_stock r = 1 → stock_status r = "LOW")
       ∧ (2 ≤ sh_available_stock r → stock_status r = "ADEQUATE")).
Proof.
  eexists. split; [by_evaluation|]. split; [by_evaluation|].
  split; [by_evaluation|].
  apply (shortage_without_demand idle_db today).
  apply (list_elem_of_lookup_2 _ 0%nat). by_evaluation.
Defined.

(** ** [calculate_restock_recommendations] on sound data *)

Lemma default_sales_velocity_positive db today p w :
  (∀ o, o ∈ orders db → 0 < o_quantity o) →
  (0 < velocity_of (default_sales_velocity db today) p w)%Q.
Proof.
  intros Hq. unfold velocity_of.
  destruct (default_sales_velocity db today !! (p, w)) as [v|] eqn:E; [|done].
  simpl. pose proof (calculate_sales_velocity_default db today) as Hsv.
  unfold calculate_sales_velocity in Hsv.
  destruct (velocity_loop_Ok 30 (sales_velocity_query db (today - 30)) ∅
              ltac:(done)) as (m & Hm & Hval).
  assert (m = default_sales_velocity db today) as -> by congruence.
  destruct (Hval _ _ E) as [Hempty|(total & Hrow & ->)].
  - by rewrite lookup_empty in Hempty.
  - apply inject_Z_div_pos; [|done].
    by apply (sales_velocity_query_pos db (today - 30) p w).
Qed.

Lemma shipment_time_positive db w :
  (∀ s a, s ∈ shipment db → s_actual_delivery s = Some a → s_ship_date s ≤ a) →
  (0 < shipment_time_of (get_average_shipment_time db) w)%Q.
Proof.
  intros Hdates. unfold shipment_time_of.
  rewrite get_average_shipment_time_lookup.
  destruct (delivered_from db w) as [|s g] eqn:E; [done|]. rewrite <-E.
  simpl. unfold avg_days_or_default.
  destruct (Sql.avg _) as [d|] eqn:Ed; [|done].
  destruct (Qeq_bool d 0) eqn:E0; [done|].
  apply Qeq_bool_neq in E0.
  assert (Hd : (0 <= d)%Q).
  { apply (sql_avg_ge _ _ _ Ed). intros x Hx.
    unfold delivery_days in Hx. apply list_elem_of_bind in Hx as (s' & Hx & Hs').
    destruct (s_actual_delivery s') as [a|] eqn:Ea; [|by apply elem_of_nil in Hx].
    apply list_elem_of_singleton in Hx as ->.
    apply list_elem_of_filter in Hs' as [_ Hs'].
    apply list_elem_of_filter in Hs' as [_ Hs'].
    specialize (Hdates _ _ Hs' Ea).
    change 0%Q with (inject_Z 0). rewrite <-Zle_Qle. lia. }
  apply Qle_lteq in Hd as [Hd|Hd]; [done|]. by symmetry in Hd.
Qed.

(** X22. On a database whose order quantities are positive and whose
    deliveries are not dated before their shipment, with a
    non-negative restock threshold, every reorder point is positive:
    [calculate_restock_recommendations] returns a list, it does not
    raise, and every urgency score of the list is at least 0. *)
Theorem restock_returns_on_sound_data db today ssd rtd :
  (∀ o, o ∈ orders db → 0 < o_quantity o) →
  (∀ s a, s ∈ shipment db → s_actual_delivery s = Some a → s_ship_date s ≤ a) →
  0 ≤ rtd →
  (∀ p w, (0 < reorder_point_of (default_sales_velocity db today)
                 (get_average_shipment_time db) rtd p w)%Q)
  ∧ ∃ recs,
      calculate_restock_recommendations db today ssd rtd = Py.Ok recs
      ∧ ∀ r, r ∈ recs → (0 <= urgency_score r)%Q.
Proof.
  intros Hq Hdates Hrtd.
  assert (Hrp : ∀ p w,
    (0 < reorder_point_of (default_sales_velocity db today)
           (get_average_shipment_time db) rtd p w)%Q).
  { intros p w. unfold reorder_point_of.
    apply Qmult_lt_0_compat; [by apply default_sales_velocity_positive|].
    apply Qlt_le_trans with (shipment_time_of (get_average_shipment_time db) w);
      [by apply shipment_time_positive|].
    rewrite <-(Qplus_0_r (shipment_time_of _ w)) at 1.
    apply Qplus_le_r. change 0%Q with (inject_Z 0). by rewrite <-Zle_Qle. }
  split; [done|].
  destruct (calculate_restock_recommendations_total db today ssd rtd)
    as [recs Hrecs].
  { intros p w data _ _ H0. specialize (Hrp p w). rewrite H0 in Hrp.
    by apply Qlt_irrefl in Hrp. }
  exists recs. split; [done|]. intros r Hr.
  by apply (urgency_score_bounds db today ssd rtd recs r Hrecs Hr).
Qed.

Lemma scenario_deliveries_after_shipment :
  ∀ s a, s ∈ shipment scenario_db → s_actual_delivery s = Some a →
         s_ship_date s ≤ a.
Proof.
  intros s a Hs. apply list_elem_of_singleton in Hs as ->.
  intros [= <-]. by vm_compute.
Defined.

Lemma restock_returns_on_sound_data_witness :
  (∀ o, o ∈ orders scenario_db → 0 < o_quantity o)
  ∧ (∀ s a, s ∈ shipment scenario_db → s_actual_delivery s = Some a →
            s_ship_date s ≤ a)
  ∧ 0 ≤ 7
  ∧ (∀ p w, (0 < reorder_point_of (default_sales_velocity scenario_db today)
                   (get_average_shipment_time scenario_db) 7 p w)%Q)
  ∧ ∃ recs,
      calculate_restock_recommendations scenario_db today 14 7 = Py.Ok recs
      ∧ ∀ r, r ∈ recs → (0 <= urgency_score r)%Q.
Proof.
  split; [exact scenario_quantities_positive|].
  split; [exact scenario_deliveries_after_shipment|].
  split; [by vm_compute|].
  exact (restock_returns_on_sound_data scenario_db today 14 7
           scenario_quantities_positive scenario_deliveries_after_shipment
           ltac:(by vm_compute)).
Defined.

(** X23. Every record of the list returned is for a row of the
    inventory table, reports the available stock of that row, stock
    minus reserved, and that stock is at most the reorder point of the
    pair. *)
Theorem recommendations_come_from_inventory db today ssd rtd recs r :
  calculate_restock_recommendations db today ssd rtd = Py.Ok recs →
  r ∈ recs →
  (∃ row, row ∈ inventory db
          ∧ i_product_id row = product_id r
          ∧ i_warehouse_id row = warehouse_id r
          ∧ current_available_stock r
            = i_stock_quantity row - i_reserved_quantity row)
  ∧ (inject_Z (current_available_stock r)
     <= reorder_point_of (default_sales_velocity db today)
          (get_average_shipment_time db) rtd
          (product_id r) (warehouse_id r))%Q.
Proof.
  intros Hrecs Hr.
  apply (elem_of_recommendations _ _ _ _ _ _ Hrecs) in Hr
    as ([[p w] data] & Hin & Hr).
  apply recommend_Some in Hr as (Htrig & _ & -> & -> & -> & _).
  split.
  - apply elem_of_get_current_inventory in Hin as (row & Hrow & Hp & Hw & ->).
    exists row. done.
  - by apply restock_needed_iff.
Qed.

Lemma recommendations_come_from_inventory_witness :
  calculate_restock_recommendations scenario_db today 14 7
  = Py.Ok [scenario_recommendation]
  ∧ (∃ row, row ∈ inventory scenario_db
            ∧ i_product_id row = product_id scenario_recommendation
            ∧ i_warehouse_id row = warehouse_id scenario_recommendation
            ∧ current_available_stock scenario_recommendation
              = i_stock_quantity row - i_reserved_quantity row)
  ∧ (inject_Z (current_available_stock scenario_recommendation)
     <= reorder_point_of (default_sales_velocity scenario_db today)
          (get_average_shipment_time scenario_db) 7
          (product_id scenario_recommendation)
          (warehouse_id scenario_recommendation))%Q.
Proof.
  split; [exact scenario_recommendations_eq|].
  refine (recommendations_come_from_inventory scenario_db today 14 7
            [scenario_recommendation] scenario_recommendation
            scenario_recommendations_eq _).
  left.
Defined.

(** ** [identify_top_selling_products]: what a row adds up *)

Lemma filter_bind {A B} (P : B → Prop) `{∀ x, Decision (P x)}
    (f : A → list B) (l : list A) :
  filter P (l ≫= f) = l ≫= (λ x, filter P (f x)).
Proof.
  induction l as [|x l IH]; [done|].
  rewrite !bind_cons, filter_app, IH. done.
Qed.

(** The rows one product contributes to the join. *)
Lemma sales_rows_inner db cutoff (p : Product) :
  (orders db ≫= λ o,
     if bool_decide (p_product_id p = o_product_id o)
        && (cutoff <=? o_order_date o) && shipped_or_delivered o
     then [(p, o)] else [])
  = (λ o, (p, o)) <$> qualifying_orders db cutoff (p_product_id p).
Proof.
  unfold qualifying_orders. induction (orders db) as [|o os IH]; [done|].
  rewrite bind_cons, IH, filter_cons.
  destruct (bool_decide _) eqn:E1; simpl.
  - apply bool_decide_eq_true in E1.
    destruct (cutoff <=? o_order_date o) eqn:E2; simpl.
    + apply Z.leb_le in E2. destruct (shipped_or_delivered o) eqn:E3.
      * rewrite decide_True by done. done.
      * rewrite decide_False; [done|]. intros (_ & _ & H). done.
    + apply Z.leb_gt in E2. rewrite decide_False; [done|]. intros (_ & H & _). lia.
  - apply bool_decide_eq_false in E1. rewrite decide_False; [done|]. tauto.
Qed.

Lemma sales_rows_bind db cutoff :
  sales_rows db cutoff
  = product db ≫= λ p,
      (λ o, (p, o)) <$> qualifying_orders db cutoff (p_product_id p).
Proof.
  unfold sales_rows. induction (product db) as [|p ps IH]; [done|].
  rewrite !bind_cons. f_equal; [apply sales_rows_inner | apply IH].
Qed.

Lemma filter_product_rows (P : Product * Order → Prop) `{∀ x, Decision (P x)}
    (p : Product) (os : list Order) :
  (∀ o, P (p, o)) → filter P ((λ o, (p, o)) <$> os) = (λ o, (p, o)) <$> os.
Proof.
  intros HP. induction os as [|o os IH]; [done|].
  rewrite fmap_cons, filter_cons_True by done. by rewrite IH.
Qed.

Lemma filter_product_rows_none (P : Product * Order → Prop)
    `{∀ x, Decision (P x)} (p : Product) (os : list Order) :
  (∀ o, ¬ P (p, o)) → filter P ((λ o, (p, o)) <$> os) = [].
Proof.
  intros HP. induction os as [|o os IH]; [done|].
  rewrite fmap_cons, filter_cons_False by done. done.
Qed.

(** Under the primary key of the product table the GROUP BY group of a
    product holds one joined row per qualifying order of the product. *)
Lemma product_group db cutoff (p0 : Product) (o0 : Order) :
  NoDup (p_product_id <$> product db) →
  p0 ∈ product db →
  filter (λ r, product_key r = product_key (p0, o0)) (sales_rows db cutoff)
  = (λ o, (p0, o)) <$> qualifying_orders db cutoff (p_product_id p0).
Proof.
  rewrite sales_rows_bind, filter_bind.
  assert (Hkey : ∀ p o, product_key (p, o) = product_key (p0, o0)
                        → p_product_id p = p_product_id p0)
    by (intros p o [= ? _ _ _]; done).
  induction (product db) as [|p ps IH]; intros Hnd Hin.
  - by apply elem_of_nil in Hin.
  - rewrite fmap_cons in Hnd. apply NoDup_cons in Hnd as [Hfresh Hnd].
    rewrite bind_cons.
    assert (Hrest : p_product_id p0 ∉ p_product_id <$> ps →
      (ps ≫= λ x, filter (λ r, product_key r = product_key (p0, o0))
                    ((λ o, (x, o)) <$> qualifying_orders db cutoff (p_product_id x)))
      = []).
    { clear. intros Hout. induction ps as [|q qs IHq]; [done|].
      rewrite fmap_cons in Hout. apply not_elem_of_cons in Hout as [Hne Hout].
      rewrite bind_cons, IHq by done.
      rewrite filter_product_rows_none; [done|].
      intros o [= E _ _ _]. congruence. }
    apply elem_of_cons in Hin as [->|Hin].
    + rewrite filter_product_rows by done. rewrite Hrest by done.
      by rewrite app_nil_r.
    + rewrite filter_product_rows_none.
      * by apply IH.
      * intros o Hk. apply Hkey in Hk. apply Hfresh. rewrite Hk.
        apply list_elem_of_fmap. eauto.
Qed.

Lemma elem_of_sales_rows_product db cutoff p o :
  (p, o) ∈ sales_rows db cutoff → p ∈ product db.
Proof.
  rewrite sales_rows_bind, list_elem_of_bind.
  intros (p' & Hin & Hp'). apply list_elem_of_fmap in Hin as (o' & [= -> ->] & _).
  done.
Qed.

(** X24. Under the primary key of the product table, a row of the
    top-selling table is for a product of the product table that has
    at least one order that is Shipped or Delivered and dated in the
    window, and its total units sold, order count and customer count
    are the sum of the quantities, the number of distinct order ids
    and the number of distinct customer ids of those orders. *)
Theorem top_selling_row_adds_up db today days r :
  NoDup (p_product_id <$> product db) →
  r ∈ identify_top_selling_products db today days →
  let sales := qualifying_orders db (today - days) (ps_product_id r) in
  (∃ p, p ∈ product db ∧ p_product_id p = ps_product_id r)
  ∧ sales ≠ []
  ∧ total_units_sold r = Sql.sum_Z (o_quantity <$> sales)
  ∧ total_orders r = Sql.count_distinct (o_order_id <$> sales)
  ∧ unique_customers r = Sql.count_distinct (o_customer_id <$> sales).
Proof.
  intros Hnd Hr. unfold identify_top_selling_products, top_selling_query in Hr.
  apply list_elem_of_fmap in Hr as (r' & -> & Hr').
  apply elem_of_take in Hr' as (i & Hr' & _).
  apply list_elem_of_lookup_2 in Hr'. apply elem_of_stable_sort in Hr'.
  apply list_elem_of_fmap in Hr' as ([k g] & -> & Hg).
  pose proof (group_by_inhabited _ _ _ _ Hg) as [[p0 o0] Hrow].
  pose proof (group_by_member _ _ _ _ _ Hg Hrow) as [Hin Hk].
  apply elem_of_group_by in Hg as [_ ->].
  apply elem_of_sales_rows_product in Hin.
  assert (Hgroup : filter (λ r, product_key r = k) (sales_rows db (today - days))
                   = (λ o, (p0, o))
                       <$> qualifying_orders db (today - days) (p_product_id p0)).
  { rewrite <-(product_group db (today - days) p0 o0 Hnd Hin).
    by rewrite <-Hk. }
  rewrite Hgroup in Hrow |- *. subst k. simpl.
  rewrite <-!list_fmap_compose.
  split; [eauto|]. split; [|done].
  intros E. rewrite E in Hrow. by apply elem_of_nil in Hrow.
Qed.

Lemma sales_db_product_key : NoDup (p_product_id <$> product sales_db).
Proof. apply (bool_decide_unpack _). by_evaluation. Defined.

Lemma top_selling_row_adds_up_witness :
  ∃ r, identify_top_selling_products sales_db today 90 !! 2%nat = Some r
    ∧ (ps_product_id r, total_units_sold r, total_orders r) = ("P001", 6, 2)
    ∧ NoDup (p_product_id <$> product sales_db)
    ∧ let sales := qualifying_orders sales_db (today - 90) (ps_product_id r) in
      (∃ p, p ∈ product sales_db ∧ p_product_id p = ps_product_id r)
      ∧ sales ≠ []
      ∧ total_units_sold r = Sql.sum_Z (o_quantity <$> sales)
      ∧ total_orders r = Sql.count_distinct (o_order_id <$> sales)
      ∧ unique_customers r = Sql.count_distinct (o_customer_id <$> sales).
Proof.
  eexists. split; [by_evaluation|]. split; [by_evaluation|].
  split; [exact sales_db_product_key|].
  apply (top_selling_row_adds_up sales_db today 90 _ sales_db_product_key).
  apply (list_elem_of_lookup_2 _ 2%nat). by_evaluation.
Defined.

(** * restocking_system.py in double precision *)

(** ** The result monad and the conversions *)

Lemma bind64_Ok {A B} (m : Float64.result A) (k : A → Float64.result B) (b : B) :
  m ≫= k = Float64.Ok b ↔ ∃ a, m = Float64.Ok a ∧ k a = Float64.Ok b.
Proof.
  destruct m as [a|e]; simpl.
  - split; [eauto | intros (a' & [= <-] & ?); done].
  - split; [done | intros (? & [=] & _)].
Qed.

(** [int(x)] returns exactly on the finite doubles, and is then the
    truncation of the number [x] denotes. *)
Lemma int64_Ok (x : Float64.float) (n : Z) :
  Float64.int x = Float64.Ok n
  ↔ Float64.is_finite x = true ∧ n = Py.int (Float64.to_Q x).
Proof.
  destruct x; simpl; split; try done; try (intros [= <-]; done);
    try (intros [_ ->]; done); intros [[=] _].
Qed.

(** ** The recommendation loop *)

Section engine64_facts.
Variable sales_velocity : gmap (string * string) Float64.float.
Variable shipment_times : gmap string Float64.float.
Variables safety_stock_days restock_threshold_days : Z.

Abbreviation recommend64 :=
  (RestockingSystem64.recommend sales_velocity shipment_times
     safety_stock_days restock_threshold_days).
Abbreviation restock_loop64 :=
  (RestockingSystem64.restock_loop sales_velocity shipment_times
     safety_stock_days restock_threshold_days).
Abbreviation reorder_point_of64 :=
  (RestockingSystem64.reorder_point_of sales_velocity shipment_times
     restock_threshold_days).
Abbreviation target_stock_of64 :=
  (RestockingSystem64.target_stock_of sales_velocity safety_stock_days).

(** What an emitted record says about the pair it was computed from. *)
Lemma recommend64_Some p w data r :
  recommend64 (p, w, data) = Float64.Ok (Some r) →
  ∃ reorder_point target_stock difference truncated,
    reorder_point_of64 p w = Float64.Ok reorder_point
    ∧ Float64.int_le (available_quantity data) reorder_point = true
    ∧ target_stock_of64 p w = Float64.Ok target_stock
    ∧ Float64.sub_int target_stock (available_quantity data)
      = Float64.Ok difference
    ∧ Float64.int difference = Float64.Ok truncated
    ∧ RestockingSystem64.product_id r = p
    ∧ RestockingSystem64.warehouse_id r = w
    ∧ RestockingSystem64.current_available_stock r = available_quantity data
    ∧ RestockingSystem64.recommended_restock_quantity r = Z.max 1 truncated.
Proof.
  unfold RestockingSystem64.recommend. intros H.
  apply bind64_Ok in H as (safety_stock & Hsafety & H).
  apply bind64_Ok in H as (reorder_point & Hreorder & H).
  destruct (Float64.int_le _ reorder_point) eqn:Htrig; [|done].
  apply bind64_Ok in H as (replenishment & Hrepl & H).
  apply bind64_Ok in H as (difference & Hdiff & H).
  apply bind64_Ok in H as (truncated & Htrunc & H).
  apply bind64_Ok in H as (gap & _ & H).
  apply bind64_Ok in H as (ratio & _ & H).
  apply bind64_Ok in H as (percentage & _ & H).
  injection H as <-.
  exists reorder_point, (Float64.add safety_stock replenishment),
         difference, truncated.
  simpl. repeat (split; [done|]). split; [|done].
  unfold RestockingSystem64.target_stock_of.
  apply bind64_Ok. exists safety_stock. split; [done|].
  apply bind64_Ok. eauto.
Qed.

(** An iteration that returns appends a record for a triggered pair. *)
Lemma recommend64_triggered p w data o reorder_point :
  recommend64 (p, w, data) = Float64.Ok o →
  reorder_point_of64 p w = Float64.Ok reorder_point →
  Float64.int_le (available_quantity data) reorder_point = true →
  ∃ r, o = Some r.
Proof.
  unfold RestockingSystem64.recommend. intros H Hreorder Htrig.
  apply bind64_Ok in H as (safety_stock & _ & H).
  rewrite Hreorder in H. apply bind64_Ok in H as (? & [= <-] & H).
  rewrite Htrig in H.
  apply bind64_Ok in H as (replenishment & _ & H).
  apply bind64_Ok in H as (difference & _ & H).
  apply bind64_Ok in H as (truncated & _ & H).
  apply bind64_Ok in H as (gap & _ & H).
  apply bind64_Ok in H as (ratio & _ & H).
  apply bind64_Ok in H as (percentage & _ & H).
  injection H as <-. eauto.
Qed.

(** The loop appends, in order, the records of the items that emit
    one, and completes only if no item raises. *)
Lemma restock_loop64_Ok items acc recs :
  restock_loop64 items acc = Float64.Ok recs →
  (∀ r, r ∈ recs ↔
        r ∈ acc ∨ ∃ item, item ∈ items
                          ∧ recommend64 item = Float64.Ok (Some r))
  ∧ (∀ item, item ∈ items → ∃ o, recommend64 item = Float64.Ok o).
Proof.
  revert acc. induction items as [|item items IH]; intros acc; simpl.
  - intros [= <-]. split.
    + intros r. split; [by left|]. intros [?|(? & H & _)]; [done|].
      by apply elem_of_nil in H.
    + intros ? H. by apply elem_of_nil in H.
  - destruct (recommend64 item) as [o|e] eqn:E; simpl; [|done].
    intros Hloop. destruct (IH _ Hloop) as [Hmem Hall]. split.
    + intros r. rewrite Hmem. split.
      * intros [Hacc|(it & Hit & Hr)].
        -- destruct o as [rec|]; [|by left].
           apply elem_of_app in Hacc as [?|Hrec]; [by left|].
           apply list_elem_of_singleton in Hrec as ->.
           right. exists item. split; [left|done].
        -- right. exists it. split; [by right|done].
      * intros [Hacc|(it & Hit & Hr)].
        -- left. destruct o; [apply elem_of_app|]; auto.
        -- apply elem_of_cons in Hit as [->|Hit].
           ++ left. rewrite E in Hr. injection Hr as ->.
              apply elem_of_app. right. by apply list_elem_of_singleton.
           ++ right. eauto.
    + intros it Hit. apply elem_of_cons in Hit as [->|Hit]; eauto.
Qed.
End engine64_facts.

(** ** [calculate_restock_recommendations] in double precision *)

Section recommendations64.
Variables (db : Database) (today ssd rtd : Z).

Abbreviation velocities64 := (RestockingSystem64.default_sales_velocity db today).
Abbreviation times64 := (RestockingSystem64.get_average_shipment_time db).

Lemma calculate_restock_recommendations64_Ok recs :
RestockingSystem64.calculate_restock_recommendations db today ssd rtd
= Float64.Ok recs →
∃ unsorted,
  RestockingSystem64.restock_loop velocities64 times64 ssd rtd
    (get_current_inventory db) [] = Float64.Ok unsorted
  ∧ recs = Float64.sort_reverse RestockingSystem64.urgency_score unsorted.
Proof.
unfold RestockingSystem64.calculate_restock_recommendations. intros H.
apply bind64_Ok in H as (sales_velocity & Hvelocity & H).
apply bind64_Ok in H as (unsorted & Hloop & [= <-]).
exists unsorted. split; [|done].
unfold RestockingSystem64.default_sales_velocity. by rewrite Hvelocity.
Qed.

(** The records returned are those of the pairs of the inventory
  dictionary that emit one, and every pair is processed. *)
Lemma elem_of_recommendations64 recs :
RestockingSystem64.calculate_restock_recommendations db today ssd rtd
= Float64.Ok recs →
(∀ r, r ∈ recs ↔
   ∃ item, item ∈ get_current_inventory db
           ∧ RestockingSystem64.recommend velocities64 times64 ssd rtd item
             = Float64.Ok (Some r))
∧ (∀ item, item ∈ get_current_inventory db →
     ∃ o, RestockingSystem64.recommend velocities64 times64 ssd rtd item
          = Float64.Ok o).
Proof.
intros Hrecs.
apply calculate_restock_recommendations64_Ok in Hrecs as (unsorted & Hloop & ->).
apply restock_loop64_Ok in Hloop as [Hmem Hall]. split; [|done].
intros r. unfold Float64.sort_reverse. rewrite elem_of_stable_sort, Hmem.
split; [|by right]. intros [Hnil|?]; [|done]. by apply elem_of_nil in Hnil.
Qed.

(** C1 (as amended). With every float the double the code computes:
  for every pair of the inventory dictionary with available_quantity
  <= reorder_point, the list returned holds a record for the pair,
  and the recommended quantity of every such record is
  max(1, int(target_stock - available_quantity)) with target_stock =
  safety_stock + velocity * 30: the difference truncated toward zero,
  not rounded; in particular it is the truncated difference whenever
  that is at least 1. *)
Theorem C1_recommended_quantity_truncates recs p w data reorder_point :
RestockingSystem64.calculate_restock_recommendations db today ssd rtd
= Float64.Ok recs →
(p, w, data) ∈ get_current_inventory db →
RestockingSystem64.reorder_point_of velocities64 times64 rtd p w
= Float64.Ok reorder_point →
Float64.int_le (available_quantity data) reorder_point = true →
∃ target_stock difference,
  RestockingSystem64.target_stock_of velocities64 ssd p w
  = Float64.Ok target_stock
  ∧ Float64.sub_int target_stock (available_quantity data)
    = Float64.Ok difference
  ∧ Float64.is_finite difference = true
  ∧ (∃ r, r ∈ recs ∧ RestockingSystem64.product_id r = p
          ∧ RestockingSystem64.warehouse_id r = w)
  ∧ ∀ r, r ∈ recs → RestockingSystem64.product_id r = p →
      RestockingSystem64.warehouse_id r = w →
      RestockingSystem64.recommended_restock_quantity r
      = Z.max 1 (Py.int (Float64.to_Q difference))
      ∧ (1 ≤ Py.int (Float64.to_Q difference) →
         RestockingSystem64.recommended_restock_quantity r
         = Py.int (Float64.to_Q difference)).
Proof.
intros Hrecs Hin Hreorder Htrig.
pose proof (get_current_inventory_NoDup db) as Hnd.
destruct (elem_of_recommendations64 _ Hrecs) as [Hmem Hall].
destruct (Hall _ Hin) as [o Ho].
destruct (recommend64_triggered _ _ _ _ _ _ _ _ _ Ho Hreorder Htrig) as [r0 ->].
destruct (recommend64_Some _ _ _ _ _ _ _ _ Ho)
  as (reorder_point' & target_stock & difference & truncated
      & _ & _ & Htarget & Hdiff & Htrunc & Hp0 & Hw0 & _ & Hqty0).
apply int64_Ok in Htrunc as [Hfinite ->].
exists target_stock, difference.
split; [done|]. split; [done|]. split; [done|]. split.
- exists r0. split; [|done]. apply Hmem. eauto.
- intros r Hr Hp Hw.
  apply Hmem in Hr as ([[p' w'] data'] & Hin' & Hr).
  destruct (recommend64_Some _ _ _ _ _ _ _ _ Hr)
    as (_ & _ & _ & _ & _ & _ & _ & _ & _ & Hp' & Hw' & _).
  assert (p' = p) as -> by congruence.
  assert (w' = w) as -> by congruence.
  assert (data' = data) as ->.
  { eapply (NoDup_fst_functional _ (p, w)); eauto. }
  assert (r = r0) as -> by congruence.
  split; [done|]. lia.
Qed.

(** X9. For every record of the list returned, the shortfall the code
  computes, the double target_stock - available_quantity, is finite;
  a shortfall of at most one unit is answered with exactly 1 unit, a
  larger one with the shortfall rounded down: more than shortfall - 1
  units and no more than the shortfall. *)
Theorem recommended_quantity_closes_shortfall recs r :
RestockingSystem64.calculate_restock_recommendations db today ssd rtd
= Float64.Ok recs →
r ∈ recs →
∃ target_stock shortfall,
  RestockingSystem64.target_stock_of velocities64 ssd
    (RestockingSystem64.product_id r) (RestockingSystem64.warehouse_id r)
  = Float64.Ok target_stock
  ∧ Float64.sub_int target_stock (RestockingSystem64.current_available_stock r)
    = Float64.Ok shortfall
  ∧ Float64.is_finite shortfall = true
  ∧ ((Float64.to_Q shortfall <= 1)%Q →
     RestockingSystem64.recommended_restock_quantity r = 1)
  ∧ ((1 <= Float64.to_Q shortfall)%Q →
     (Float64.to_Q shortfall - 1
      < inject_Z (RestockingSystem64.recommended_restock_quantity r))%Q
     ∧ (inject_Z (RestockingSystem64.recommended_restock_quantity r)
        <= Float64.to_Q shortfall)%Q).
Proof.
intros Hrecs Hr.
destruct (elem_of_recommendations64 _ Hrecs) as [Hmem _].
apply Hmem in Hr as ([[p w] data] & _ & Hr).
destruct (recommend64_Some _ _ _ _ _ _ _ _ Hr)
  as (_ & target_stock & shortfall & truncated
      & _ & _ & Htarget & Hdiff & Htrunc & -> & -> & -> & ->).
apply int64_Ok in Htrunc as [Hfinite ->].
exists target_stock, shortfall.
split; [done|]. split; [done|]. split; [done|].
destruct (int_bounds (Float64.to_Q shortfall)) as (Hlo & Hhi & Hone).
split.
- intros H. apply Hone in H. lia.
- intros H.
  assert (H0 : (0 <= Float64.to_Q shortfall)%Q)
    by (by apply Qle_trans with 1%Q).
  specialize (Hhi H0).
  assert (H1 : 0 < Py.int (Float64.to_Q shortfall)).
  { rewrite Zlt_Qlt.
    apply Qle_lt_trans with (Float64.to_Q shortfall - 1)%Q; [|done].
    apply (proj1 (Qle_minus_iff 1 (Float64.to_Q shortfall))) in H. exact H. }
  rewrite Z.max_r by lia. done.
Qed.

(** X25. In double precision, when the call returns: the list holds a
  record for a pair of the inventory dictionary exactly when the
  available quantity of the pair is at most its reorder point, the
  double velocity * (avg_shipment_time + restock_threshold_days); and
  every record of the list recommends at least 1 unit. *)
Theorem double_reorder_point_decides recs p w data reorder_point :
RestockingSystem64.calculate_restock_recommendations db today ssd rtd
= Float64.Ok recs →
(p, w, data) ∈ get_current_inventory db →
RestockingSystem64.reorder_point_of velocities64 times64 rtd p w
= Float64.Ok reorder_point →
((∃ r, r ∈ recs ∧ RestockingSystem64.product_id r = p
       ∧ RestockingSystem64.warehouse_id r = w)
 ↔ Float64.int_le (available_quantity data) reorder_point = true)
∧ ∀ r, r ∈ recs → 1 ≤ RestockingSystem64.recommended_restock_quantity r.
Proof.
intros Hrecs Hin Hreorder.
pose proof (get_current_inventory_NoDup db) as Hnd.
destruct (elem_of_recommendations64 _ Hrecs) as [Hmem Hall].
split; [split|].
- intros (r & Hr & Hp & Hw).
  apply Hmem in Hr as ([[p' w'] data'] & Hin' & Hr).
  destruct (recommend64_Some _ _ _ _ _ _ _ _ Hr)
    as (reorder_point' & _ & _ & _ & Hreorder' & Htrig & _ & _ & _
        & Hp' & Hw' & _).
  assert (p' = p) as -> by congruence.
  assert (w' = w) as -> by congruence.
  assert (data' = data) as ->.
  { eapply (NoDup_fst_functional _ (p, w)); eauto. }
  congruence.
- intros Htrig. destruct (Hall _ Hin) as [o Ho].
  destruct (recommend64_triggered _ _ _ _ _ _ _ _ _ Ho Hreorder Htrig)
    as [r ->].
  exists r. split; [apply Hmem; eauto|].
  destruct (recommend64_Some _ _ _ _ _ _ _ _ Ho)
    as (_ & _ & _ & _ & _ & _ & _ & _ & _ & Hp & Hw & _). done.
- intros r Hr. apply Hmem in Hr as ([[p' w'] data'] & _ & Hr).
  destruct (recommend64_Some _ _ _ _ _ _ _ _ Hr)
    as (_ & _ & _ & truncated & _ & _ & _ & _ & _ & _ & _ & _ & ->). lia.
Qed.

End recommendations64.

(** ** Sample computations in double precision *)

Import Examples.

(** The literal [0.1] is the double 0x1.999999999999ap-4, a little
    above one tenth. *)
Lemma tenth_is_rounded :
  Float64.of_Q (1 # 10) = S754_finite false 0x1999999999999a (-56)
  ∧ (1 # 10 < Float64.to_Q (Float64.of_Q (1 # 10)))%Q.
Proof. split; by_evaluation. Qed.

Lemma month_recommendations_eq :
  RestockingSystem64.calculate_restock_recommendations month_db today 30 7
  = Float64.Ok [month_recommendation].
Proof. by_evaluation. Defined.

Lemma month_entry :
  ("P001", "W01", inventory_entry (mk_inventory "P001" "W01" 0 0))
    ∈ get_current_inventory month_db.
Proof. vm_compute. left. Defined.

(** 123 / 30 is the double 4.1, and 4.1 * (5.0 + 7) the double
    49.199999999999996. *)
Lemma month_reorder_point :
  RestockingSystem64.reorder_point_of
    (RestockingSystem64.default_sales_velocity month_db today)
    (RestockingSystem64.get_average_shipment_time month_db) 7 "P001" "W01"
  = Float64.Ok (Float64.of_Q (49199999999999996 # 1000000000000000)).
Proof. by_evaluation. Defined.

Lemma month_triggered :
  Float64.int_le 0 (Float64.of_Q (49199999999999996 # 1000000000000000)) = true.
Proof. by_evaluation. Defined.

(** 4.1 * 30 is the double 122.99999999999999, and the sum of two of
    them the double 245.99999999999997. *)
Lemma month_target_stock :
  RestockingSystem64.target_stock_of
    (RestockingSystem64.default_sales_velocity month_db today) 30 "P001" "W01"
  = Float64.Ok (Float64.of_Q (24599999999999997 # 100000000000000)).
Proof. by_evaluation. Defined.

Lemma C1_recommended_quantity_truncates_witness :
  RestockingSystem64.calculate_restock_recommendations month_db today 30 7
  = Float64.Ok [month_recommendation]
  ∧ ("P001", "W01", inventory_entry (mk_inventory "P001" "W01" 0 0))
      ∈ get_current_inventory month_db
  ∧ RestockingSystem64.reorder_point_of
      (RestockingSystem64.default_sales_velocity month_db today)
      (RestockingSystem64.get_average_shipment_time month_db) 7 "P001" "W01"
    = Float64.Ok (Float64.of_Q (49199999999999996 # 1000000000000000))
  ∧ Float64.int_le 0 (Float64.of_Q (49199999999999996 # 1000000000000000))
    = true
  ∧ RestockingSystem64.target_stock_of
      (RestockingSystem64.default_sales_velocity month_db today) 30 "P001" "W01"
    = Float64.Ok (Float64.of_Q (24599999999999997 # 100000000000000))
  ∧ RestockingSystem64.recommended_restock_quantity month_recommendation = 245
  ∧ ∃ target_stock difference,
      RestockingSystem64.target_stock_of
        (RestockingSystem64.default_sales_velocity month_db today)
        30 "P001" "W01" = Float64.Ok target_stock
      ∧ Float64.sub_int target_stock 0 = Float64.Ok difference
      ∧ Float64.is_finite difference = true
      ∧ (∃ r, r ∈ [month_recommendation]
              ∧ RestockingSystem64.product_id r = "P001"
              ∧ RestockingSystem64.warehouse_id r = "W01")
      ∧ ∀ r, r ∈ [month_recommendation] →
          RestockingSystem64.product_id r = "P001" →
          RestockingSystem64.warehouse_id r = "W01" →
          RestockingSystem64.recommended_restock_quantity r
          = Z.max 1 (Py.int (Float64.to_Q difference))
          ∧ (1 ≤ Py.int (Float64.to_Q difference) →
             RestockingSystem64.recommended_restock_quantity r
             = Py.int (Float64.to_Q difference)).
Proof.
  split; [exact month_recommendations_eq|].
  split; [exact month_entry|].
  split; [exact month_reorder_point|].
  split; [exact month_triggered|].
  split; [exact month_target_stock|].
  split; [reflexivity|].
  exact (C1_recommended_quantity_truncates month_db today 30 7
           [month_recommendation] "P001" "W01" _ _
           month_recommendations_eq month_entry
           month_reorder_point month_triggered).
Defined.

(** C1 (as stated) fails: with 2 units sold in the window and none in
    stock the target is the double 2.9333333333333336; the record
    carries 2 where max(1, round(2.9333333333333336)) is 3. *)
Lemma C1_rounding_counterexample :
  ∃ r,
    RestockingSystem64.calculate_restock_recommendations fraction_db today 14 7
    = Float64.Ok [r]
    ∧ RestockingSystem64.product_id r = "P001"
    ∧ RestockingSystem64.warehouse_id r = "W01"
    ∧ ("P001", "W01", inventory_entry (mk_inventory "P001" "W01" 0 0))
        ∈ get_current_inventory fraction_db
    ∧ RestockingSystem64.reorder_point_of
        (RestockingSystem64.default_sales_velocity fraction_db today)
        (RestockingSystem64.get_average_shipment_time fraction_db)
        7 "P001" "W01"
      = Float64.Ok (Float64.of_Q (8 # 10))
    ∧ Float64.int_le 0 (Float64.of_Q (8 # 10)) = true
    ∧ RestockingSystem64.target_stock_of
        (RestockingSystem64.default_sales_velocity fraction_db today)
        14 "P001" "W01"
      = Float64.Ok (Float64.of_Q (29333333333333336 # 10000000000000000))
    ∧ RestockingSystem64.recommended_restock_quantity r = 2
    ∧ Spec.recommended_quantity
        (Float64.of_Q (29333333333333336 # 10000000000000000)) 0
      = Float64.Ok 3.
Proof.
  eexists. split; [by_evaluation|].
  split; [reflexivity|]. split; [reflexivity|].
  split; [vm_compute; left|].
  split; [by_evaluation|]. split; [by_evaluation|].
  split; [by_evaluation|]. split; by_evaluation.
Qed.

(** A rounded digit decides a trigger.  With 9 units sold and
    deliveries of 6, 6 and 7 days the reorder point is 4 in exact
    arithmetic and the double 3.9999999999999996 in the code's, so 4
    units in stock are not restocked: the list returned is empty. *)
Lemma thirds_db_not_triggered :
  (RestockingSystem.reorder_point_of
     (RestockingSystem.default_sales_velocity thirds_db today)
     (RestockingSystem.get_average_shipment_time thirds_db) 7 "P001" "W01"
   == 4)%Q
  ∧ RestockingSystem64.reorder_point_of
      (RestockingSystem64.default_sales_velocity thirds_db today)
      (RestockingSystem64.get_average_shipment_time thirds_db) 7 "P001" "W01"
    = Float64.Ok (Float64.of_Q (39999999999999996 # 10000000000000000))
  ∧ Float64.int_le 4 (Float64.of_Q (39999999999999996 # 10000000000000000))
    = false
  ∧ RestockingSystem64.calculate_restock_recommendations thirds_db today 14 7
    = Float64.Ok [].
Proof.
  split; [apply Qeq_bool_iff; by_evaluation|].
  split; [by_evaluation|]. split; by_evaluation.
Qed.

Lemma thirds_recommendations_eq :
  RestockingSystem64.calculate_restock_recommendations thirds_db today 14 7
  = Float64.Ok [].
Proof. by_evaluation. Defined.

Lemma thirds_entry :
  ("P001", "W01", inventory_entry (mk_inventory "P001" "W01" 4 0))
    ∈ get_current_inventory thirds_db.
Proof. vm_compute. left. Defined.

Lemma thirds_reorder_point :
  RestockingSystem64.reorder_point_of
    (RestockingSystem64.default_sales_velocity thirds_db today)
    (RestockingSystem64.get_average_shipment_time thirds_db) 7 "P001" "W01"
  = Float64.Ok (Float64.of_Q (39999999999999996 # 10000000000000000)).
Proof. by_evaluation. Defined.

Lemma double_reorder_point_decides_witness :
  RestockingSystem64.calculate_restock_recommendations thirds_db today 14 7
  = Float64.Ok []
  ∧ ("P001", "W01", inventory_entry (mk_inventory "P001" "W01" 4 0))
      ∈ get_current_inventory thirds_db
  ∧ RestockingSystem64.reorder_point_of
      (RestockingSystem64.default_sales_velocity thirds_db today)
      (RestockingSystem64.get_average_shipment_time thirds_db) 7 "P001" "W01"
    = Float64.Ok (Float64.of_Q (39999999999999996 # 10000000000000000))
  ∧ Float64.int_le 4 (Float64.of_Q (39999999999999996 # 10000000000000000))
    = false
  ∧ ((∃ r, r ∈ [] ∧ RestockingSystem64.product_id r = "P001"
           ∧ RestockingSystem64.warehouse_id r = "W01")
     ↔ Float64.int_le 4 (Float64.of_Q (39999999999999996 # 10000000000000000))
       = true)
  ∧ ∀ r, r ∈ [] → 1 ≤ RestockingSystem64.recommended_restock_quantity r.
Proof.
  split; [exact thirds_recommendations_eq|].
  split; [exact thirds_entry|].
  split; [exact thirds_reorder_point|].
  split; [by_evaluation|].
  exact (double_reorder_point_decides thirds_db today 14 7 [] "P001" "W01" _ _
           thirds_recommendations_eq thirds_entry thirds_reorder_point).
Defined.

Lemma recommended_quantity_closes_shortfall_witness :
  RestockingSystem64.calculate_restock_recommendations month_db today 30 7
  = Float64.Ok [month_recommendation]
  ∧ month_recommendation ∈ [month_recommendation]
  ∧ ∃ target_stock shortfall,
      RestockingSystem64.target_stock_of
        (RestockingSystem64.default_sales_velocity month_db today) 30
        (RestockingSystem64.product_id month_recommendation)
        (RestockingSystem64.warehouse_id month_recommendation)
      = Float64.Ok target_stock
      ∧ Float64.sub_int target_stock
          (RestockingSystem64.current_available_stock month_recommendation)
        = Float64.Ok shortfall
      ∧ Float64.is_finite shortfall = true
      ∧ ((Float64.to_Q shortfall <= 1)%Q →
         RestockingSystem64.recommended_restock_quantity month_recommendation
         = 1)
      ∧ ((1 <= Float64.to_Q shortfall)%Q →
         (Float64.to_Q shortfall - 1
          < inject_Z (RestockingSystem64.recommended_restock_quantity
                        month_recommendation))%Q
         ∧ (inject_Z (RestockingSystem64.recommended_restock_quantity
                        month_recommendation)
            <= Float64.to_Q shortfall)%Q).
Proof.
  split; [exact month_recommendations_eq|].
  split; [left|].
  refine (recommended_quantity_closes_shortfall month_db today 30 7
            [month_recommendation] month_recommendation
            month_recommendations_eq _).
  left.
Defined.

(** * The shortage classification, row by row *)

Lemma NoDup_fmap_eq {A B} (f : A → B) (l : list A) (x y : A) :
  NoDup (f <$> l) → x ∈ l → y ∈ l → f x = f y → x = y.
Proof.
  induction l as [|a l IH]; intros Hnd Hx Hy Hf.
  - by apply elem_of_nil in Hx.
  - rewrite fmap_cons in Hnd. apply NoDup_cons in Hnd as [Hfresh Hnd].
    apply elem_of_cons in Hx as [->|Hx], Hy as [->|Hy]; [done| | |by apply IH].
    + exfalso. apply Hfresh. rewrite Hf. apply list_elem_of_fmap. eauto.
    + exfalso. apply Hfresh. rewrite <-Hf. apply list_elem_of_fmap. eauto.
Qed.

(** The rate LEFT JOINed to an inventory row is that of its pair,
    whichever joined row carries it. *)
Lemma joined_demand_rate db today w1 w2 ci da1 da2 p1 p2 :
  (w1, ci, da1, p1) ∈ shortage_join db today →
  (w2, ci, da2, p2) ∈ shortage_join db today →
  demand_rate da1 = demand_rate da2.
Proof.
  intros H1 H2.
  apply joined_demand in H1. apply joined_demand in H2.
  unfold demand_rate. destruct da1 as [d1|], da2 as [d2|]; simpl; try done.
  - destruct H1 as (_ & _ & ->), H2 as (_ & _ & ->). done.
  - by destruct H1 as [H1 _].
  - by destruct H2 as [H2 _].
Qed.

Lemma stock_status_of_rate available da1 da2 :
  demand_rate da1 = demand_rate da2 →
  stock_status_of available da1 = stock_status_of available da2.
Proof. intros H. unfold stock_status_of. by rewrite H. Qed.

(** The inventory key: (product_id, warehouse_id). *)
Abbreviation inventory_key :=
  (λ i : Inventory, (i_product_id i, i_warehouse_id i)).

(** C7 (as amended). The query joins the warehouse table: an inventory
    row has a row in the shortage table exactly when its warehouse_id
    is in the warehouse table.  Under the primary key of the inventory
    table the rows of the shortage table for the pair of an inventory
    row all report its available stock and carry one and the same
    status, one of the four distinct texts, and OUT_OF_STOCK when the
    available stock is 0, at any demand rate.  Every row of the
    shortage table carries one of the four texts, and OUT_OF_STOCK
    when its available stock is 0; the CASE itself is total. *)
Theorem C7_shortage_classification_total db today ci :
  NoDup (inventory_key <$> inventory db) →
  ci ∈ inventory db →
  let rows :=
    filter (λ r, sh_product_id r = i_product_id ci
                 ∧ sh_warehouse_id r = i_warehouse_id ci)
           (analyze_inventory_shortages db today) in
  NoDup stock_statuses
  ∧ (rows ≠ [] ↔ ∃ w, w ∈ warehouse db ∧ w_warehouse_id w = i_warehouse_id ci)
  ∧ (∃ status,
       status ∈ stock_statuses
       ∧ (available_stock ci = 0 → status = "OUT_OF_STOCK")
       ∧ ∀ r, r ∈ rows →
           sh_available_stock r = available_stock ci
           ∧ stock_status r = status)
  ∧ (∀ r, r ∈ analyze_inventory_shortages db today →
       stock_status r ∈ stock_statuses
       ∧ (sh_available_stock r = 0 → stock_status r = "OUT_OF_STOCK"))
  ∧ (∀ available da,
       stock_status_of available da ∈ stock_statuses
       ∧ (available = 0 → stock_status_of available da = "OUT_OF_STOCK")).
Proof.
  intros Hkey Hci rows.
  destruct (left_join_inhabited
              (filter (λ da, i_product_id ci = da_product_id da
                             ∧ i_warehouse_id ci = da_warehouse_id da)
                      (demand_analysis db today))) as [da0 Hda0].
  destruct (left_join_inhabited
              (filter (λ p, i_product_id ci = p_product_id p) (product db)))
    as [p0 Hp0].
  assert (Hrows : ∀ r, r ∈ rows →
    ∃ w da p, (w, ci, da, p) ∈ shortage_join db today
              ∧ r = round_shortage_row (shortage_row (w, ci, da, p))).
  { intros r Hr. apply list_elem_of_filter in Hr as [[Hp Hw] Hr].
    apply elem_of_analyze_inventory_shortages in Hr
      as ([[[w ci'] da] p] & Hj & ->).
    simpl in Hp, Hw.
    pose proof Hj as Hj'.
    apply elem_of_shortage_join in Hj' as (_ & Hci' & _ & _ & Hwh).
    assert (ci' = ci) as ->.
    { apply (NoDup_fmap_eq inventory_key (inventory db)); [done..|].
      simpl. congruence. }
    eauto. }
  split; [|split; [|split; [|split]]].
  - apply (bool_decide_unpack (NoDup stock_statuses)). by_evaluation.
  - split.
    + intros Hne. destruct rows as [|r rows'] eqn:E; [done|].
      destruct (Hrows r ltac:(left)) as (w & da & p & Hj & _).
      apply elem_of_shortage_join in Hj as (Hw & _ & _ & _ & Hwh). eauto.
    + intros (w & Hw & Hwh) E.
      assert (Hr : round_shortage_row (shortage_row (w, ci, da0, p0)) ∈ rows).
      { apply list_elem_of_filter. split; [simpl; done|].
        apply elem_of_analyze_inventory_shortages. exists (w, ci, da0, p0).
        split; [|done]. by apply elem_of_shortage_join. }
      rewrite E in Hr. by apply elem_of_nil in Hr.
  - exists (stock_status_of (available_stock ci) da0).
    split; [apply stock_status_of_total|]. split.
    + intros ->. apply stock_status_of_zero.
    + intros r Hr. destruct (Hrows r Hr) as (w & da & p & Hj & ->).
      simpl. split; [done|]. apply stock_status_of_rate.
      apply (joined_demand_rate db today w w ci da da0 p p0); [done|].
      apply elem_of_shortage_join in Hj as (Hw & _ & _ & _ & Hwh).
      by apply elem_of_shortage_join.
  - intros r Hr.
    apply elem_of_analyze_inventory_shortages in Hr as ([[[w ci'] da] p] & _ & ->).
    simpl. split; [apply stock_status_of_total|].
    intros ->. apply stock_status_of_zero.
  - intros available da. split; [apply stock_status_of_total|].
    intros ->. apply stock_status_of_zero.
Qed.

Lemma ranking_db_inventory_key : NoDup (inventory_key <$> inventory ranking_db).
Proof. apply (bool_decide_unpack _). by_evaluation. Defined.

Lemma ranking_db_out_of_stock_row :
  mk_inventory "P002" "W01" 0 0 ∈ inventory ranking_db.
Proof. right. left. Defined.

Lemma C7_shortage_classification_total_witness :
  (stock_status <$> analyze_inventory_shortages ranking_db today
   = ["OUT_OF_STOCK"; "CRITICAL"])
  ∧ NoDup (inventory_key <$> inventory ranking_db)
  ∧ mk_inventory "P002" "W01" 0 0 ∈ inventory ranking_db
  ∧ let ci := mk_inventory "P002" "W01" 0 0 in
    let rows :=
      filter (λ r, sh_product_id r = i_product_id ci
                   ∧ sh_warehouse_id r = i_warehouse_id ci)
             (analyze_inventory_shortages ranking_db today) in
    NoDup stock_statuses
    ∧ (rows ≠ []
       ↔ ∃ w, w ∈ warehouse ranking_db
              ∧ w_warehouse_id w = i_warehouse_id ci)
    ∧ (∃ status,
         status ∈ stock_statuses
         ∧ (available_stock ci = 0 → status = "OUT_OF_STOCK")
         ∧ ∀ r, r ∈ rows →
             sh_available_stock r = available_stock ci
             ∧ stock_status r = status)
    ∧ (∀ r, r ∈ analyze_inventory_shortages ranking_db today →
         stock_status r ∈ stock_statuses
         ∧ (sh_available_stock r = 0 → stock_status r = "OUT_OF_STOCK"))
    ∧ (∀ available da,
         stock_status_of available da ∈ stock_statuses
         ∧ (available = 0 → stock_status_of available da = "OUT_OF_STOCK")).
Proof.
  split; [by_evaluation|].
  split; [exact ranking_db_inventory_key|].
  split; [exact ranking_db_out_of_stock_row|].
  exact (C7_shortage_classification_total ranking_db today
           (mk_inventory "P002" "W01" 0 0)
           ranking_db_inventory_key ranking_db_out_of_stock_row).
Defined.

(** C7 (as stated) fails: the inventory row of P001 in W99, a warehouse
    the warehouse table does not hold, has no row in the shortage
    table and so receives no status; the row of P002 in W02 has one. *)
Lemma C7_unknown_warehouse_counterexample :
  mk_inventory "P001" "W99" 3 0 ∈ inventory orphan_db
  ∧ NoDup (inventory_key <$> inventory orphan_db)
  ∧ (λ r, (sh_product_id r, sh_warehouse_id r, stock_status r))
      <$> analyze_inventory_shortages orphan_db today
    = [("P002", "W02", "LOW")]
  ∧ filter (λ r, sh_product_id r = "P001" ∧ sh_warehouse_id r = "W99")
           (analyze_inventory_shortages orphan_db today) = [].
Proof.
  split; [left|].
  split; [apply (bool_decide_unpack _); by_evaluation|].
  split; by_evaluation.
Qed.
